(** * XRAW voxel volumes: the parser and the writer of [xraw_parser_writer.py]

    A shallow embedding of the two classes [XRawVolumeParser] and
    [XRawVolumeWriter], and the properties of the binary layout they share.

    Conventions of the embedding.
    - Python integers are [Z]; a [bytes] object is a [list byte].
    - Every method is a computation in a state-and-exception monad over the
      object it is called on: an exception leaves the object (and the read
      position of its file) as it was when the exception was raised.
    - [struct] formats without a byte-order prefix use the byte order of the
      machine; the embedding is that of a little-endian machine.
    - numpy's float64 cells are binary64 values ([spec_float] of the
      Standard Library, precision 53, emax 1024).  numpy's behaviour is that
      of NumPy 2.2 or later.
    - Running out of memory is not modelled. *)

From Stdlib Require Import ZArith Lia List String Ascii.
From Stdlib.Strings Require Import Byte.
From Stdlib Require Import SpecFloat.
From stdpp Require Import base list strings gmap.

Local Open Scope Z_scope.

(** ** Exceptions and the monad of methods *)

Inductive exn : Type :=
| ValueError (msg : string)
| UnicodeDecodeError              (* a subclass of ValueError *)
| UnicodeEncodeError              (* a subclass of ValueError *)
| struct_error
| IndexError
| TypeError
| OverflowError
| AttributeError
| FileNotFoundError
| KeyError
| LoopBoundExceeded.              (* not a Python exception: the bound given
                                     to a [while] loop of the embedding was
                                     too small; shown unreachable below *)

(** [isinstance(e, ValueError)]. *)
Definition is_ValueError (e : exn) : bool :=
  match e with
  | ValueError _ | UnicodeDecodeError | UnicodeEncodeError => true
  | _ => false
  end.

Inductive outcome (A : Type) : Type :=
| Ok (a : A)
| Raise (e : exn).
Arguments Ok {A} a.
Arguments Raise {A} e.

Definition pym (S A : Type) : Type := S -> outcome A * S.

Definition ret {S A} (a : A) : pym S A := fun s => (Ok a, s).
Definition raise {S A} (e : exn) : pym S A := fun s => (Raise e, s).
Definition bind {S A B} (m : pym S A) (k : A -> pym S B) : pym S B :=
  fun s => match m s with
           | (Ok a, s') => k a s'
           | (Raise e, s') => (Raise e, s')
           end.
Definition gets {S A} (f : S -> A) : pym S A := fun s => (Ok (f s), s).
Definition modify {S} (f : S -> S) : pym S unit := fun s => (Ok tt, f s).
Definition lift {S A} (o : outcome A) : pym S A := fun s => (o, s).

Declare Scope py_scope.
Delimit Scope py_scope with py.
Notation "x <- c1 ;; c2" := (bind c1 (fun x => c2))
  (at level 100, c1 at next level, right associativity) : py_scope.
Notation "c1 ;; c2" := (bind c1 (fun _ => c2))
  (at level 100, right associativity) : py_scope.
Local Open Scope py_scope.

(** [for x in xs: body(x)]. *)
Fixpoint for_each {S A} (xs : list A) (body : A -> pym S unit) : pym S unit :=
  match xs with
  | [] => ret tt
  | x :: xs' => body x ;; for_each xs' body
  end.

(** [for i in range(n): body(i)]; [range(n)] is empty when [n <= 0]. *)
Definition for_range {S} (n : Z) (body : nat -> pym S unit) : pym S unit :=
  for_each (seq 0 (Z.to_nat n)) body.

(** ** Bytes and integers *)

Definition byte_val (b : byte) : Z := Z.of_N (Byte.to_N b).

(** [bytes([v])]: one byte when [0 <= v < 256], else
    [ValueError: bytes must be in range(0, 256)]. *)
Definition byte_of_int (v : Z) : outcome byte :=
  if (0 <=? v) && (v <? 256) then
    match Byte.of_N (Z.to_N v) with
    | Some b => Ok b
    | None => Raise (ValueError "bytes must be in range(0, 256)")
    end
  else Raise (ValueError "bytes must be in range(0, 256)").

(** [int.from_bytes(bs, byteorder='little')]; [0] on the empty string. *)
Fixpoint int_from_bytes_little (bs : list byte) : Z :=
  match bs with
  | [] => 0
  | b :: bs' => byte_val b + 256 * int_from_bytes_little bs'
  end.

(** The [n] low bytes of [v], least significant first. *)
Fixpoint le_bytes (n : nat) (v : Z) : list Z :=
  match n with
  | O => []
  | S n' => (v mod 256) :: le_bytes n' (v / 256)
  end.

(** [v.to_bytes(4, 'little', signed=False)]. *)
Definition int_to_bytes4 (v : Z) : outcome (list byte) :=
  if v <? 0 then Raise OverflowError
  else if 2 ^ 32 <=? v then Raise OverflowError
  else
    match mapM (fun z => Byte.of_N (Z.to_N z)) (le_bytes 4 v) with
    | Some bs => Ok bs
    | None => Raise OverflowError
    end.

(** ** Text: UTF-8 *)

Definition in_range (lo hi v : Z) : bool := (lo <=? v) && (v <=? hi).
Definition is_cont (v : Z) : bool := in_range 0x80 0xBF v.

(** The second byte of a three-byte sequence excludes the overlong forms and
    the surrogates; that of a four-byte sequence the overlong forms and the
    code points above U+10FFFF. *)
Definition second_of3 (v0 v1 : Z) : bool :=
  if v0 =? 0xE0 then in_range 0xA0 0xBF v1
  else if v0 =? 0xED then in_range 0x80 0x9F v1
  else is_cont v1.
Definition second_of4 (v0 v1 : Z) : bool :=
  if v0 =? 0xF0 then in_range 0x90 0xBF v1
  else if v0 =? 0xF4 then in_range 0x80 0x8F v1
  else is_cont v1.

(** [bs.decode('utf-8')], strict: the code points, or [None] where Python
    raises [UnicodeDecodeError]. *)
Fixpoint utf8_decode (bs : list byte) : option (list Z) :=
  match bs with
  | [] => Some []
  | b0 :: r0 =>
    let v0 := byte_val b0 in
    if v0 <? 0x80 then cons v0 <$> utf8_decode r0
    else
      match r0 with
      | [] => None
      | b1 :: r1 =>
        let v1 := byte_val b1 in
        if in_range 0xC2 0xDF v0 then
          if is_cont v1
          then cons ((v0 - 0xC0) * 64 + (v1 - 0x80)) <$> utf8_decode r1
          else None
        else
          match r1 with
          | [] => None
          | b2 :: r2 =>
            let v2 := byte_val b2 in
            if in_range 0xE0 0xEF v0 then
              if second_of3 v0 v1 && is_cont v2
              then cons ((v0 - 0xE0) * 4096 + (v1 - 0x80) * 64 + (v2 - 0x80))
                     <$> utf8_decode r2
              else None
            else
              match r2 with
              | [] => None
              | b3 :: r3 =>
                let v3 := byte_val b3 in
                if in_range 0xF0 0xF4 v0 then
                  if second_of4 v0 v1 && is_cont v2 && is_cont v3
                  then cons ((v0 - 0xF0) * 262144 + (v1 - 0x80) * 4096
                             + (v2 - 0x80) * 64 + (v3 - 0x80))
                         <$> utf8_decode r3
                  else None
                else None
              end
          end
      end
  end.

(** The bytes of one code point in UTF-8; [None] for a surrogate or a value
    that is no code point. *)
Definition utf8_encode_char (c : Z) : option (list Z) :=
  if c <? 0 then None
  else if c <? 0x80 then Some [c]
  else if c <? 0x800 then Some [0xC0 + c / 64; 0x80 + c mod 64]
  else if in_range 0xD800 0xDFFF c then None
  else if c <? 0x10000 then
    Some [0xE0 + c / 4096; 0x80 + (c / 64) mod 64; 0x80 + c mod 64]
  else if c <? 0x110000 then
    Some [0xF0 + c / 262144; 0x80 + (c / 4096) mod 64;
          0x80 + (c / 64) mod 64; 0x80 + c mod 64]
  else None.

(** [s.encode("utf-8")]. *)
Definition utf8_encode (s : list Z) : option (list byte) :=
  zs ← mapM utf8_encode_char s;
  mapM (fun z => Byte.of_N (Z.to_N z)) (concat zs).

(** The string ["XRAW"], as code points. *)
Definition XRAW : list Z := [88; 82; 65; 87].
Definition XRAW_bytes : list byte := ["X"; "R"; "A"; "W"]%byte.

(** ** Numbers: binary64 and binary32 *)

Abbreviation float := spec_float.

(** [float(z)] for a Python int: rounded to nearest, ties to even;
    [OverflowError: int too large to convert to float] where the rounded
    value is not finite. *)
Definition float_of_int (z : Z) : outcome float :=
  match binary_normalize 53 1024 z 0 false with
  | S754_infinity _ => Raise OverflowError
  | f => Ok f
  end.

(** The integer a float is equal to, when it is one. *)
Definition int_of_float (f : float) : option Z :=
  match f with
  | S754_zero _ => Some 0
  | S754_finite s m e =>
    if 0 <=? e then Some (cond_Zopp s (Z.pos m * 2 ^ e))
    else if (Z.pos m) mod 2 ^ (- e) =? 0
         then Some (cond_Zopp s (Z.pos m / 2 ^ (- e)))
         else None
  | _ => None
  end.

(** The binary32 value with bit pattern [x], as the binary64 value equal to
    it (the conversion is exact). *)
Definition float32_of_bits (x : Z) : float :=
  let s := Z.testbit x 31 in
  let e := Z.land (Z.shiftr x 23) 255 in
  let m := Z.land x (2 ^ 23 - 1) in
  if e =? 255 then (if m =? 0 then S754_infinity s else S754_nan)
  else if e =? 0 then binary_normalize 53 1024 (cond_Zopp s m) (-149) s
  else binary_normalize 53 1024 (cond_Zopp s (m + 2 ^ 23)) (e - 150) s.

(** ** The [struct] module *)

Inductive struct_format : Type :=
| fmt_b      (* "b": signed char *)
| fmt_i      (* "i": int *)
| fmt_I      (* "I": unsigned int *)
| fmt_f.     (* "f": float *)

(** [struct.calcsize]. *)
Definition calcsize (f : struct_format) : nat :=
  match f with fmt_b => 1%nat | _ => 4%nat end.

(** A Python number: an [int] or a [float]. *)
Inductive pynum : Type :=
| NumInt (z : Z)
| NumFloat (f : float).

Definition to_signed (bits : Z) (v : Z) : Z :=
  if v <? 2 ^ (bits - 1) then v else v - 2 ^ bits.

(** [struct.unpack(f, bs)[0]]; [struct.error] unless [bs] has exactly
    [calcsize f] bytes. *)
Definition struct_unpack (f : struct_format) (bs : list byte) : outcome pynum :=
  if negb (Nat.eqb (length bs) (calcsize f)) then Raise struct_error
  else
    let v := int_from_bytes_little bs in
    Ok match f with
       | fmt_b => NumInt (to_signed 8 v)
       | fmt_i => NumInt (to_signed 32 v)
       | fmt_I => NumInt v
       | fmt_f => NumFloat (float32_of_bits v)
       end.

(** [int(v)], on the numbers [struct.unpack] has produced for the integer
    formats. *)
Definition int_of_pynum (v : pynum) : outcome Z :=
  match v with
  | NumInt z => Ok z
  | NumFloat f =>
    match f with
    | S754_nan => Raise (ValueError "cannot convert float NaN to integer")
    | S754_infinity _ => Raise OverflowError
    | S754_zero _ => Ok 0
    | S754_finite s m e =>
      Ok (cond_Zopp s (if 0 <=? e then Z.pos m * 2 ^ e
                       else Z.pos m / 2 ^ (- e)))
    end
  end.

(** Storing a Python number into a float64 cell. *)
Definition to_float64 (v : pynum) : outcome float :=
  match v with
  | NumInt z => float_of_int z
  | NumFloat f => Ok f
  end.

(** [l[i]] on a Python list: negative indices count from the end. *)
Definition py_list_get {A} (l : list A) (i : Z) : outcome A :=
  let n := Z.of_nat (length l) in
  let j := if i <? 0 then i + n else i in
  if (0 <=? j) && (j <? n) then
    match l !! Z.to_nat j with
    | Some a => Ok a
    | None => Raise IndexError
    end
  else Raise IndexError.

(** ** Files opened for reading *)

(** A file object open in mode ["rb"]: its content, the read position, and
    the sizes asked of [read] so far (oldest first). *)
Record rfile : Type := mk_rfile {
  rf_content : list byte;
  rf_pos : nat;
  rf_reads : list Z
}.

Definition open_rb (content : list byte) : rfile :=
  {| rf_content := content; rf_pos := 0; rf_reads := [] |}.

(** [f.read(n)] for [-1 <= n]: at most [n] bytes from the position on, all
    that is left when [n] is [-1]; the empty string at the end of the
    file. *)
Definition rfile_read (n : Z) (f : rfile) : list byte * rfile :=
  let rest := drop (rf_pos f) (rf_content f) in
  let got := if n <? 0 then rest else take (Z.to_nat n) rest in
  (got, {| rf_content := rf_content f;
           rf_pos := rf_pos f + length got;
           rf_reads := rf_reads f ++ [n] |}).

(** A file system: the content of each path. *)
Abbreviation filesystem := (gmap string (list byte)).

(** ** numpy arrays of float64, as the parser builds them *)

(** [np.zeros(shape)]; [ValueError] on a negative dimension. *)
Definition np_zeros3 (w h d : Z) : outcome (list (list (list float))) :=
  if (w <? 0) || (h <? 0) || (d <? 0)
  then Raise (ValueError "negative dimensions are not allowed")
  else Ok (replicate (Z.to_nat w)
             (replicate (Z.to_nat h)
                (replicate (Z.to_nat d) (S754_zero false)))).

Definition np_zeros2 (n c : Z) : outcome (list (list float)) :=
  if (n <? 0) || (c <? 0)
  then Raise (ValueError "negative dimensions are not allowed")
  else Ok (replicate (Z.to_nat n) (replicate (Z.to_nat c) (S754_zero false))).

(** [a[x][y][z]] and [a[i][c]]. *)
Definition get3 {A} (a : list (list (list A))) (x y z : nat) : option A :=
  plane ← a !! x; row ← plane !! y; row !! z.
Definition get2 {A} (a : list (list A)) (i c : nat) : option A :=
  row ← a !! i; row !! c.

(** [a[x][y][z] = v] and [a[i][c] = v]; [None] where numpy raises
    [IndexError]. *)
Definition set3 {A} (a : list (list (list A))) (x y z : nat) (v : A)
  : option (list (list (list A))) :=
  plane ← a !! x; row ← plane !! y; _ ← row !! z;
  Some (<[x := <[y := <[z := v]> row]> plane]> a).
Definition set2 {A} (a : list (list A)) (i c : nat) (v : A)
  : option (list (list A)) :=
  row ← a !! i; _ ← row !! c;
  Some (<[i := <[c := v]> row]> a).

(** The values held by the dictionary [parse] returns. *)
Inductive pyobj : Type :=
| PyInt (z : Z)
| PyNdarray3 (a : list (list (list float)))
| PyNdarray2 (a : list (list float))
| PyList3 (l : list (list (list float)))
| PyList2 (l : list (list float)).

(** [a.tolist()]. *)
Definition tolist (o : pyobj) : outcome pyobj :=
  match o with
  | PyNdarray3 a => Ok (PyList3 a)
  | PyNdarray2 a => Ok (PyList2 a)
  | _ => Raise AttributeError
  end.

(** ** The parser *)

Module XRawVolumeParser.

Definition color_channel_data_types : list struct_format :=
  [fmt_I; fmt_i; fmt_f].

(** The instance: its file, its cache, and the attributes the [read_*]
    methods create ([None] while the attribute does not exist). *)
Record t : Type := mk {
  file : rfile;
  data : option (gmap string pyobj);
  color_channel_data_type : option struct_format;
  num_of_color_channels : option Z;
  bytes_per_channel : option Z;
  bytes_per_index : option Z;
  width : option Z;
  height : option Z;
  depth : option Z;
  num_of_pallette_colors : option Z;
  voxels : option (list (list (list float)));
  palette : option (list (list float));
  remaining_bytes : option (list byte)
}.

Definition set_file v (s : t) : t :=
  mk v (data s) (color_channel_data_type s) (num_of_color_channels s)
     (bytes_per_channel s) (bytes_per_index s) (width s) (height s)
     (depth s) (num_of_pallette_colors s) (voxels s) (palette s)
     (remaining_bytes s).
Definition set_data v (s : t) : t :=
  mk (file s) v (color_channel_data_type s) (num_of_color_channels s)
     (bytes_per_channel s) (bytes_per_index s) (width s) (height s)
     (depth s) (num_of_pallette_colors s) (voxels s) (palette s)
     (remaining_bytes s).
Definition set_color_channel_data_type v (s : t) : t :=
  mk (file s) (data s) v (num_of_color_channels s)
     (bytes_per_channel s) (bytes_per_index s) (width s) (height s)
     (depth s) (num_of_pallette_colors s) (voxels s) (palette s)
     (remaining_bytes s).
Definition set_num_of_color_channels v (s : t) : t :=
  mk (file s) (data s) (color_channel_data_type s) v
     (bytes_per_channel s) (bytes_per_index s) (width s) (height s)
     (depth s) (num_of_pallette_colors s) (voxels s) (palette s)
     (remaining_bytes s).
Definition set_bytes_per_channel v (s : t) : t :=
  mk (file s) (data s) (color_channel_data_type s) (num_of_color_channels s)
     v (bytes_per_index s) (width s) (height s)
     (depth s) (num_of_pallette_colors s) (voxels s) (palette s)
     (remaining_bytes s).
Definition set_bytes_per_index v (s : t) : t :=
  mk (file s) (data s) (color_channel_data_type s) (num_of_color_channels s)
     (bytes_per_channel s) v (width s) (height s)
     (depth s) (num_of_pallette_colors s) (voxels s) (palette s)
     (remaining_bytes s).
Definition set_width v (s : t) : t :=
  mk (file s) (data s) (color_channel_data_type s) (num_of_color_channels s)
     (bytes_per_channel s) (bytes_per_index s) v (height s)
     (depth s) (num_of_pallette_colors s) (voxels s) (palette s)
     (remaining_bytes s).
Definition set_height v (s : t) : t :=
  mk (file s) (data s) (color_channel_data_type s) (num_of_color_channels s)
     (bytes_per_channel s) (bytes_per_index s) (width s) v
     (depth s) (num_of_pallette_colors s) (voxels s) (palette s)
     (remaining_bytes s).
Definition set_depth v (s : t) : t :=
  mk (file s) (data s) (color_channel_data_type s) (num_of_color_channels s)
     (bytes_per_channel s) (bytes_per_index s) (width s) (height s)
     v (num_of_pallette_colors s) (voxels s) (palette s)
     (remaining_bytes s).
Definition set_num_of_pallette_colors v (s : t) : t :=
  mk (file s) (data s) (color_channel_data_type s) (num_of_color_channels s)
     (bytes_per_channel s) (bytes_per_index s) (width s) (height s)
     (depth s) v (voxels s) (palette s)
     (remaining_bytes s).
Definition set_voxels v (s : t) : t :=
  mk (file s) (data s) (color_channel_data_type s) (num_of_color_channels s)
     (bytes_per_channel s) (bytes_per_index s) (width s) (height s)
     (depth s) (num_of_pallette_colors s) v (palette s)
     (remaining_bytes s).
Definition set_palette v (s : t) : t :=
  mk (file s) (data s) (color_channel_data_type s) (num_of_color_channels s)
     (bytes_per_channel s) (bytes_per_index s) (width s) (height s)
     (depth s) (num_of_pallette_colors s) (voxels s) v
     (remaining_bytes s).
Definition set_remaining_bytes v (s : t) : t :=
  mk (file s) (data s) (color_channel_data_type s) (num_of_color_channels s)
     (bytes_per_channel s) (bytes_per_index s) (width s) (height s)
     (depth s) (num_of_pallette_colors s) (voxels s) (palette s)
     v.

Abbreviation M := (pym t).

(** [self.a]: [AttributeError] while the attribute does not exist. *)
Definition attr {A} (proj : t -> option A) : M A :=
  fun s => match proj s with
           | Some a => (Ok a, s)
           | None => (Raise AttributeError, s)
           end.

(** [self.file.read(n)]: a buffered reader refuses a size below [-1]. *)
Definition read (n : Z) : M (list byte) :=
  fun s =>
    if n <? -1
    then (Raise (ValueError "read length must be non-negative or -1"), s)
    else let '(bs, f) := rfile_read n (file s) in (Ok bs, set_file f s).

(** [__init__]: the file of [filepath] is opened, nothing is read. *)
Definition init (fs : filesystem) (filepath : string) : outcome t :=
  match fs !! filepath with
  | Some content =>
    Ok (mk (open_rb content) None None None None None None None None None
           None None None)
  | None => Raise FileNotFoundError
  end.

Definition raise_error_if_file_not_valid : M unit :=
  bs <- read 4 ;;
  match utf8_decode bs with
  | None => raise UnicodeDecodeError
  | Some s =>
    if bool_decide (s ≠ XRAW)
    then raise (ValueError "Can't recognize file format.")
    else ret tt
  end.

Definition read_byte_to_int : M Z :=
  bs <- read 1 ;;
  v <- lift (struct_unpack fmt_b bs) ;;
  lift (int_of_pynum v).
Definition read_int : M Z :=
  bs <- read 4 ;;
  v <- lift (struct_unpack fmt_i bs) ;;
  lift (int_of_pynum v).
Definition read_unsigned_int : M Z :=
  bs <- read 4 ;;
  v <- lift (struct_unpack fmt_I bs) ;;
  lift (int_of_pynum v).

Definition read_header : M unit :=
  raise_error_if_file_not_valid ;;
  i <- read_byte_to_int ;;
  ty <- lift (py_list_get color_channel_data_types i) ;;
  modify (set_color_channel_data_type (Some ty)) ;;
  c <- read_byte_to_int ;;
  modify (set_num_of_color_channels (Some c)) ;;
  b <- read_byte_to_int ;;
  modify (set_bytes_per_channel (Some (b / 8))) ;;
  b <- read_byte_to_int ;;
  modify (set_bytes_per_index (Some (b / 8))) ;;
  v <- read_unsigned_int ;;
  modify (set_width (Some v)) ;;
  v <- read_unsigned_int ;;
  modify (set_height (Some v)) ;;
  v <- read_unsigned_int ;;
  modify (set_depth (Some v)) ;;
  v <- read_unsigned_int ;;
  modify (set_num_of_pallette_colors (Some v)).

(** [self.voxels[x][y][z] = v]. *)
Definition voxels_setitem (x y z : nat) (v : float) : M unit :=
  a <- attr voxels ;;
  match set3 a x y z v with
  | Some a' => modify (set_voxels (Some a'))
  | None => raise IndexError
  end.

(** The body of the innermost loop of [read_voxel_buffer]. *)
Definition read_voxel (x y z : nat) : M unit :=
  k <- attr bytes_per_index ;;
  bs <- read k ;;
  v <- lift (float_of_int (int_from_bytes_little bs)) ;;
  voxels_setitem x y z v.

Definition read_voxel_buffer : M unit :=
  w <- attr width ;;
  h <- attr height ;;
  d <- attr depth ;;
  a <- lift (np_zeros3 w h d) ;;
  modify (set_voxels (Some a)) ;;
  d <- attr depth ;;
  for_range d (fun z =>
    h <- attr height ;;
    for_range h (fun y =>
      w <- attr width ;;
      for_range w (fun x => read_voxel x y z))).

(** [self.palette[i][c] = v]. *)
Definition palette_setitem (i c : nat) (v : float) : M unit :=
  a <- attr palette ;;
  match set2 a i c v with
  | Some a' => modify (set_palette (Some a'))
  | None => raise IndexError
  end.

(** The body of the innermost loop of [read_palette_buffer]. *)
Definition read_channel (i c : nat) : M unit :=
  k <- attr bytes_per_channel ;;
  bs <- read k ;;
  k <- attr bytes_per_channel ;;
  let bytes_data := bs ++ replicate (Z.to_nat (4 - k)) "000"%byte in
  ty <- attr color_channel_data_type ;;
  value <- lift (struct_unpack ty bytes_data) ;;
  v <- lift (to_float64 value) ;;
  palette_setitem i c v.

Definition read_palette_buffer : M unit :=
  n <- attr num_of_pallette_colors ;;
  c <- attr num_of_color_channels ;;
  a <- lift (np_zeros2 n c) ;;
  modify (set_palette (Some a)) ;;
  n <- attr num_of_pallette_colors ;;
  for_range n (fun i =>
    c <- attr num_of_color_channels ;;
    for_range c (fun c => read_channel i c)).

(** [while byte != b"": self.remaining_bytes += byte; byte = read(1)],
    with a bound on the number of iterations. *)
Fixpoint read_remaining_loop (bound : nat) (byte : list byte) : M unit :=
  match byte with
  | [] => ret tt
  | _ =>
    match bound with
    | O => raise LoopBoundExceeded
    | S bound' =>
      r <- attr remaining_bytes ;;
      modify (set_remaining_bytes (Some (r ++ byte))) ;;
      byte' <- read 1 ;;
      read_remaining_loop bound' byte'
    end
  end.

(** The loop reads one byte per iteration, so the number of bytes the file
    holds bounds the number of iterations. *)
Definition read_remaining_bytes : M unit :=
  modify (set_remaining_bytes (Some [])) ;;
  byte <- read 1 ;;
  f <- gets file ;;
  read_remaining_loop (length (rf_content f)) byte.

(** [bool(self.data)]: [None] and the empty dictionary are false. *)
Definition truthy (d : option (gmap string pyobj)) : bool :=
  match d with
  | None => false
  | Some m => bool_decide (m ≠ ∅)
  end.

(** [self.data[k] = v]. *)
Definition data_setitem (k : string) (v : pyobj) : M unit :=
  m <- attr data ;;
  modify (set_data (Some (<[k := v]> m))).
(** [self.data[k]]. *)
Definition data_getitem (k : string) : M pyobj :=
  m <- attr data ;;
  match m !! k with
  | Some v => ret v
  | None => raise KeyError
  end.

Definition parse (use_lists : bool) : M (gmap string pyobj) :=
  d <- gets data ;;
  if truthy d then attr data
  else
    read_header ;;
    read_voxel_buffer ;;
    read_palette_buffer ;;
    read_remaining_bytes ;;
    modify (set_data (Some ∅)) ;;
    v <- attr width ;; data_setitem "width" (PyInt v) ;;
    v <- attr height ;; data_setitem "height" (PyInt v) ;;
    v <- attr depth ;; data_setitem "depth" (PyInt v) ;;
    v <- attr num_of_pallette_colors ;;
    data_setitem "num_of_pallette_colors" (PyInt v) ;;
    v <- attr voxels ;; data_setitem "voxels" (PyNdarray3 v) ;;
    v <- attr palette ;; data_setitem "palette" (PyNdarray2 v) ;;
    (if use_lists then
       v <- data_getitem "voxels" ;;
       l <- lift (tolist v) ;;
       data_setitem "voxels" l ;;
       v <- data_getitem "palette" ;;
       l <- lift (tolist v) ;;
       data_setitem "palette" l
     else ret tt) ;;
    attr data.

End XRawVolumeParser.

(** ** numpy arrays, as the writer receives and builds them *)

(** [None], a Python int, or a (nested) list of such. *)
#[warnings="-register-all"]
Inductive pyval : Type :=
| PNone
| PInt (z : Z)
| PList (l : list pyval).

Inductive dtype : Type := dt_int64 | dt_uint64 | dt_float64 | dt_object.

(** An array: its dtype, its shape, and its cells as a nested list.  The cell
    [PInt z] of a float64 array is the float equal to [z]. *)
Record ndarray : Type := mk_ndarray {
  nd_dtype : dtype;
  nd_shape : list nat;
  nd_data : pyval
}.

#[global] Instance dtype_eq_dec : EqDecision dtype.
Proof. solve_decision. Defined.

(** The shape [np.array] finds for a nested list; [None] where the list is
    ragged. *)
Fixpoint np_shape (v : pyval) : option (list nat) :=
  match v with
  | PNone | PInt _ => Some []
  | PList l =>
    match l with
    | [] => Some [0%nat]
    | x :: xs =>
      match np_shape x with
      | Some sx =>
        if forallb (fun y => bool_decide (np_shape y = Some sx)) xs
        then Some (length l :: sx)
        else None
      | None => None
      end
    end
  end.

(** The dtype [np.array] gives one Python int, and the common dtype of two. *)
Definition int_dtype (z : Z) : dtype :=
  if (- 2 ^ 63 <=? z) && (z <? 2 ^ 63) then dt_int64
  else if (0 <=? z) && (z <? 2 ^ 64) then dt_uint64
  else dt_object.
Definition promote (a b : dtype) : dtype :=
  if bool_decide (a = b) then a
  else match a, b with
       | dt_object, _ | _, dt_object => dt_object
       | _, _ => dt_float64
       end.
(** The dtypes of the leaves of a Python value, left to right. *)
Fixpoint leaf_dtypes (v : pyval) : list dtype :=
  match v with
  | PNone => [dt_object]
  | PInt z => [int_dtype z]
  | PList l => concat (map leaf_dtypes l)
  end.

(** The dtype [np.array] finds: float64 when there is no leaf. *)
Definition np_dtype (v : pyval) : dtype :=
  match leaf_dtypes v with
  | [] => dt_float64
  | d :: ds => foldl promote d ds
  end.

#[global] Instance outcome_ret : MRet outcome := fun _ a => Ok a.
#[global] Instance outcome_bind : MBind outcome := fun _ _ k m =>
  match m with
  | Ok a => k a
  | Raise e => Raise e
  end.

(** [np.array(v)] for a Python value. *)
Definition np_array (v : pyval) : outcome ndarray :=
  match np_shape v with
  | Some sh => Ok (mk_ndarray (np_dtype v) sh v)
  | None =>
    Raise (ValueError "setting an array element with a sequence. The requested array has an inhomogeneous shape")
  end.

(** The number of cells. *)
Definition nd_size (a : ndarray) : nat := foldr Nat.mul 1%nat (nd_shape a).

(** [a[i]] on the cells of an array. *)
Definition nd_getitem (v : pyval) (i : nat) : outcome pyval :=
  match v with
  | PList l =>
    match l !! i with
    | Some x => Ok x
    | None => Raise IndexError
    end
  | PNone | PInt _ => Raise IndexError
  end.

(** [shape[i]] on the shape tuple. *)
Definition shape_get (sh : list nat) (i : nat) : outcome Z :=
  match sh !! i with
  | Some n => Ok (Z.of_nat n)
  | None => Raise IndexError
  end.

(** What the constructor of the writer can be given for [voxels] and for
    [palette]: a Python value ([None] when the argument is left out), or a
    numpy array. *)
Inductive arg : Type :=
| ArgPy (v : pyval)
| ArgArray (a : ndarray).

(** [bool(x != None)]: on an array the comparison is made cell by cell, and
    the truth value of its result exists only when it has one cell. *)
Definition ne_None_truth (x : arg) : outcome bool :=
  match x with
  | ArgPy PNone => Ok false
  | ArgPy _ => Ok true
  | ArgArray a =>
    if Nat.eqb (nd_size a) 1 then Ok true
    else if Nat.eqb (nd_size a) 0
    then Raise (ValueError "The truth value of an empty array is ambiguous. Use `array.size > 0` to check that an array is not empty.")
    else Raise (ValueError "The truth value of an array with more than one element is ambiguous. Use a.any() or a.all()")
  end.

(** [np.array(x)]. *)
Definition np_array_arg (x : arg) : outcome ndarray :=
  match x with
  | ArgPy v => np_array v
  | ArgArray a => Ok a
  end.

(** What [bytes(...)] can be given by the writer: a bytes object, or a list
    with one element. *)
Inductive pyelem : Type :=
| ElemInt (z : Z)       (* a Python int or a numpy integer *)
| ElemFloat (z : Z)     (* a numpy.float64 *)
| ElemOther.            (* [None], or an array with at least one dimension *)

(** The cell or sub-array [e] of an array of dtype [dt], as an element. *)
Definition elem_of_cell (dt : dtype) (e : pyval) : pyelem :=
  match e with
  | PNone | PList _ => ElemOther
  | PInt z => match dt with dt_float64 => ElemFloat z | _ => ElemInt z end
  end.

Inductive bytes_arg : Type :=
| OfBytes (bs : list byte)
| OfList (l : list pyelem).

(** One element of the list given to [bytes]: its [__index__] must exist. *)
Definition byte_of_elem (e : pyelem) : outcome byte :=
  match e with
  | ElemInt z => byte_of_int z
  | ElemFloat _ | ElemOther => Raise TypeError
  end.

Fixpoint bytes_of_list (l : list pyelem) : outcome (list byte) :=
  match l with
  | [] => Ok []
  | e :: l' => b ← byte_of_elem e; bs ← bytes_of_list l'; Ok (b :: bs)
  end.

(** [bytes(x)]. *)
Definition py_bytes (x : bytes_arg) : outcome (list byte) :=
  match x with
  | OfBytes bs => Ok bs
  | OfList l => bytes_of_list l
  end.

(** [l.index(x)]: [ValueError] when [x] is not in the list. *)
Fixpoint py_list_index {A} `{EqDecision A} (l : list A) (x : A) : outcome Z :=
  match l with
  | [] => Raise (ValueError "x is not in list")
  | y :: l' =>
    if bool_decide (y = x) then Ok 0
    else i ← py_list_index l' x; Ok (1 + i)
  end.

#[global] Instance struct_format_eq_dec : EqDecision struct_format.
Proof. solve_decision. Defined.

(** ** The writer *)

Module XRawVolumeWriter.

(** A file object open in mode ["wb"]; what is written to it goes to the
    file of its path. *)
Record wfile : Type := mk_wfile {
  wf_path : string;
  wf_closed : bool
}.

Record t : Type := mk {
  voxels : ndarray;
  palette : ndarray;
  format_string : list Z;
  color_channel_data_type : struct_format;
  bytes_per_channel : Z;
  bytes_per_index : Z;
  width : Z;
  height : Z;
  depth : Z;
  num_of_pallette_colors : Z;
  num_of_color_channels : Z;
  file : option wfile
}.

Definition set_file v (s : t) : t :=
  mk (voxels s) (palette s) (format_string s) (color_channel_data_type s)
     (bytes_per_channel s) (bytes_per_index s) (width s) (height s)
     (depth s) (num_of_pallette_colors s) (num_of_color_channels s) v.

(** [np.full((256, 4), 255)] and [np.zeros((1,1,1))]. *)
Definition default_palette : ndarray :=
  mk_ndarray dt_int64 [256%nat; 4%nat]
    (PList (replicate 256 (PList (replicate 4 (PInt 255))))).
Definition default_voxels : ndarray :=
  mk_ndarray dt_float64 [1%nat; 1%nat; 1%nat]
    (PList [PList [PList [PInt 0]]]).

Definition init (voxels palette : arg) : outcome t :=
  b ← ne_None_truth voxels;
  voxels ← (if b : bool then np_array_arg voxels else Ok default_voxels);
  b ← ne_None_truth palette;
  palette ← (if b : bool then np_array_arg palette else Ok default_palette);
  if negb (Nat.eqb (length (nd_shape voxels)) 3)
  then Raise (ValueError "voxel grid must be 3 dimensional")
  else
    width ← shape_get (nd_shape voxels) 0;
    height ← shape_get (nd_shape voxels) 1;
    depth ← shape_get (nd_shape voxels) 2;
    num_of_pallette_colors ← shape_get (nd_shape palette) 0;
    num_of_color_channels ← shape_get (nd_shape palette) 1;
    Ok (mk voxels palette XRAW fmt_I 1 1 width height depth
           num_of_pallette_colors num_of_color_channels None).

(** The state a method runs in: the instance and the file system. *)
Record world : Type := mk_world {
  self : t;
  fs : filesystem
}.

Abbreviation M := (pym world).

Definition attr {A} (proj : t -> A) : M A := gets (fun w => proj (self w)).

(** [self.file.write(bs)]. *)
Definition file_write (h : wfile) (bs : list byte) : M unit :=
  if wf_closed h then raise (ValueError "write to closed file")
  else modify (fun w =>
         mk_world (self w)
           (<[wf_path h := default [] (fs w !! wf_path h) ++ bs]> (fs w))).

Definition write_bytes (bytes_iterable : bytes_arg) : M unit :=
  f <- attr file ;;
  match f with
  | None => ret tt
  | Some h =>
    bs <- lift (py_bytes bytes_iterable) ;;
    file_write h bs
  end.

Definition write_unsigned_int (int_number : Z) : M unit :=
  f <- attr file ;;
  match f with
  | None => ret tt
  | Some _ =>
    bs <- lift (int_to_bytes4 int_number) ;;
    write_bytes (OfBytes bs)
  end.

Definition get_color_channel_data_type_index : M Z :=
  ty <- attr color_channel_data_type ;;
  lift (py_list_index XRawVolumeParser.color_channel_data_types ty).

Definition write_header : M unit :=
  f <- attr file ;;
  match f with
  | None => ret tt
  | Some _ =>
    s <- attr format_string ;;
    match utf8_encode s with
    | None => raise UnicodeEncodeError
    | Some bs =>
      write_bytes (OfBytes bs) ;;
      i <- get_color_channel_data_type_index ;;
      write_bytes (OfList [ElemInt i]) ;;
      c <- attr num_of_color_channels ;;
      write_bytes (OfList [ElemInt c]) ;;
      b <- attr bytes_per_channel ;;
      write_bytes (OfList [ElemInt (b * 8)]) ;;
      b <- attr bytes_per_index ;;
      write_bytes (OfList [ElemInt (b * 8)]) ;;
      v <- attr width ;; write_unsigned_int v ;;
      v <- attr height ;; write_unsigned_int v ;;
      v <- attr depth ;; write_unsigned_int v ;;
      v <- attr num_of_pallette_colors ;; write_unsigned_int v
    end
  end.

(** The body of the innermost loop of [write_voxels]. *)
Definition write_voxel (x y z : nat) : M unit :=
  a <- attr voxels ;;
  ax <- lift (nd_getitem (nd_data a) x) ;;
  axy <- lift (nd_getitem ax y) ;;
  axyz <- lift (nd_getitem axy z) ;;
  write_bytes (OfList [elem_of_cell (nd_dtype a) axyz]).

Definition write_voxels : M unit :=
  d <- attr depth ;;
  for_range d (fun z =>
    h <- attr height ;;
    for_range h (fun y =>
      w <- attr width ;;
      for_range w (fun x => write_voxel x y z))).

(** The body of the innermost loop of [write_palette]. *)
Definition write_channel (i c : nat) : M unit :=
  a <- attr palette ;;
  ai <- lift (nd_getitem (nd_data a) i) ;;
  aic <- lift (nd_getitem ai c) ;;
  write_bytes (OfList [elem_of_cell (nd_dtype a) aic]).

Definition write_palette : M unit :=
  n <- attr num_of_pallette_colors ;;
  for_range n (fun i =>
    c <- attr num_of_color_channels ;;
    for_range c (fun c => write_channel i c)).

(** [open(filepath, "wb")]: the file is created, or emptied. *)
Definition open_wb (filepath : string) : M wfile :=
  modify (fun w => mk_world (self w) (<[filepath := []]> (fs w))) ;;
  ret (mk_wfile filepath false).

(** [self.file.close()]. *)
Definition file_close : M unit :=
  f <- attr file ;;
  match f with
  | None => raise AttributeError
  | Some h =>
    modify (fun w =>
      mk_world (set_file (Some (mk_wfile (wf_path h) true)) (self w)) (fs w))
  end.

Definition write_file (filepath : string) : M unit :=
  h <- open_wb filepath ;;
  modify (fun w => mk_world (set_file (Some h) (self w)) (fs w)) ;;
  write_header ;;
  write_voxels ;;
  write_palette ;;
  file_close.

End XRawVolumeWriter.

(** ** Notions used to state the properties *)

(** The number of dimensions of the array given as an argument of the
    writer; none when the argument is left out. *)
Definition arg_ndim (x : arg) : option nat :=
  match x with
  | ArgPy PNone => None
  | ArgPy v => length <$> np_shape v
  | ArgArray a => Some (length (nd_shape a))
  end.

(** The array the constructor of the writer makes of an argument: the first
    two statements of [__init__], for one argument. *)
Definition array_of_arg (x : arg) (dflt : ndarray) : outcome ndarray :=
  b ← ne_None_truth x; if b : bool then np_array_arg x else Ok dflt.

(** The place of cell [x][y][z] in a buffer of a [w] by [h] by [d] volume
    stored with [x] varying fastest, then [y], then [z]; and the place of
    channel [j] of colour [i] in a palette of [c] channels per colour. *)
Definition voxel_index (w h : nat) (x y z : nat) : nat :=
  ((z * h + y) * w + x)%nat.
Definition channel_index (c : nat) (i j : nat) : nat := (i * c + j)%nat.

(** The file object after [n] calls of [read(k)], [0 <= k], made from the
    state [f]: the position stops at the end of the file. *)
Definition rfile_after (f : rfile) (k n : nat) : rfile :=
  mk_rfile (rf_content f)
    (rf_pos f + Nat.min (n * k) (length (rf_content f) - rf_pos f))
    (rf_reads f ++ replicate n (Z.of_nat k)).

(** The [i]-th element of [k] bytes after the position of [f], as [read]
    returns it: short, or empty, when the file ends before its last byte. *)
Definition element (f : rfile) (k i : nat) : list byte :=
  take k (drop (rf_pos f + i * k) (rf_content f)).

(** The state of the parser [s0] after [read_voxel_buffer] has read the [n]
    first elements of a [w] by [h] by [d] volume, [k] bytes each: the cells
    read hold the floats of their elements, the others are zero. *)
Definition voxels_read_upto (s0 : XRawVolumeParser.t) (w h d k n : nat)
  (s : XRawVolumeParser.t) : Prop :=
  exists a,
    s = XRawVolumeParser.set_voxels (Some a)
          (XRawVolumeParser.set_file
             (rfile_after (XRawVolumeParser.file s0) k n) s0)
    /\ forall x y z, (x < w)%nat -> (y < h)%nat -> (z < d)%nat ->
         if (voxel_index w h x y z <? n)%nat
         then exists f,
                get3 a x y z = Some f
                /\ float_of_int
                     (int_from_bytes_little
                        (element (XRawVolumeParser.file s0) k
                           (voxel_index w h x y z))) = Ok f
         else get3 a x y z = Some (S754_zero false).

(** What [read_palette_buffer] makes of the [k] bytes [bs] of one channel:
    the bytes padded on the right with [4 - k] zero bytes, unpacked with the
    format of the channel type, as a float64 cell. *)
Definition decode_channel (ty : struct_format) (k : Z) (bs : list byte)
  : outcome float :=
  value ← struct_unpack ty (bs ++ replicate (Z.to_nat (4 - k)) "000"%byte);
  to_float64 value.

(** The state of the parser [s0] after [read_palette_buffer] has read the
    [m] first channels of a palette of [n] colours of [c] channels, [k] bytes
    each. *)
Definition palette_read_upto (s0 : XRawVolumeParser.t) (ty : struct_format)
  (n c k m : nat) (s : XRawVolumeParser.t) : Prop :=
  exists a,
    s = XRawVolumeParser.set_palette (Some a)
          (XRawVolumeParser.set_file
             (rfile_after (XRawVolumeParser.file s0) k m) s0)
    /\ forall i j, (i < n)%nat -> (j < c)%nat ->
         if (channel_index c i j <? m)%nat
         then exists f,
                get2 a i j = Some f
                /\ decode_channel ty (Z.of_nat k)
                     (element (XRawVolumeParser.file s0) k
                        (channel_index c i j)) = Ok f
         else get2 a i j = Some (S754_zero false).

(** The signed byte and the unsigned 32-bit little-endian integer at offset
    [i] of a byte string. *)
Definition i8_at (content : list byte) (i : nat) : Z :=
  to_signed 8 (int_from_bytes_little (take 1 (drop i content))).
Definition u32_at (content : list byte) (i : nat) : Z :=
  int_from_bytes_little (take 4 (drop i content)).

(** The order and the sizes of the reads of the header. *)
Definition header_reads : list Z := [4; 1; 1; 1; 1; 4; 4; 4; 4].

(** The 24 bytes of a header, by their values: the magic tag, four fields of
    one byte, four fields of four bytes, least significant byte first. *)
Definition header_layout (type_index channels bits_per_channel bits_per_index
                          width height depth colors : Z) : list Z :=
  XRAW ++ [type_index; channels; bits_per_channel; bits_per_index]
       ++ le_bytes 4 width ++ le_bytes 4 height ++ le_bytes 4 depth
       ++ le_bytes 4 colors.

(** The state [read_header] leaves when it returns: the eight attributes of
    the header, the position after its 24 bytes, and nine more reads. *)
Definition header_read (s : XRawVolumeParser.t) (ty : struct_format)
  : XRawVolumeParser.t :=
  let c := rf_content (XRawVolumeParser.file s) in
  let p := rf_pos (XRawVolumeParser.file s) in
  XRawVolumeParser.mk
    (mk_rfile c (p + 24) (rf_reads (XRawVolumeParser.file s) ++ header_reads))
    (XRawVolumeParser.data s) (Some ty)
    (Some (i8_at c (p + 5)))
    (Some (i8_at c (p + 6) / 8))
    (Some (i8_at c (p + 7) / 8))
    (Some (u32_at c (p + 8)))
    (Some (u32_at c (p + 12)))
    (Some (u32_at c (p + 16)))
    (Some (u32_at c (p + 20)))
    (XRawVolumeParser.voxels s) (XRawVolumeParser.palette s)
    (XRawVolumeParser.remaining_bytes s).

(** [a[x][y][z]] and [a[i][c]] on the cells of an array of the writer. *)
Definition nd_get3 (a : pyval) (x y z : nat) : outcome pyval :=
  ax ← nd_getitem a x; axy ← nd_getitem ax y; nd_getitem axy z.
Definition nd_get2 (a : pyval) (i c : nat) : outcome pyval :=
  ai ← nd_getitem a i; nd_getitem ai c.

(** The writer [obj] and the file system [fs0] while [write_file] writes to
    the file of [path], the bytes [out] written so far. *)
Definition writing (obj : XRawVolumeWriter.t) (fs0 : filesystem)
  (path : string) (out : list byte) : XRawVolumeWriter.world :=
  XRawVolumeWriter.mk_world
    (XRawVolumeWriter.set_file
       (Some (XRawVolumeWriter.mk_wfile path false)) obj)
    (<[path := out]> fs0).

(** The cells of the [w] by [h] by [d] first indices of an array are
    integers that fit a byte; likewise for [n] by [c]. *)
Definition byte_cells3 (a : ndarray) (w h d : nat) : Prop :=
  forall x y z, (x < w)%nat -> (y < h)%nat -> (z < d)%nat ->
    exists cell v, nd_get3 (nd_data a) x y z = Ok cell
                   /\ elem_of_cell (nd_dtype a) cell = ElemInt v
                   /\ 0 <= v < 256.
Definition byte_cells2 (a : ndarray) (n c : nat) : Prop :=
  forall i j, (i < n)%nat -> (j < c)%nat ->
    exists cell v, nd_get2 (nd_data a) i j = Ok cell
                   /\ elem_of_cell (nd_dtype a) cell = ElemInt v
                   /\ 0 <= v < 256.

(** The world after [write_voxels] has written the [n] first voxels after
    the bytes [acc]: one byte for each, the value of its cell, at the place
    [voxel_index] gives the cell. *)
Definition voxels_written_upto (obj : XRawVolumeWriter.t) (fs0 : filesystem)
  (path : string) (acc : list byte) (w h d n : nat)
  (wld : XRawVolumeWriter.world) : Prop :=
  exists out,
    wld = writing obj fs0 path (acc ++ out)
    /\ length out = n
    /\ forall x y z, (x < w)%nat -> (y < h)%nat -> (z < d)%nat ->
         (voxel_index w h x y z < n)%nat ->
         exists b cell,
           out !! voxel_index w h x y z = Some b
           /\ nd_get3 (nd_data (XRawVolumeWriter.voxels obj)) x y z = Ok cell
           /\ elem_of_cell (nd_dtype (XRawVolumeWriter.voxels obj)) cell
              = ElemInt (byte_val b).

(** The same for [write_palette] and the [m] first channels. *)
Definition palette_written_upto (obj : XRawVolumeWriter.t) (fs0 : filesystem)
  (path : string) (acc : list byte) (n c m : nat)
  (wld : XRawVolumeWriter.world) : Prop :=
  exists out,
    wld = writing obj fs0 path (acc ++ out)
    /\ length out = m
    /\ forall i j, (i < n)%nat -> (j < c)%nat ->
         (channel_index c i j < m)%nat ->
         exists b cell,
           out !! channel_index c i j = Some b
           /\ nd_get2 (nd_data (XRawVolumeWriter.palette obj)) i j = Ok cell
           /\ elem_of_cell (nd_dtype (XRawVolumeWriter.palette obj)) cell
              = ElemInt (byte_val b).

(** Nested lists of Python ints, as the caller of the writer builds them. *)
Definition pylist1 (l : list Z) : pyval := PList (map PInt l).
Definition pylist2 (l : list (list Z)) : pyval := PList (map pylist1 l).
Definition pylist3 (l : list (list (list Z))) : pyval :=
  PList (map pylist2 l).

(** A nested list is an array of [n] by [c], of [w] by [h] by [d]. *)
Definition rect2 (l : list (list Z)) (n c : nat) : Prop :=
  length l = n /\ Forall (fun r => length r = c) l.
Definition rect3 (l : list (list (list Z))) (w h d : nat) : Prop :=
  length l = w /\ Forall (fun p => rect2 p h d) l.

(** All its values are in 0..255. *)
Definition bytes2 (l : list (list Z)) : Prop :=
  Forall (Forall (fun v => 0 <= v < 256)) l.
Definition bytes3 (l : list (list (list Z))) : Prop := Forall bytes2 l.

(** All its values are in the range of int64. *)
Definition int64s2 (l : list (list Z)) : Prop :=
  Forall (Forall (fun v => - 2 ^ 63 <= v < 2 ^ 63)) l.
Definition int64s3 (l : list (list (list Z))) : Prop := Forall int64s2 l.

(** The voxels [vl] and the palette [pl], written to [path] by a writer and
    parsed back by a parser: both succeed, and the dictionary holds the
    dimensions [w], [h], [d], the number of colours [n], and arrays whose
    cells are the floats equal to the integers of [vl] and [pl]. *)
Definition written_then_parsed (vl : list (list (list Z)))
  (pl : list (list Z)) (w h d n : nat) (fs : filesystem) (path : string)
  (use_lists : bool) : Prop :=
  exists obj wld p dict p' a pal,
    XRawVolumeWriter.init (ArgPy (pylist3 vl)) (ArgPy (pylist2 pl)) = Ok obj
    /\ XRawVolumeWriter.write_file path (XRawVolumeWriter.mk_world obj fs)
       = (Ok tt, wld)
    /\ XRawVolumeParser.init (XRawVolumeWriter.fs wld) path = Ok p
    /\ XRawVolumeParser.parse use_lists p = (Ok dict, p')
    /\ dict !! "width" = Some (PyInt (Z.of_nat w))
    /\ dict !! "height" = Some (PyInt (Z.of_nat h))
    /\ dict !! "depth" = Some (PyInt (Z.of_nat d))
    /\ dict !! "num_of_pallette_colors" = Some (PyInt (Z.of_nat n))
    /\ dict !! "voxels"
       = Some (if use_lists then PyList3 a else PyNdarray3 a)
    /\ dict !! "palette"
       = Some (if use_lists then PyList2 pal else PyNdarray2 pal)
    /\ (forall x y z v, get3 vl x y z = Some v ->
          exists f, get3 a x y z = Some f /\ int_of_float f = Some v)
    /\ (forall i j v, get2 pl i j = Some v ->
          exists f, get2 pal i j = Some f /\ int_of_float f = Some v).

(** [read_voxel_buffer] on the parser [s0], whose header gives a volume of
    [w] by [h] by [d] and elements of [k] bytes: it returns, after
    [d * h * w] reads of [k] bytes, and the cell [x][y][z] is the float of
    the little-endian integer of element [voxel_index w h x y z]. *)
Definition voxels_read (s0 : XRawVolumeParser.t) (w h d k : nat) : Prop :=
  exists a,
    XRawVolumeParser.read_voxel_buffer s0
    = (Ok tt,
       XRawVolumeParser.set_voxels (Some a)
         (XRawVolumeParser.set_file
            (rfile_after (XRawVolumeParser.file s0) k (d * h * w)) s0))
    /\ forall x y z, (x < w)%nat -> (y < h)%nat -> (z < d)%nat ->
         exists f,
           get3 a x y z = Some f
           /\ float_of_int
                (int_from_bytes_little
                   (element (XRawVolumeParser.file s0) k
                      (voxel_index w h x y z))) = Ok f
           /\ int_of_float f
              = Some (int_from_bytes_little
                        (element (XRawVolumeParser.file s0) k
                           (voxel_index w h x y z))).

(** [write_voxels] on the writer [obj] of a [w] by [h] by [d] volume, the
    bytes [acc] being written already: it returns, having added [d * h * w]
    bytes, and the byte at [voxel_index w h x y z] is the cell [x][y][z]. *)
Definition voxels_written (obj : XRawVolumeWriter.t) (fs0 : filesystem)
  (path : string) (acc : list byte) (w h d : nat) : Prop :=
  exists out,
    XRawVolumeWriter.write_voxels (writing obj fs0 path acc)
    = (Ok tt, writing obj fs0 path (acc ++ out))
    /\ length out = (d * h * w)%nat
    /\ forall x y z, (x < w)%nat -> (y < h)%nat -> (z < d)%nat ->
         exists b cell,
           out !! voxel_index w h x y z = Some b
           /\ nd_get3 (nd_data (XRawVolumeWriter.voxels obj)) x y z = Ok cell
           /\ elem_of_cell (nd_dtype (XRawVolumeWriter.voxels obj)) cell
              = ElemInt (byte_val b).

(** The 4-byte value of a channel, as its type says: [f] is the float of
    the unsigned integer, of the signed integer, or the binary32 value, of
    the four bytes [bs]. *)
Definition channel_decoded (ty : struct_format) (bs : list byte) (f : float)
  : Prop :=
  match ty with
  | fmt_I => float_of_int (int_from_bytes_little bs) = Ok f
  | fmt_i => float_of_int (to_signed 32 (int_from_bytes_little bs)) = Ok f
  | fmt_f => f = float32_of_bits (int_from_bytes_little bs)
  | fmt_b => False
  end.

(** [read_palette_buffer] on the parser [s0], whose header gives [n]
    colours of [c] channels of [k] bytes and the channel type [ty]: it
    returns, after [n * c] reads of [k] bytes, and the cell [i][j] is the
    value of element [channel_index c i j] padded with zero bytes to four
    bytes. *)
Definition palette_read (s0 : XRawVolumeParser.t) (ty : struct_format)
  (n c k : nat) : Prop :=
  exists pal,
    XRawVolumeParser.read_palette_buffer s0
    = (Ok tt,
       XRawVolumeParser.set_palette (Some pal)
         (XRawVolumeParser.set_file
            (rfile_after (XRawVolumeParser.file s0) k (n * c)) s0))
    /\ forall i j, (i < n)%nat -> (j < c)%nat ->
         let bs := element (XRawVolumeParser.file s0) k (channel_index c i j)
                   ++ replicate (4 - k) "000"%byte in
         exists f,
           get2 pal i j = Some f
           /\ length (element (XRawVolumeParser.file s0) k
                        (channel_index c i j)) = k
           /\ length bs = 4%nat
           /\ channel_decoded ty bs f.

(** The cells of the [w] by [h] by [d] first indices of an array are
    integers (of a dtype of integers); likewise for [n] by [c]. *)
Definition int_cells3 (a : ndarray) (w h d : nat) : Prop :=
  forall x y z, (x < w)%nat -> (y < h)%nat -> (z < d)%nat ->
    exists cell v, nd_get3 (nd_data a) x y z = Ok cell
                   /\ elem_of_cell (nd_dtype a) cell = ElemInt v.
Definition int_cells2 (a : ndarray) (n c : nat) : Prop :=
  forall i j, (i < n)%nat -> (j < c)%nat ->
    exists cell v, nd_get2 (nd_data a) i j = Ok cell
                   /\ elem_of_cell (nd_dtype a) cell = ElemInt v.

(** The writer is writing to the file of [path]. *)
Definition is_writing (obj : XRawVolumeWriter.t) (fs0 : filesystem)
  (path : string) (wld : XRawVolumeWriter.world) : Prop :=
  exists out, wld = writing obj fs0 path out.

(** What [bytes([v])] raises when [v] is not in [range(0, 256)]. *)
Definition bytes_range_error : exn :=
  ValueError "bytes must be in range(0, 256)".

(** ** Files and instances used as examples *)

(** A parser that has just been constructed on a file of this content. *)
Definition fresh_parser (content : list byte) : XRawVolumeParser.t :=
  XRawVolumeParser.mk (open_rb content)
    None None None None None None None None None None None None.

(** A header for a volume of 2 by 1 by 1, unsigned channels, 4 channels of
    8 bits, indices of 8 bits, and no colour; then one voxel byte, where
    two are announced. *)
Definition truncated_file : list byte :=
  XRAW_bytes ++
  ["000"; "004"; "008"; "008";
   "002"; "000"; "000"; "000"; "001"; "000"; "000"; "000";
   "001"; "000"; "000"; "000"; "000"; "000"; "000"; "000";
   "007"]%byte.

(** The same with one colour announced. *)
Definition truncated_file_one_colour : list byte :=
  XRAW_bytes ++
  ["000"; "004"; "008"; "008";
   "002"; "000"; "000"; "000"; "001"; "000"; "000"; "000";
   "001"; "000"; "000"; "000"; "001"; "000"; "000"; "000";
   "007"]%byte.

(** The dictionary [parse] builds: six entries, the arrays as lists when
    [use_lists] is set. *)
Definition parse_result (use_lists : bool) (w h d n : Z)
  (a : list (list (list float))) (pal : list (list float))
  : gmap string pyobj :=
  <["palette" := if use_lists then PyList2 pal else PyNdarray2 pal]>
    (<["voxels" := if use_lists then PyList3 a else PyNdarray3 a]>
       (<["num_of_pallette_colors" := PyInt n]>
          (<["depth" := PyInt d]>
             (<["height" := PyInt h]>
                (<["width" := PyInt w]> ∅))))).

(** A whole file for a volume of 1 by 1 by 1 and one colour of one channel:
    the header, the voxel 5, the channel 9, and three more bytes. *)
Definition file_with_trailing_bytes : list byte :=
  XRAW_bytes ++
  ["000"; "001"; "008"; "008";
   "001"; "000"; "000"; "000"; "001"; "000"; "000"; "000";
   "001"; "000"; "000"; "000"; "001"; "000"; "000"; "000";
   "005"; "009"; "001"; "002"; "003"]%byte.

(** The magic tag and three bytes of a header. *)
Definition file_cut_in_header : list byte :=
  XRAW_bytes ++ ["000"; "004"; "008"]%byte.

(** A whole header whose channel type is the byte 255, and one whose channel
    type is the byte 3. *)
Definition header_of_type (ty : byte) : list byte :=
  XRAW_bytes ++
  [ty; "004"; "008"; "008";
   "001"; "000"; "000"; "000"; "001"; "000"; "000"; "000";
   "001"; "000"; "000"; "000"; "000"; "000"; "000"; "000"]%byte.

(** A whole file for a volume of 1 by 1 by 1 that announces one colour of
    200 channels. *)
Definition file_of_200_channels : list byte :=
  XRAW_bytes ++
  ["000"; "200"; "008"; "008";
   "001"; "000"; "000"; "000"; "001"; "000"; "000"; "000";
   "001"; "000"; "000"; "000"; "001"; "000"; "000"; "000";
   "005"]%byte ++ replicate 200 "009"%byte.

(** The computation [m] keeps the property [I] of the state, whether it
    returns or raises. *)
Definition preserves {S A} (I : S -> Prop) (m : pym S A) : Prop :=
  forall s r s', I s -> m s = (r, s') -> I s'.

(** The call returned (it did not raise). *)
Definition returned {A} (r : outcome A) : bool :=
  match r with Ok _ => true | Raise _ => false end.

(** The writer made of the voxel grid [[[v]]] and of the one colour
    [10, 20, 30, 40]. *)
Definition writer_of_one_voxel (v : Z) : XRawVolumeWriter.t :=
  XRawVolumeWriter.mk
    (mk_ndarray dt_int64 [1%nat; 1%nat; 1%nat] (pylist3 [[[v]]]))
    (mk_ndarray dt_int64 [1%nat; 4%nat] (pylist2 [[10; 20; 30; 40]]))
    XRAW fmt_I 1 1 1 1 1 1 4 None.

(** A whole file for a volume of 1 by 1 by 1 whose header gives 128 as the
    number of bits of an index. *)
Definition file_of_128_bit_indices : list byte :=
  XRAW_bytes ++
  ["000"; "004"; "008"; "128";
   "001"; "000"; "000"; "000"; "001"; "000"; "000"; "000";
   "001"; "000"; "000"; "000"; "000"; "000"; "000"; "000";
   "005"]%byte.

(** * Properties *)

(** ** The monad *)

Section monad_facts.
Context {S : Type}.

Lemma bind_Ok {A B} (m : pym S A) (k : A -> pym S B) s a s' :
  m s = (Ok a, s') -> bind m k s = k a s'.
Proof. unfold bind; intros ->; reflexivity. Qed.

Lemma bind_Raise {A B} (m : pym S A) (k : A -> pym S B) s e s' :
  m s = (Raise e, s') -> bind m k s = (Raise e, s').
Proof. unfold bind; intros ->; reflexivity. Qed.

Lemma bind_inv_Ok {A B} (m : pym S A) (k : A -> pym S B) s b s2 :
  bind m k s = (Ok b, s2) ->
  exists a s1, m s = (Ok a, s1) /\ k a s1 = (Ok b, s2).
Proof.
  unfold bind; destruct (m s) as [[a|e] s1]; intros H.
  - eauto.
  - discriminate.
Qed.

Lemma for_each_app {A} (l1 l2 : list A) (body : A -> pym S unit) s :
  for_each (l1 ++ l2) body s
  = bind (for_each l1 body) (fun _ => for_each l2 body) s.
Proof.
  revert s; induction l1 as [|x l1 IH]; intros s; simpl.
  - reflexivity.
  - unfold bind. destruct (body x s) as [[[]|e] s1]; [|reflexivity].
    rewrite IH. reflexivity.
Qed.
End monad_facts.

(** ** Bytes *)

Lemma byte_val_range b : 0 <= byte_val b < 256.
Proof.
  unfold byte_val. pose proof (Byte.to_N_bounded b). lia.
Qed.

Lemma byte_val_inj b1 b2 : byte_val b1 = byte_val b2 -> b1 = b2.
Proof.
  unfold byte_val; intros H. apply N2Z.inj in H.
  pose proof (Byte.of_to_N b1) as H1. pose proof (Byte.of_to_N b2) as H2.
  rewrite H in H1. congruence.
Qed.

Lemma map_byte_val_inj bs1 bs2 :
  map byte_val bs1 = map byte_val bs2 -> bs1 = bs2.
Proof.
  revert bs2; induction bs1 as [|b bs1 IH]; intros [|b' bs2] H;
    simpl in H; try discriminate; [reflexivity|].
  injection H as Hb Hbs. f_equal; [by apply byte_val_inj | by apply IH].
Qed.

(** ** UTF-8: a decoded text is never longer than its bytes, and is as long
    only when every byte is a character of its own *)

Lemma utf8_decode_length n : forall bs cps,
  (length bs <= n)%nat -> utf8_decode bs = Some cps ->
  (length cps <= length bs)%nat /\
  (length cps = length bs -> cps = map byte_val bs).
Proof.
  induction n as [|n IH]; intros bs cps Hn H.
  - destruct bs; [|simpl in Hn; lia]. simpl in H. injection H as <-. done.
  - destruct bs as [|b0 r0]; [simpl in H; injection H as <-; done|].
    simpl in Hn. cbn [utf8_decode] in H.
    destruct (byte_val b0 <? 128).
    { apply fmap_Some in H as (cps' & H & ->).
      apply IH in H as [H1 H2]; [|lia]. simpl. split; [lia|].
      intros Hl. f_equal. apply H2. lia. }
    destruct r0 as [|b1 r1]; [discriminate|]. simpl in Hn.
    destruct (in_range 194 223 (byte_val b0)).
    { destruct (is_cont (byte_val b1)); [|discriminate].
      apply fmap_Some in H as (cps' & H & ->).
      apply IH in H as [H1 H2]; [|lia]. simpl. split; lia. }
    destruct r1 as [|b2 r2]; [discriminate|]. simpl in Hn.
    destruct (in_range 224 239 (byte_val b0)).
    { destruct (second_of3 _ _ && is_cont _); [|discriminate].
      apply fmap_Some in H as (cps' & H & ->).
      apply IH in H as [H1 H2]; [|lia]. simpl. split; lia. }
    destruct r2 as [|b3 r3]; [discriminate|]. simpl in Hn.
    destruct (in_range 240 244 (byte_val b0)); [|discriminate].
    destruct (second_of4 _ _ && is_cont _ && is_cont _); [|discriminate].
    apply fmap_Some in H as (cps' & H & ->).
    apply IH in H as [H1 H2]; [|lia]. simpl. split; lia.
Qed.

Lemma utf8_decode_XRAW bs :
  (length bs <= 4)%nat -> utf8_decode bs = Some XRAW -> bs = XRAW_bytes.
Proof.
  intros Hl H.
  destruct (utf8_decode_length (length bs) bs XRAW) as [H1 H2]; [lia|done|].
  simpl in H1. apply map_byte_val_inj. rewrite <- H2; [reflexivity|].
  simpl. lia.
Qed.

Lemma utf8_decode_XRAW_bytes : utf8_decode XRAW_bytes = Some XRAW.
Proof. reflexivity. Qed.

(** ** Reading from a file *)

Lemma rfile_read_nonneg n f :
  0 <= n ->
  rfile_read n f
  = (take (Z.to_nat n) (drop (rf_pos f) (rf_content f)),
     mk_rfile (rf_content f)
       (rf_pos f + length (take (Z.to_nat n) (drop (rf_pos f) (rf_content f))))
       (rf_reads f ++ [n])).
Proof.
  intros Hn. unfold rfile_read.
  destruct (n <? 0) eqn:E; [apply Z.ltb_lt in E; lia|reflexivity].
Qed.

Lemma read_eq n s :
  -1 <= n ->
  XRawVolumeParser.read n s
  = (Ok (fst (rfile_read n (XRawVolumeParser.file s))),
     XRawVolumeParser.set_file (snd (rfile_read n (XRawVolumeParser.file s))) s).
Proof.
  intros Hn. unfold XRawVolumeParser.read.
  destruct (Z.ltb_spec n (-1)); [lia|].
  destruct (rfile_read _ _); reflexivity.
Qed.

(** ** The magic tag *)

Section magic.
Import XRawVolumeParser.

Lemma raise_error_if_file_not_valid_eq s :
  raise_error_if_file_not_valid s
  = (match utf8_decode (fst (rfile_read 4 (file s))) with
     | None => Raise UnicodeDecodeError
     | Some t =>
       if bool_decide (t ≠ XRAW)
       then Raise (ValueError "Can't recognize file format.")
       else Ok tt
     end,
     set_file (snd (rfile_read 4 (file s))) s).
Proof.
  unfold raise_error_if_file_not_valid.
  rewrite (bind_Ok _ _ _ _ _ (read_eq 4 s ltac:(lia))).
  destruct (utf8_decode _) as [t|]; [|reflexivity].
  destruct (bool_decide _); reflexivity.
Qed.
End magic.



(** ** The cache of [parse] *)

Section cache.
Import XRawVolumeParser.

Lemma attr_inv {A} (proj : t -> option A) s a s' :
  attr proj s = (Ok a, s') -> proj s = Some a /\ s' = s.
Proof.
  unfold attr. destruct (proj s); intros H; [|discriminate].
  injection H as <- <-. done.
Qed.

Lemma attr_Some {A} (proj : t -> option A) s a :
  proj s = Some a -> attr proj s = (Ok a, s).
Proof. unfold attr. intros ->. reflexivity. Qed.

Lemma data_setitem_inv k v s s' :
  data_setitem k v s = (Ok tt, s') ->
  exists m, data s = Some m /\ s' = set_data (Some (<[k := v]> m)) s.
Proof.
  unfold data_setitem. intros H.
  apply bind_inv_Ok in H as (m & s1 & H1 & H).
  apply attr_inv in H1 as [H1 ->]. injection H as <-. eauto.
Qed.

Lemma data_getitem_inv k s v s' :
  data_getitem k s = (Ok v, s') -> s' = s.
Proof.
  unfold data_getitem. intros H.
  apply bind_inv_Ok in H as (m & s1 & H1 & H).
  apply attr_inv in H1 as [H1 ->].
  destruct (m !! k); [injection H as _ <-; done|discriminate].
Qed.

Lemma lift_inv {A} (o : outcome A) (s : t) a s' :
  lift o s = (Ok a, s') -> o = Ok a /\ s' = s.
Proof. unfold lift. intros H. injection H as -> <-. done. Qed.

(** What a successful [parse] returns is the dictionary it leaves in
    [self.data], and that dictionary is not empty. *)
Lemma parse_Ok_data use_lists s d s1 :
  parse use_lists s = (Ok d, s1) -> data s1 = Some d /\ d <> ∅.
Proof.
  unfold parse. intros H.
  apply bind_inv_Ok in H as (d0 & s0 & H0 & H).
  injection H0 as <- <-.
  destruct (truthy (data s)) eqn:Ht.
  - apply attr_inv in H as [H ->]. split; [done|].
    rewrite H in Ht. simpl in Ht. by apply bool_decide_eq_true in Ht.
  - do 16 (apply bind_inv_Ok in H as (? & ? & _ & H)).
    apply bind_inv_Ok in H as ([] & s2 & H2 & H).
    apply data_setitem_inv in H2 as (m & _ & ->).
    apply bind_inv_Ok in H as ([] & s3 & H3 & H).
    apply attr_inv in H as [H ->].
    destruct use_lists.
    + do 5 (apply bind_inv_Ok in H3 as (? & ? & _ & H3)).
      apply data_setitem_inv in H3 as (m' & _ & ->).
      simpl in H. injection H as <-. split; [done|].
      apply insert_non_empty.
    + injection H3 as <-. simpl in H. injection H as <-. split; [done|].
      apply insert_non_empty.
Qed.
End cache.

(** C4. Once [parse] has returned, every later call returns the dictionary
    of the first call and leaves the instance as it is: the file is not read
    again (its position and the list of reads made are unchanged). *)
Theorem parse_twice use_lists use_lists' s d s1 :
  XRawVolumeParser.parse use_lists s = (Ok d, s1) ->
  XRawVolumeParser.parse use_lists' s1 = (Ok d, s1).
Proof.
  intros H. apply parse_Ok_data in H as [Hd Hne].
  unfold XRawVolumeParser.parse.
  erewrite bind_Ok by reflexivity. rewrite Hd.
  cbn [XRawVolumeParser.truthy]. rewrite bool_decide_eq_true_2 by done.
  by apply attr_Some.
Qed.

Lemma parse_twice_witness :
  exists d s1,
    XRawVolumeParser.parse false
      (XRawVolumeParser.mk
         (open_rb (XRAW_bytes ++
                   ["000"; "004"; "008"; "008"; "001"; "000"; "000"; "000";
                    "001"; "000"; "000"; "000"; "001"; "000"; "000"; "000";
                    "000"; "000"; "000"; "000"; "007"]%byte))
         None None None None None None None None None None None None)
    = (Ok d, s1)
    /\ XRawVolumeParser.parse true s1 = (Ok d, s1).
Proof.
  eexists. eexists. split.
  - vm_compute. reflexivity.
  - apply (parse_twice false true
             (XRawVolumeParser.mk
                (open_rb (XRAW_bytes ++
                   ["000"; "004"; "008"; "008"; "001"; "000"; "000"; "000";
                    "001"; "000"; "000"; "000"; "001"; "000"; "000"; "000";
                    "000"; "000"; "000"; "000"; "007"]%byte))
                None None None None None None None None None None None None)).
    vm_compute. reflexivity.
Defined.

(** ** The constructor of the writer *)

Section writer_init.
Import XRawVolumeWriter.

Lemma init_eq voxels palette :
  init voxels palette
  = (v ← array_of_arg voxels default_voxels;
     p ← array_of_arg palette default_palette;
     if negb (Nat.eqb (length (nd_shape v)) 3)
     then Raise (ValueError "voxel grid must be 3 dimensional")
     else
       width ← shape_get (nd_shape v) 0;
       height ← shape_get (nd_shape v) 1;
       depth ← shape_get (nd_shape v) 2;
       num_of_pallette_colors ← shape_get (nd_shape p) 0;
       num_of_color_channels ← shape_get (nd_shape p) 1;
       Ok (mk v p XRAW fmt_I 1 1 width height depth
             num_of_pallette_colors num_of_color_channels None)).
Proof.
  unfold init, array_of_arg.
  destruct (ne_None_truth voxels) as [b|e]; [|reflexivity]; simpl.
  destruct (if b then _ else _) as [v|e]; [|reflexivity]; simpl.
  destruct (ne_None_truth palette) as [b'|e]; reflexivity.
Qed.

Lemma array_of_arg_Raise x dflt e :
  array_of_arg x dflt = Raise e -> is_ValueError e = true.
Proof.
  unfold array_of_arg.
  destruct x as [v|a]; simpl.
  - destruct v; unfold np_array; simpl; try discriminate.
    destruct (match l with [] => _ | _ => _ end); [discriminate|].
    intros H; injection H as <-. reflexivity.
  - destruct (Nat.eqb (nd_size a) 1); simpl; [discriminate|].
    destruct (Nat.eqb (nd_size a) 0); intros H; injection H as <-;
      reflexivity.
Qed.

Lemma array_of_arg_ndim x dflt a n :
  array_of_arg x dflt = Ok a -> arg_ndim x = Some n ->
  length (nd_shape a) = n.
Proof.
  unfold array_of_arg, arg_ndim.
  destruct x as [v|a']; simpl.
  - destruct v; unfold np_array; simpl; try discriminate.
    + intros H; injection H as <-. simpl. congruence.
    + destruct (match l with [] => _ | _ => _ end); [|discriminate].
      intros H; injection H as <-. simpl. congruence.
  - destruct (Nat.eqb (nd_size a') 1); simpl.
    + intros H; injection H as <-. congruence.
    + destruct (Nat.eqb (nd_size a') 0); discriminate.
Qed.
End writer_init.





(** ** Integers below 2^53 are floats *)

Section float_exact.

Lemma digits2_pos_iter_xO m d :
  digits2_pos (Pos.iter xO m d) = (digits2_pos m + d)%positive.
Proof.
  induction d as [|d IH] using Pos.peano_ind.
  - simpl. lia.
  - rewrite Pos.iter_succ. simpl. rewrite IH. lia.
Qed.

Lemma Zpos_iter_xO m d :
  Z.pos (Pos.iter xO m d) = Z.pos m * 2 ^ Z.pos d.
Proof.
  induction d as [|d IH] using Pos.peano_ind.
  - simpl. lia.
  - rewrite Pos.iter_succ, Pos2Z.inj_succ, Z.pow_succ_r by lia.
    change (Z.pos (Pos.iter xO m d)~0) with (2 * Z.pos (Pos.iter xO m d)).
    rewrite IH. lia.
Qed.

Lemma digits2_pos_bounds m :
  2 ^ (Z.pos (digits2_pos m) - 1) <= Z.pos m < 2 ^ Z.pos (digits2_pos m).
Proof.
  induction m as [m IH|m IH|]; cbn [digits2_pos].
  - rewrite Pos2Z.inj_succ. change (Z.pos m~1) with (2 * Z.pos m + 1).
    replace (Z.succ (Z.pos (digits2_pos m)) - 1)
      with (Z.succ (Z.pos (digits2_pos m) - 1)) by lia.
    rewrite !Z.pow_succ_r by lia. lia.
  - rewrite Pos2Z.inj_succ. change (Z.pos m~0) with (2 * Z.pos m).
    replace (Z.succ (Z.pos (digits2_pos m)) - 1)
      with (Z.succ (Z.pos (digits2_pos m) - 1)) by lia.
    rewrite !Z.pow_succ_r by lia. lia.
  - simpl. lia.
Qed.

Lemma binary_round_aux_canonical s mz ez :
  digits2_pos mz = 53%positive -> -1074 <= ez <= 971 ->
  binary_round_aux 53 1024 s (Z.pos mz) ez loc_Exact = S754_finite s mz ez.
Proof.
  intros Hd He. unfold binary_round_aux, shr_fexp.
  cbn [Zdigits2 shr_record_of_loc]. rewrite Hd.
  assert (fexp 53 1024 (53 + ez) - ez = 0) as ->.
  { unfold fexp, emin. lia. }
  cbn [shr shr_m loc_of_shr_record round_nearest_even Zdigits2].
  rewrite Hd.
  assert (fexp 53 1024 (53 + ez) - ez = 0) as ->.
  { unfold fexp, emin. lia. }
  cbn [shr shr_m].
  destruct (Z.leb_spec ez (1024 - 53)); [reflexivity|lia].
Qed.

(** The float of a positive integer below 2^53: its mantissa is the integer
    shifted to 53 digits. *)
Lemma binary_round_small s m :
  Z.pos m < 2 ^ 53 ->
  exists mz ez,
    binary_round 53 1024 s m 0 = S754_finite s mz ez
    /\ ez <= 0 /\ Z.pos mz = Z.pos m * 2 ^ (- ez).
Proof.
  intros Hm. pose proof (digits2_pos_bounds m) as [Hlo Hhi].
  assert (Z.pos (digits2_pos m) <= 53) as Hd.
  { destruct (Z.le_gt_cases (Z.pos (digits2_pos m)) 53); [done|].
    assert (2 ^ 53 <= 2 ^ (Z.pos (digits2_pos m) - 1))
      by (apply Z.pow_le_mono_r; lia).
    lia. }
  unfold binary_round, shl_align.
  assert (fexp 53 1024 (Z.pos (digits2_pos m) + 0)
          = Z.pos (digits2_pos m) - 53) as ->.
  { unfold fexp, emin. lia. }
  rewrite Z.sub_0_r.
  destruct (Z.pos (digits2_pos m) - 53) as [|d|d] eqn:Hdd; [|lia|].
  - rewrite binary_round_aux_canonical by lia.
    exists m, 0. split; [reflexivity|]. split; [lia|]. simpl. lia.
  - rewrite binary_round_aux_canonical.
    + exists (Pos.iter xO m d), (Z.neg d). split; [reflexivity|].
      split; [lia|]. rewrite Zpos_iter_xO. reflexivity.
    + rewrite digits2_pos_iter_xO. lia.
    + lia.
Qed.

Lemma float_of_int_exact v :
  - 2 ^ 53 < v < 2 ^ 53 ->
  exists f, float_of_int v = Ok f /\ int_of_float f = Some v.
Proof.
  intros Hv. unfold float_of_int, binary_normalize.
  destruct v as [|m|m].
  - eexists; split; reflexivity.
  - destruct (binary_round_small false m) as (mz & ez & -> & He & Hmz);
      [lia|].
    eexists; split; [reflexivity|]. unfold int_of_float.
    destruct (Z.leb_spec 0 ez).
    + assert (ez = 0) as -> by lia. simpl in *. f_equal. lia.
    + rewrite Hmz, Z_mod_mult, Z.eqb_refl, Z_div_mult by lia. reflexivity.
  - destruct (binary_round_small true m) as (mz & ez & -> & He & Hmz);
      [lia|].
    eexists; split; [reflexivity|]. unfold int_of_float.
    destruct (Z.leb_spec 0 ez).
    + assert (ez = 0) as -> by lia. simpl in *. f_equal. lia.
    + rewrite Hmz, Z_mod_mult, Z.eqb_refl, Z_div_mult by lia. reflexivity.
Qed.

End float_exact.

(** ** Loops *)

Section loops.
Context {S : Type}.

(** A loop over [start, start + len) whose body keeps an invariant indexed
    by the iteration runs to the end and establishes the invariant there. *)
Lemma for_each_seq_inv (P : nat -> S -> Prop) (body : nat -> pym S unit) :
  forall len start s,
    P start s ->
    (forall i s, (start <= i < start + len)%nat -> P i s ->
       exists s', body i s = (Ok tt, s') /\ P (Datatypes.S i) s') ->
    exists s', for_each (seq start len) body s = (Ok tt, s')
               /\ P (start + len)%nat s'.
Proof.
  induction len as [|len IH]; intros start s HP Hbody; simpl.
  - exists s. rewrite Nat.add_0_r. done.
  - destruct (Hbody start s) as (s1 & Hb & HP1); [lia|done|].
    rewrite (bind_Ok _ _ _ _ _ Hb).
    destruct (IH (Datatypes.S start) s1 HP1) as (s2 & Hl & HP2).
    { intros i s' Hi. apply Hbody. lia. }
    exists s2. split; [done|].
    by replace (start + Datatypes.S len)%nat
      with (Datatypes.S start + len)%nat by lia.
Qed.

(** A loop whose first iteration raises, raises. *)
Lemma for_each_first_Raise {A} (body : A -> pym S unit) x l s e s' :
  body x s = (Raise e, s') -> for_each (x :: l) body s = (Raise e, s').
Proof. intros H. simpl. by apply bind_Raise. Qed.

(** A loop whose iterations keep an invariant or raise [e], one of them
    always raising, raises [e]. *)
Lemma for_each_Raise {A} (I : S -> Prop) (body : A -> pym S unit) e :
  forall l s,
    I s ->
    (forall x s, x ∈ l -> I s ->
       (exists s', body x s = (Ok tt, s') /\ I s')
       \/ (exists s', body x s = (Raise e, s'))) ->
    (exists x, x ∈ l /\ forall s, I s -> exists s', body x s = (Raise e, s')) ->
    exists s', for_each l body s = (Raise e, s').
Proof.
  induction l as [|y l IH]; intros s HI Hall (x & Hx & Hbad).
  - by apply elem_of_nil in Hx.
  - simpl. destruct (Hall y s) as [(s1 & Hb & HI1)|(s1 & Hb)];
      [by left|done| |].
    + rewrite (bind_Ok _ _ _ _ _ Hb).
      apply elem_of_cons in Hx as [->|Hx].
      { destruct (Hbad s HI) as (s2 & Hb'). congruence. }
      apply IH; [done| |by eauto].
      intros x' s' Hx'. apply Hall. by right.
    + rewrite (bind_Raise _ _ _ _ _ Hb). eauto.
Qed.

(** A loop whose iterations keep an invariant or raise [e] keeps the
    invariant or raises [e]. *)
Lemma for_each_Ok_or_Raise {A} (I : S -> Prop) (body : A -> pym S unit) e :
  forall l s,
    I s ->
    (forall x s, x ∈ l -> I s ->
       (exists s', body x s = (Ok tt, s') /\ I s')
       \/ (exists s', body x s = (Raise e, s'))) ->
    (exists s', for_each l body s = (Ok tt, s') /\ I s')
    \/ (exists s', for_each l body s = (Raise e, s')).
Proof.
  induction l as [|y l IH]; intros s HI Hall.
  - left. exists s. done.
  - simpl. destruct (Hall y s) as [(s1 & Hb & HI1)|(s1 & Hb)];
      [by left|done| |].
    + rewrite (bind_Ok _ _ _ _ _ Hb). apply IH; [done|].
      intros x' s' Hx'. apply Hall. by right.
    + right. rewrite (bind_Raise _ _ _ _ _ Hb). eauto.
Qed.
End loops.

(** ** Arrays as nested lists *)

Lemma get3_set3 {A} (a a' : list (list (list A))) x y z v x' y' z' :
  set3 a x y z v = Some a' ->
  get3 a' x' y' z'
  = if decide ((x', y', z') = (x, y, z)) then Some v else get3 a x' y' z'.
Proof.
  unfold set3, get3. intros H.
  destruct (a !! x) as [plane|] eqn:Hx; [|discriminate]. simpl in H.
  destruct (plane !! y) as [row|] eqn:Hy; [|discriminate]. simpl in H.
  destruct (row !! z) as [c|] eqn:Hz; [|discriminate]. simpl in H.
  injection H as <-.
  apply lookup_lt_Some in Hx as Hx', Hy as Hy', Hz as Hz'.
  destruct (decide (x' = x)) as [->|Nx].
  - rewrite list_lookup_insert_eq by done. simpl.
    destruct (decide (y' = y)) as [->|Ny].
    + rewrite list_lookup_insert_eq by done. simpl.
      destruct (decide (z' = z)) as [->|Nz].
      * rewrite list_lookup_insert_eq by done. by rewrite decide_True.
      * rewrite list_lookup_insert_ne by done.
        rewrite decide_False by congruence. by rewrite Hx; simpl; rewrite Hy.
    + rewrite list_lookup_insert_ne by done.
      rewrite decide_False by congruence. by rewrite Hx.
  - rewrite list_lookup_insert_ne by done.
    rewrite decide_False by congruence. done.
Qed.

Lemma set3_is_Some {A} (a : list (list (list A))) x y z v :
  is_Some (get3 a x y z) -> is_Some (set3 a x y z v).
Proof.
  unfold set3, get3. intros [c H].
  destruct (a !! x) as [plane|]; [|discriminate]. simpl in *.
  destruct (plane !! y) as [row|]; [|discriminate]. simpl in *.
  rewrite H. simpl. eauto.
Qed.

Lemma get2_set2 {A} (a a' : list (list A)) i c v i' c' :
  set2 a i c v = Some a' ->
  get2 a' i' c'
  = if decide ((i', c') = (i, c)) then Some v else get2 a i' c'.
Proof.
  unfold set2, get2. intros H.
  destruct (a !! i) as [row|] eqn:Hi; [|discriminate]. simpl in H.
  destruct (row !! c) as [x|] eqn:Hc; [|discriminate]. simpl in H.
  injection H as <-.
  apply lookup_lt_Some in Hi as Hi', Hc as Hc'.
  destruct (decide (i' = i)) as [->|Ni].
  - rewrite list_lookup_insert_eq by done. simpl.
    destruct (decide (c' = c)) as [->|Nc].
    + rewrite list_lookup_insert_eq by done. by rewrite decide_True.
    + rewrite list_lookup_insert_ne by done.
      rewrite decide_False by congruence. by rewrite Hi.
  - rewrite list_lookup_insert_ne by done.
    rewrite decide_False by congruence. done.
Qed.

Lemma set2_is_Some {A} (a : list (list A)) i c v :
  is_Some (get2 a i c) -> is_Some (set2 a i c v).
Proof.
  unfold set2, get2. intros [x H].
  destruct (a !! i) as [row|]; [|discriminate]. simpl in *.
  rewrite H. simpl. eauto.
Qed.

Lemma get3_np_zeros3 w h d a (x y z : nat) :
  np_zeros3 w h d = Ok a ->
  (x < Z.to_nat w)%nat -> (y < Z.to_nat h)%nat -> (z < Z.to_nat d)%nat ->
  get3 a x y z = Some (S754_zero false).
Proof.
  unfold np_zeros3. destruct (_ || _); [discriminate|].
  intros H; injection H as <-. intros Hx Hy Hz. unfold get3.
  rewrite lookup_replicate_2 by done. simpl.
  rewrite lookup_replicate_2 by done. simpl.
  by rewrite lookup_replicate_2.
Qed.

Lemma get2_np_zeros2 n c a (i j : nat) :
  np_zeros2 n c = Ok a ->
  (i < Z.to_nat n)%nat -> (j < Z.to_nat c)%nat ->
  get2 a i j = Some (S754_zero false).
Proof.
  unfold np_zeros2. destruct (_ || _); [discriminate|].
  intros H; injection H as <-. intros Hi Hj. unfold get2.
  rewrite lookup_replicate_2 by done. simpl.
  by rewrite lookup_replicate_2.
Qed.

(** ** Little-endian integers *)

Lemma int_from_bytes_little_range bs :
  0 <= int_from_bytes_little bs < 256 ^ Z.of_nat (length bs).
Proof.
  induction bs as [|b bs IH]; cbn [int_from_bytes_little length].
  - simpl. lia.
  - pose proof (byte_val_range b). rewrite Nat2Z.inj_succ, Z.pow_succ_r by lia.
    lia.
Qed.

Lemma float_of_int_bytes bs :
  (length bs <= 6)%nat ->
  exists f, float_of_int (int_from_bytes_little bs) = Ok f
            /\ int_of_float f = Some (int_from_bytes_little bs).
Proof.
  intros Hl. apply float_of_int_exact.
  pose proof (int_from_bytes_little_range bs) as [H0 H1].
  assert (256 ^ Z.of_nat (length bs) <= 256 ^ 6)
    by (apply Z.pow_le_mono_r; lia).
  lia.
Qed.

(** ** Reading elements of a fixed size *)

Lemma rfile_after_0 f k : rfile_after f k 0 = f.
Proof.
  unfold rfile_after. destruct f as [c p l]. simpl.
  by rewrite Nat.add_0_r, app_nil_r.
Qed.

Lemma rfile_read_after f (k n : nat) :
  rfile_read (Z.of_nat k) (rfile_after f k n)
  = (element f k n, rfile_after f k (Datatypes.S n)).
Proof.
  rewrite rfile_read_nonneg by lia. rewrite Nat2Z.id.
  unfold rfile_after, element. cbn [rf_content rf_pos rf_reads].
  assert (take k (drop (rf_pos f + Nat.min (n * k)
                                     (length (rf_content f) - rf_pos f))
                    (rf_content f))
          = take k (drop (rf_pos f + n * k) (rf_content f))) as ->.
  { destruct (Nat.le_gt_cases (n * k) (length (rf_content f) - rf_pos f)).
    - by rewrite Nat.min_l.
    - rewrite Nat.min_r by lia. rewrite !drop_ge by lia. done. }
  f_equal. f_equal.
  - rewrite length_take, length_drop. lia.
  - rewrite <- app_assoc. f_equal.
    change [Z.of_nat k] with (replicate 1 (Z.of_nat k)).
    rewrite <- replicate_add. f_equal. lia.
Qed.

Lemma element_length f k i : (length (element f k i) <= k)%nat.
Proof. unfold element. rewrite length_take. lia. Qed.

Lemma mul_add_inj (w a x a' x' : nat) :
  (x < w)%nat -> (x' < w)%nat -> (a * w + x = a' * w + x')%nat ->
  a = a' /\ x = x'.
Proof.
  intros Hx Hx' H.
  assert (a = a') as ->.
  { destruct (Nat.lt_trichotomy a a') as [Hlt|[->|Hlt]]; [|done|].
    - assert (a * w + w <= a' * w)%nat by nia. lia.
    - assert (a' * w + w <= a * w)%nat by nia. lia. }
  split; [done|lia].
Qed.

Lemma voxel_index_inj w h x y z x' y' z' :
  (x < w)%nat -> (x' < w)%nat -> (y < h)%nat -> (y' < h)%nat ->
  voxel_index w h x y z = voxel_index w h x' y' z' ->
  (x, y, z) = (x', y', z').
Proof.
  unfold voxel_index. intros Hx Hx' Hy Hy' H.
  apply mul_add_inj in H as [H ->]; [|done..].
  apply mul_add_inj in H as [-> ->]; done.
Qed.

Lemma channel_index_inj c i j i' j' :
  (j < c)%nat -> (j' < c)%nat ->
  channel_index c i j = channel_index c i' j' -> (i, j) = (i', j').
Proof.
  unfold channel_index. intros Hj Hj' H.
  apply mul_add_inj in H as [-> ->]; done.
Qed.

(** ** The voxel buffer, read *)

Lemma voxel_index_lt w h d x y z :
  (x < w)%nat -> (y < h)%nat -> (z < d)%nat ->
  (voxel_index w h x y z < d * h * w)%nat.
Proof.
  unfold voxel_index. intros Hx Hy Hz.
  assert (z * h + y + 1 <= d * h)%nat by nia.
  assert ((z * h + y + 1) * w <= d * h * w)%nat by (apply Nat.mul_le_mono_r; lia).
  lia.
Qed.

Section read_voxels.
Import XRawVolumeParser.
Variables (s0 : t) (w h d k : nat).
Hypothesis Hw : width s0 = Some (Z.of_nat w).
Hypothesis Hh : height s0 = Some (Z.of_nat h).
Hypothesis Hd : depth s0 = Some (Z.of_nat d).
Hypothesis Hk : bytes_per_index s0 = Some (Z.of_nat k).
Hypothesis Hk6 : (k <= 6)%nat.

Lemma read_voxel_step x y z s :
  (x < w)%nat -> (y < h)%nat -> (z < d)%nat ->
  voxels_read_upto s0 w h d k (voxel_index w h x y z) s ->
  exists s', read_voxel x y z s = (Ok tt, s')
             /\ voxels_read_upto s0 w h d k (Datatypes.S (voxel_index w h x y z)) s'.
Proof.
  intros Hx Hy Hz (a & -> & Ha). unfold read_voxel.
  erewrite bind_Ok by (apply attr_Some; exact Hk).
  erewrite bind_Ok by (apply read_eq; lia).
  cbn [file set_voxels set_file]. rewrite rfile_read_after. cbn [fst snd].
  destruct (float_of_int_bytes (element (file s0) k (voxel_index w h x y z)))
    as (f & Hf & _).
  { pose proof (element_length (file s0) k (voxel_index w h x y z)). lia. }
  erewrite bind_Ok by (unfold lift; rewrite Hf; reflexivity).
  unfold voxels_setitem.
  erewrite bind_Ok by (apply attr_Some; reflexivity).
  destruct (set3_is_Some a x y z f) as [a' Ha'].
  { specialize (Ha x y z Hx Hy Hz). rewrite Nat.ltb_irrefl in Ha.
    rewrite Ha. eauto. }
  rewrite Ha'. eexists. split; [reflexivity|].
  exists a'. split; [reflexivity|].
  intros x' y' z' Hx' Hy' Hz'.
  rewrite (get3_set3 _ _ _ _ _ _ _ _ _ Ha').
  destruct (decide ((x', y', z') = (x, y, z))) as [E|E].
  - injection E as -> -> ->.
    destruct (Nat.ltb_spec (voxel_index w h x y z)
                (Datatypes.S (voxel_index w h x y z))); [|lia].
    eauto.
  - assert (voxel_index w h x' y' z' <> voxel_index w h x y z) as Hne.
    { intros Hi. apply voxel_index_inj in Hi; done. }
    specialize (Ha x' y' z' Hx' Hy' Hz').
    destruct (Nat.ltb_spec (voxel_index w h x' y' z') (voxel_index w h x y z));
      destruct (Nat.ltb_spec (voxel_index w h x' y' z')
                  (Datatypes.S (voxel_index w h x y z))); try lia; done.
Qed.

Lemma read_voxel_row y z s :
  (y < h)%nat -> (z < d)%nat ->
  voxels_read_upto s0 w h d k (voxel_index w h 0 y z) s ->
  exists s',
    for_range (Z.of_nat w) (fun x => read_voxel x y z) s = (Ok tt, s')
    /\ voxels_read_upto s0 w h d k (voxel_index w h 0 (Datatypes.S y) z) s'.
Proof.
  intros Hy Hz Hs. unfold for_range. rewrite Nat2Z.id.
  destruct (for_each_seq_inv
              (fun x => voxels_read_upto s0 w h d k (voxel_index w h x y z))
              (fun x => read_voxel x y z) w 0%nat s Hs) as (s' & Hl & Hs').
  { intros x s1 Hx Hs1.
    replace (voxel_index w h (Datatypes.S x) y z)
      with (Datatypes.S (voxel_index w h x y z)) by (unfold voxel_index; lia).
    apply read_voxel_step; [lia|done..]. }
  exists s'. split; [done|].
  replace (voxel_index w h 0 (Datatypes.S y) z)
    with (voxel_index w h (0 + w) y z); [done|].
  unfold voxel_index. lia.
Qed.

Lemma read_voxel_plane z s :
  (z < d)%nat ->
  voxels_read_upto s0 w h d k (voxel_index w h 0 0 z) s ->
  exists s',
    for_range (Z.of_nat h)
      (fun y => w' <- attr width ;;
                for_range w' (fun x => read_voxel x y z)) s = (Ok tt, s')
    /\ voxels_read_upto s0 w h d k (voxel_index w h 0 0 (Datatypes.S z)) s'.
Proof.
  intros Hz Hs. unfold for_range at 1. rewrite Nat2Z.id.
  destruct (for_each_seq_inv
              (fun y => voxels_read_upto s0 w h d k (voxel_index w h 0 y z))
              (fun y => w' <- attr width ;;
                        for_range w' (fun x => read_voxel x y z))
              h 0%nat s Hs) as (s' & Hl & Hs').
  { intros y s1 Hy Hs1.
    assert (attr width s1 = (Ok (Z.of_nat w), s1)) as Ha.
    { destruct Hs1 as (a & -> & _). apply attr_Some. exact Hw. }
    rewrite (bind_Ok _ _ _ _ _ Ha). apply read_voxel_row; [lia|done..]. }
  exists s'. split; [done|].
  replace (voxel_index w h 0 0 (Datatypes.S z))
    with (voxel_index w h 0 (0 + h) z); [done|].
  unfold voxel_index. lia.
Qed.

Lemma read_voxel_volume s :
  voxels_read_upto s0 w h d k 0 s ->
  exists s',
    for_range (Z.of_nat d)
      (fun z => h' <- attr height ;;
                for_range h'
                  (fun y => w' <- attr width ;;
                            for_range w' (fun x => read_voxel x y z)))
      s = (Ok tt, s')
    /\ voxels_read_upto s0 w h d k (d * h * w) s'.
Proof.
  intros Hs. unfold for_range at 1. rewrite Nat2Z.id.
  destruct (for_each_seq_inv
              (fun z => voxels_read_upto s0 w h d k (voxel_index w h 0 0 z))
              (fun z => h' <- attr height ;;
                        for_range h'
                          (fun y => w' <- attr width ;;
                             for_range w' (fun x => read_voxel x y z)))
              d 0%nat s Hs) as (s' & Hl & Hs').
  { intros z s1 Hz Hs1.
    assert (attr height s1 = (Ok (Z.of_nat h), s1)) as Ha.
    { destruct Hs1 as (a & -> & _). apply attr_Some. exact Hh. }
    rewrite (bind_Ok _ _ _ _ _ Ha). apply read_voxel_plane; [lia|done]. }
  exists s'. split; [done|].
  replace (d * h * w)%nat with (voxel_index w h 0 0 (0 + d)); [done|].
  unfold voxel_index. lia.
Qed.

(** [read_voxel_buffer] returns, having made one read of [k] bytes for each
    cell, in the order of [voxel_index]. *)
Lemma read_voxel_buffer_Ok :
  exists s',
    read_voxel_buffer s0 = (Ok tt, s')
    /\ voxels_read_upto s0 w h d k (d * h * w) s'.
Proof.
  unfold read_voxel_buffer.
  erewrite bind_Ok by (apply attr_Some; exact Hw).
  erewrite bind_Ok by (apply attr_Some; exact Hh).
  erewrite bind_Ok by (apply attr_Some; exact Hd).
  destruct (np_zeros3 (Z.of_nat w) (Z.of_nat h) (Z.of_nat d)) as [a|e] eqn:Hz.
  2:{ unfold np_zeros3 in Hz.
      destruct (Z.ltb_spec (Z.of_nat w) 0); [lia|].
      destruct (Z.ltb_spec (Z.of_nat h) 0); [lia|].
      destruct (Z.ltb_spec (Z.of_nat d) 0); [lia|]. discriminate. }
  erewrite bind_Ok by reflexivity.
  erewrite bind_Ok by reflexivity.
  erewrite bind_Ok by (apply attr_Some; exact Hd).
  apply read_voxel_volume.
  exists a. split.
  - rewrite rfile_after_0. destruct s0. reflexivity.
  - intros x y z Hx Hy Hz'. cbn [Nat.ltb Nat.leb].
    apply (get3_np_zeros3 _ _ _ _ _ _ _ Hz); lia.
Qed.
End read_voxels.

(** ** The palette, read *)

Lemma element_full f k i :
  (rf_pos f + i * k + k <= length (rf_content f))%nat ->
  length (element f k i) = k.
Proof.
  intros H. unfold element. rewrite length_take, length_drop. lia.
Qed.

Lemma to_signed_range bits v :
  0 < bits -> 0 <= v < 2 ^ bits ->
  - 2 ^ (bits - 1) <= to_signed bits v < 2 ^ (bits - 1).
Proof.
  intros Hb Hv. unfold to_signed.
  assert (2 ^ bits = 2 * 2 ^ (bits - 1)) as E.
  { rewrite <- Z.pow_succ_r by lia. f_equal. lia. }
  destruct (Z.ltb_spec v (2 ^ (bits - 1))); lia.
Qed.

(** The decoding of a channel of [k <= 4] bytes never fails for the three
    channel types. *)
Lemma decode_channel_Ok ty (k : nat) bs :
  ty ∈ XRawVolumeParser.color_channel_data_types ->
  (k <= 4)%nat -> length bs = k ->
  exists f, decode_channel ty (Z.of_nat k) bs = Ok f.
Proof.
  intros Hty Hk Hl. unfold decode_channel, struct_unpack.
  assert (length (bs ++ replicate (Z.to_nat (4 - Z.of_nat k)) "000"%byte)
          = 4%nat) as Hlen.
  { rewrite length_app, length_replicate. lia. }
  pose proof (int_from_bytes_little_range
                (bs ++ replicate (Z.to_nat (4 - Z.of_nat k)) "000"%byte))
    as Hr.
  rewrite Hlen in Hr. change (256 ^ Z.of_nat 4) with (2 ^ 32) in Hr.
  rewrite Hlen.
  unfold XRawVolumeParser.color_channel_data_types in Hty.
  apply elem_of_cons in Hty as [->|Hty];
    [|apply elem_of_cons in Hty as [->|Hty];
      [|apply list_elem_of_singleton in Hty as ->]];
    cbn [calcsize Nat.eqb negb mbind outcome_bind to_float64].
  - destruct (float_of_int_exact
                (int_from_bytes_little
                   (bs ++ replicate (Z.to_nat (4 - Z.of_nat k)) "000"%byte)))
      as (f & Hf & _); [lia|]. eauto.
  - pose proof (to_signed_range 32 _ ltac:(lia) Hr) as Hs.
    change (2 ^ (32 - 1)) with (2 ^ 31) in Hs.
    destruct (float_of_int_exact
                (to_signed 32 (int_from_bytes_little
                   (bs ++ replicate (Z.to_nat (4 - Z.of_nat k)) "000"%byte))))
      as (f & Hf & _); [lia|]. eauto.
  - eauto.
Qed.

Lemma channel_index_lt n c i j :
  (i < n)%nat -> (j < c)%nat -> (channel_index c i j < n * c)%nat.
Proof.
  unfold channel_index. intros Hi Hj.
  assert ((i + 1) * c <= n * c)%nat by (apply Nat.mul_le_mono_r; lia). lia.
Qed.

Section read_palette.
Import XRawVolumeParser.
Variables (s0 : t) (ty : struct_format) (n c k : nat).
Hypothesis Hty : color_channel_data_type s0 = Some ty.
Hypothesis Hn : num_of_pallette_colors s0 = Some (Z.of_nat n).
Hypothesis Hc : num_of_color_channels s0 = Some (Z.of_nat c).
Hypothesis Hk : bytes_per_channel s0 = Some (Z.of_nat k).
Hypothesis Hty_in : ty ∈ color_channel_data_types.
Hypothesis Hk4 : (k <= 4)%nat.
Hypothesis Hlen :
  (rf_pos (file s0) + n * c * k <= length (rf_content (file s0)))%nat.

Lemma read_channel_step i j s :
  (i < n)%nat -> (j < c)%nat ->
  palette_read_upto s0 ty n c k (channel_index c i j) s ->
  exists s', read_channel i j s = (Ok tt, s')
             /\ palette_read_upto s0 ty n c k
                  (Datatypes.S (channel_index c i j)) s'.
Proof.
  intros Hi Hj (a & -> & Ha). unfold read_channel.
  erewrite bind_Ok by (apply attr_Some; exact Hk).
  erewrite bind_Ok by (apply read_eq; lia).
  cbn [file set_palette set_file]. rewrite rfile_read_after. cbn [fst snd].
  erewrite bind_Ok by (apply attr_Some; exact Hk).
  erewrite bind_Ok by (apply attr_Some; exact Hty).
  destruct (decode_channel_Ok ty k (element (file s0) k (channel_index c i j)))
    as (f & Hf); [done..| |].
  { apply element_full. pose proof (channel_index_lt n c i j Hi Hj).
    assert ((channel_index c i j + 1) * k <= n * c * k)%nat
      by (apply Nat.mul_le_mono_r; lia).
    lia. }
  unfold decode_channel in Hf.
  destruct (struct_unpack ty _) as [value|e] eqn:Hv; [|discriminate].
  cbn [mbind outcome_bind] in Hf.
  erewrite bind_Ok by reflexivity.
  erewrite bind_Ok by (unfold lift; rewrite Hf; reflexivity).
  unfold palette_setitem.
  erewrite bind_Ok by (apply attr_Some; reflexivity).
  destruct (set2_is_Some a i j f) as [a' Ha'].
  { specialize (Ha i j Hi Hj). rewrite Nat.ltb_irrefl in Ha.
    rewrite Ha. eauto. }
  rewrite Ha'. eexists. split; [reflexivity|].
  exists a'. split; [reflexivity|].
  intros i' j' Hi' Hj'.
  rewrite (get2_set2 _ _ _ _ _ _ _ Ha').
  destruct (decide ((i', j') = (i, j))) as [E|E].
  - injection E as -> ->.
    destruct (Nat.ltb_spec (channel_index c i j)
                (Datatypes.S (channel_index c i j))); [|lia].
    exists f. split; [done|]. unfold decode_channel. rewrite Hv. done.
  - assert (channel_index c i' j' <> channel_index c i j) as Hne.
    { intros Hx. apply channel_index_inj in Hx; done. }
    specialize (Ha i' j' Hi' Hj').
    destruct (Nat.ltb_spec (channel_index c i' j') (channel_index c i j));
      destruct (Nat.ltb_spec (channel_index c i' j')
                  (Datatypes.S (channel_index c i j))); try lia; done.
Qed.

Lemma read_channel_row i s :
  (i < n)%nat ->
  palette_read_upto s0 ty n c k (channel_index c i 0) s ->
  exists s',
    for_range (Z.of_nat c) (fun j => read_channel i j) s = (Ok tt, s')
    /\ palette_read_upto s0 ty n c k (channel_index c (Datatypes.S i) 0) s'.
Proof.
  intros Hi Hs. unfold for_range. rewrite Nat2Z.id.
  destruct (for_each_seq_inv
              (fun j => palette_read_upto s0 ty n c k (channel_index c i j))
              (fun j => read_channel i j) c 0%nat s Hs) as (s' & Hl & Hs').
  { intros j s1 Hj Hs1.
    replace (channel_index c i (Datatypes.S j))
      with (Datatypes.S (channel_index c i j))
      by (unfold channel_index; lia).
    apply read_channel_step; [done|lia|done]. }
  exists s'. split; [done|].
  replace (channel_index c (Datatypes.S i) 0)
    with (channel_index c i (0 + c)); [done|].
  unfold channel_index. lia.
Qed.

(** [read_palette_buffer] returns, having made one read of [k] bytes for
    each channel, colour after colour. *)
Lemma read_palette_buffer_Ok :
  exists s',
    read_palette_buffer s0 = (Ok tt, s')
    /\ palette_read_upto s0 ty n c k (n * c) s'.
Proof.
  unfold read_palette_buffer.
  erewrite bind_Ok by (apply attr_Some; exact Hn).
  erewrite bind_Ok by (apply attr_Some; exact Hc).
  destruct (np_zeros2 (Z.of_nat n) (Z.of_nat c)) as [a|e] eqn:Hz.
  2:{ unfold np_zeros2 in Hz.
      destruct (Z.ltb_spec (Z.of_nat n) 0); [lia|].
      destruct (Z.ltb_spec (Z.of_nat c) 0); [lia|]. discriminate. }
  erewrite bind_Ok by reflexivity.
  erewrite bind_Ok by reflexivity.
  erewrite bind_Ok by (apply attr_Some; exact Hn).
  unfold for_range at 1. rewrite Nat2Z.id.
  destruct (for_each_seq_inv
              (fun i => palette_read_upto s0 ty n c k (channel_index c i 0))
              (fun i => c' <- attr num_of_color_channels ;;
                        for_range c' (fun j => read_channel i j))
              n 0%nat (set_palette (Some a) s0)) as (s' & Hl & Hs').
  { exists a. split.
    - rewrite rfile_after_0. destruct s0. reflexivity.
    - intros i j Hi Hj. cbn [channel_index Nat.ltb Nat.leb Nat.mul Nat.add].
      apply (get2_np_zeros2 _ _ _ _ _ Hz); lia. }
  { intros i s1 Hi Hs1.
    assert (attr num_of_color_channels s1 = (Ok (Z.of_nat c), s1)) as Ha.
    { destruct Hs1 as (a1 & -> & _). apply attr_Some. exact Hc. }
    rewrite (bind_Ok _ _ _ _ _ Ha). apply read_channel_row; [lia|done]. }
  exists s'. split; [done|].
  replace (n * c)%nat with (channel_index c (0 + n) 0); [done|].
  unfold channel_index. lia.
Qed.
End read_palette.

(** ** The bytes after the palette *)

Section remaining.
Import XRawVolumeParser.

Lemma read_remaining_loop_Ok : forall bound s r byte,
  remaining_bytes s = Some r ->
  (byte = [] -> drop (rf_pos (file s)) (rf_content (file s)) = []) ->
  (length byte + length (drop (rf_pos (file s)) (rf_content (file s)))
   <= bound)%nat ->
  exists f',
    read_remaining_loop bound byte s
    = (Ok tt,
       set_remaining_bytes
         (Some (r ++ byte ++ drop (rf_pos (file s)) (rf_content (file s))))
         (set_file f' s))
    /\ rf_content f' = rf_content (file s).
Proof.
  induction bound as [|bound IH]; intros s r byte Hr Hnil Hlen.
  - destruct byte as [|b byte]; [|simpl in Hlen; lia].
    rewrite Hnil by done. exists (file s). split; [|done].
    destruct s. simpl in *. subst. by rewrite app_nil_r.
  - destruct byte as [|b byte].
    + rewrite Hnil by done. exists (file s). split; [|done].
      destruct s. simpl in *. subst. by rewrite app_nil_r.
    + cbn [read_remaining_loop].
      erewrite bind_Ok by (apply attr_Some; exact Hr).
      erewrite bind_Ok by reflexivity.
      erewrite bind_Ok by (apply read_eq; lia).
      rewrite rfile_read_nonneg by lia. cbn [fst snd file set_file
        set_remaining_bytes]. change (Z.to_nat 1) with 1%nat.
      set (rest := drop (rf_pos (file s)) (rf_content (file s))) in *.
      edestruct (IH (set_file
                       (mk_rfile (rf_content (file s))
                          (rf_pos (file s) + length (take 1 rest))
                          (rf_reads (file s) ++ [1]))
                       (set_remaining_bytes (Some (r ++ b :: byte)) s))
                   (r ++ b :: byte) (take 1 rest))
        as (f' & Hloop & Hf').
      * reflexivity.
      * cbn [file set_file rf_pos rf_content]. intros Ht.
        destruct rest as [|x rest'] eqn:Hrest; [|discriminate].
        unfold rest in Hrest. simpl. rewrite Nat.add_0_r. exact Hrest.
      * cbn [file set_file rf_pos rf_content].
        rewrite <- drop_drop. fold rest.
        rewrite length_take, length_drop. simpl in Hlen. lia.
      * exists f'. split; [|exact Hf'].
        cbn [file set_file rf_pos rf_content] in Hloop.
        rewrite Hloop. f_equal. unfold set_remaining_bytes, set_file.
        cbn. f_equal. f_equal.
        rewrite <- drop_drop. fold rest.
        rewrite <- !app_assoc. f_equal. simpl. f_equal.
        destruct rest as [|x rest']; [reflexivity|]. simpl.
        by rewrite drop_0.
Qed.

(** [read_remaining_bytes] returns, keeping the bytes from the position on,
    whatever the file holds. *)
Lemma read_remaining_bytes_Ok s :
  exists f',
    read_remaining_bytes s
    = (Ok tt,
       set_remaining_bytes
         (Some (drop (rf_pos (file s)) (rf_content (file s))))
         (set_file f' s))
    /\ rf_content f' = rf_content (file s).
Proof.
  unfold read_remaining_bytes.
  erewrite bind_Ok by reflexivity.
  erewrite bind_Ok by (apply read_eq; lia).
  erewrite bind_Ok by reflexivity.
  rewrite rfile_read_nonneg by lia. cbn [fst snd file set_file
    set_remaining_bytes rf_content]. change (Z.to_nat 1) with 1%nat.
  set (rest := drop (rf_pos (file s)) (rf_content (file s))) in *.
  edestruct (read_remaining_loop_Ok (length (rf_content (file s)))
               (set_file
                  (mk_rfile (rf_content (file s))
                     (rf_pos (file s) + length (take 1 rest))
                     (rf_reads (file s) ++ [1]))
                  (set_remaining_bytes (Some []) s))
               [] (take 1 rest)) as (f' & Hloop & Hf').
  - reflexivity.
  - cbn [file set_file rf_pos rf_content]. intros Ht.
    destruct rest as [|x rest'] eqn:Hrest; [|discriminate].
    unfold rest in Hrest. simpl. rewrite Nat.add_0_r. exact Hrest.
  - cbn [file set_file rf_pos rf_content].
    rewrite <- drop_drop. fold rest.
    rewrite length_take, length_drop. unfold rest. rewrite length_drop. lia.
  - exists f'. split; [|exact Hf'].
    cbn [file set_file rf_pos rf_content] in Hloop.
    rewrite Hloop. f_equal. unfold set_remaining_bytes, set_file.
    cbn. f_equal. f_equal.
    rewrite <- drop_drop. fold rest.
    destruct rest as [|x rest']; [reflexivity|]. simpl.
    by rewrite drop_0.
Qed.
End remaining.

(** ** The header, read *)

Section read_header.
Import XRawVolumeParser.

(** The state kept as one record, field by field, after each step. *)
Ltac hstate :=
  cbn [file data color_channel_data_type num_of_color_channels
       bytes_per_channel bytes_per_index width height depth
       num_of_pallette_colors voxels palette remaining_bytes
       set_file set_color_channel_data_type set_num_of_color_channels
       set_bytes_per_channel set_bytes_per_index set_width set_height
       set_depth set_num_of_pallette_colors rf_content rf_pos rf_reads].

Lemma read_byte_to_int_Ok s :
  (rf_pos (file s) + 1 <= length (rf_content (file s)))%nat ->
  read_byte_to_int s
  = (Ok (i8_at (rf_content (file s)) (rf_pos (file s))),
     set_file (mk_rfile (rf_content (file s)) (rf_pos (file s) + 1)
                 (rf_reads (file s) ++ [1])) s).
Proof.
  intros Hl. unfold read_byte_to_int.
  erewrite bind_Ok by (apply read_eq; lia).
  rewrite rfile_read_nonneg by lia. cbn [fst snd].
  change (Z.to_nat 1) with 1%nat.
  assert (length (take 1 (drop (rf_pos (file s)) (rf_content (file s))))
          = 1%nat) as Hlen by (rewrite length_take, length_drop; lia).
  unfold lift, bind, struct_unpack. rewrite Hlen. reflexivity.
Qed.

Lemma read_unsigned_int_Ok s :
  (rf_pos (file s) + 4 <= length (rf_content (file s)))%nat ->
  read_unsigned_int s
  = (Ok (u32_at (rf_content (file s)) (rf_pos (file s))),
     set_file (mk_rfile (rf_content (file s)) (rf_pos (file s) + 4)
                 (rf_reads (file s) ++ [4])) s).
Proof.
  intros Hl. unfold read_unsigned_int.
  erewrite bind_Ok by (apply read_eq; lia).
  rewrite rfile_read_nonneg by lia. cbn [fst snd].
  change (Z.to_nat 4) with 4%nat.
  assert (length (take 4 (drop (rf_pos (file s)) (rf_content (file s))))
          = 4%nat) as Hlen by (rewrite length_take, length_drop; lia).
  unfold lift, bind, struct_unpack. rewrite Hlen. reflexivity.
Qed.

Lemma read_header_Ok s ty :
  take 4 (drop (rf_pos (file s)) (rf_content (file s))) = XRAW_bytes ->
  (rf_pos (file s) + 24 <= length (rf_content (file s)))%nat ->
  py_list_get color_channel_data_types
    (i8_at (rf_content (file s)) (rf_pos (file s) + 4)) = Ok ty ->
  read_header s = (Ok tt, header_read s ty).
Proof.
  intros Hmagic Hlen Hty. unfold read_header.
  erewrite bind_Ok.
  2:{ rewrite raise_error_if_file_not_valid_eq.
      rewrite rfile_read_nonneg by lia. cbn [fst snd].
      change (Z.to_nat 4) with 4%nat. rewrite Hmagic.
      change (length XRAW_bytes) with 4%nat. reflexivity. }
  erewrite bind_Ok by (apply read_byte_to_int_Ok; hstate; lia). hstate.
  erewrite bind_Ok by (unfold lift; rewrite Hty; reflexivity).
  erewrite bind_Ok by reflexivity. hstate.
  erewrite bind_Ok by (apply read_byte_to_int_Ok; hstate; lia). hstate.
  erewrite bind_Ok by reflexivity. hstate.
  erewrite bind_Ok by (apply read_byte_to_int_Ok; hstate; lia). hstate.
  erewrite bind_Ok by reflexivity. hstate.
  erewrite bind_Ok by (apply read_byte_to_int_Ok; hstate; lia). hstate.
  erewrite bind_Ok by reflexivity. hstate.
  erewrite bind_Ok by (apply read_unsigned_int_Ok; hstate; lia). hstate.
  erewrite bind_Ok by reflexivity. hstate.
  erewrite bind_Ok by (apply read_unsigned_int_Ok; hstate; lia). hstate.
  erewrite bind_Ok by reflexivity. hstate.
  erewrite bind_Ok by (apply read_unsigned_int_Ok; hstate; lia). hstate.
  erewrite bind_Ok by reflexivity. hstate.
  erewrite bind_Ok by (apply read_unsigned_int_Ok; hstate; lia). hstate.
  unfold modify, header_read. hstate.
  repeat rewrite <- Nat.add_assoc. cbn [Nat.add].
  repeat rewrite <- app_assoc. reflexivity.
Qed.
End read_header.

(** *** The reads of the header are made in one order, whatever the file *)

Section header_order.
Import XRawVolumeParser.

Lemma bind_inv {S A B} (m : pym S A) (k : A -> pym S B) s r s' :
  bind m k s = (r, s') ->
  (exists a s1, m s = (Ok a, s1) /\ k a s1 = (r, s'))
  \/ (exists e, m s = (Raise e, s') /\ r = Raise e).
Proof.
  unfold bind. destruct (m s) as [[a|e] s1]; intros H.
  - left. eauto.
  - right. injection H as <- <-. eauto.
Qed.

Lemma rfile_read_reads n f :
  rf_reads (snd (rfile_read n f)) = rf_reads f ++ [n].
Proof. reflexivity. Qed.

Lemma raise_error_if_file_not_valid_reads s r s' :
  raise_error_if_file_not_valid s = (r, s') ->
  s' = set_file (snd (rfile_read 4 (file s))) s.
Proof.
  rewrite raise_error_if_file_not_valid_eq. intros H. by injection H as _ <-.
Qed.

Lemma read_byte_to_int_reads s r s' :
  read_byte_to_int s = (r, s') ->
  s' = set_file (snd (rfile_read 1 (file s))) s.
Proof.
  unfold read_byte_to_int. rewrite (bind_Ok _ _ _ _ _ (read_eq 1 s ltac:(lia))).
  unfold bind, lift. destruct (struct_unpack _ _) as [v|e].
  - intros H. by injection H as _ <-.
  - intros H. by injection H as _ <-.
Qed.

Lemma read_unsigned_int_reads s r s' :
  read_unsigned_int s = (r, s') ->
  s' = set_file (snd (rfile_read 4 (file s))) s.
Proof.
  unfold read_unsigned_int. rewrite (bind_Ok _ _ _ _ _ (read_eq 4 s ltac:(lia))).
  unfold bind, lift. destruct (struct_unpack _ _) as [v|e].
  - intros H. by injection H as _ <-.
  - intros H. by injection H as _ <-.
Qed.

Lemma lift_state {A} (o : outcome A) (s : t) r s' :
  lift o s = (r, s') -> s' = s.
Proof. unfold lift. intros H. by injection H. Qed.

(** Whatever the file holds, and whether [read_header] returns or raises,
    the reads it has made are the first ones of [header_reads], in order. *)
Lemma read_header_reads s r s' :
  read_header s = (r, s') ->
  exists n, (1 <= n)%nat
            /\ rf_reads (file s') = rf_reads (file s) ++ take n header_reads.
Proof.
  unfold read_header. intros H.
  apply bind_inv in H as [(? & s1 & H1 & H)|(? & H1 & ->)];
    apply raise_error_if_file_not_valid_reads in H1 as ->;
    [|exists 1%nat; split; [lia|reflexivity]].
  apply bind_inv in H as [(? & s1 & H1 & H)|(? & H1 & ->)];
    apply read_byte_to_int_reads in H1 as ->;
    [|exists 2%nat; split; [lia|]; cbn; by rewrite <- !app_assoc].
  apply bind_inv in H as [(? & s1 & H1 & H)|(? & H1 & ->)];
    apply lift_state in H1 as ->;
    [|exists 2%nat; split; [lia|]; cbn; by rewrite <- !app_assoc].
  apply bind_inv in H as [(? & s1 & H1 & H)|(? & H1 & ->)];
    [injection H1 as _ <-|discriminate].
  apply bind_inv in H as [(? & s1 & H1 & H)|(? & H1 & ->)];
    apply read_byte_to_int_reads in H1 as ->;
    [|exists 3%nat; split; [lia|]; cbn; by rewrite <- !app_assoc].
  apply bind_inv in H as [(? & s1 & H1 & H)|(? & H1 & ->)];
    [injection H1 as _ <-|discriminate].
  apply bind_inv in H as [(? & s1 & H1 & H)|(? & H1 & ->)];
    apply read_byte_to_int_reads in H1 as ->;
    [|exists 4%nat; split; [lia|]; cbn; by rewrite <- !app_assoc].
  apply bind_inv in H as [(? & s1 & H1 & H)|(? & H1 & ->)];
    [injection H1 as _ <-|discriminate].
  apply bind_inv in H as [(? & s1 & H1 & H)|(? & H1 & ->)];
    apply read_byte_to_int_reads in H1 as ->;
    [|exists 5%nat; split; [lia|]; cbn; by rewrite <- !app_assoc].
  apply bind_inv in H as [(? & s1 & H1 & H)|(? & H1 & ->)];
    [injection H1 as _ <-|discriminate].
  apply bind_inv in H as [(? & s1 & H1 & H)|(? & H1 & ->)];
    apply read_unsigned_int_reads in H1 as ->;
    [|exists 6%nat; split; [lia|]; cbn; by rewrite <- !app_assoc].
  apply bind_inv in H as [(? & s1 & H1 & H)|(? & H1 & ->)];
    [injection H1 as _ <-|discriminate].
  apply bind_inv in H as [(? & s1 & H1 & H)|(? & H1 & ->)];
    apply read_unsigned_int_reads in H1 as ->;
    [|exists 7%nat; split; [lia|]; cbn; by rewrite <- !app_assoc].
  apply bind_inv in H as [(? & s1 & H1 & H)|(? & H1 & ->)];
    [injection H1 as _ <-|discriminate].
  apply bind_inv in H as [(? & s1 & H1 & H)|(? & H1 & ->)];
    apply read_unsigned_int_reads in H1 as ->;
    [|exists 8%nat; split; [lia|]; cbn; by rewrite <- !app_assoc].
  apply bind_inv in H as [(? & s1 & H1 & H)|(? & H1 & ->)];
    [injection H1 as _ <-|discriminate].
  apply bind_inv in H as [(? & s1 & H1 & H)|(? & H1 & ->)];
    apply read_unsigned_int_reads in H1 as ->;
    [|exists 9%nat; split; [lia|]; cbn; by rewrite <- !app_assoc].
  injection H as _ <-.
  exists 9%nat; split; [lia|]; cbn; by rewrite <- !app_assoc.
Qed.
End header_order.

(** ** Writing bytes *)

Lemma byte_of_int_Ok v :
  0 <= v < 256 -> exists b, byte_of_int v = Ok b /\ byte_val b = v.
Proof.
  intros Hv. unfold byte_of_int.
  destruct (Z.leb_spec 0 v); [|lia]. destruct (Z.ltb_spec v 256); [|lia].
  cbn [andb].
  pose proof (Byte.to_of_N_option_map (Z.to_N v)) as Hb.
  destruct (N.leb_spec (Z.to_N v) 255); [|lia].
  destruct (Byte.of_N (Z.to_N v)) as [b|]; [|discriminate].
  injection Hb as Hb. exists b. split; [done|]. unfold byte_val. lia.
Qed.

Lemma byte_of_int_Raise v :
  ~ (0 <= v < 256) ->
  byte_of_int v = Raise (ValueError "bytes must be in range(0, 256)").
Proof.
  intros Hv. unfold byte_of_int.
  destruct (Z.leb_spec 0 v); [|reflexivity].
  destruct (Z.ltb_spec v 256); [lia|reflexivity].
Qed.

Section write_bytes.
Import XRawVolumeWriter.

Lemma write_bytes_Ok obj fs0 path out arg bs :
  py_bytes arg = Ok bs ->
  write_bytes arg (writing obj fs0 path out)
  = (Ok tt, writing obj fs0 path (out ++ bs)).
Proof.
  intros Hb. unfold write_bytes, writing.
  erewrite bind_Ok by reflexivity. cbn [self file set_file].
  erewrite bind_Ok by (unfold lift; rewrite Hb; reflexivity).
  unfold file_write, modify. cbn [wf_closed wf_path self fs].
  rewrite lookup_insert_eq, insert_insert_eq. reflexivity.
Qed.

Lemma write_bytes_Raise obj fs0 path out arg e :
  py_bytes arg = Raise e ->
  write_bytes arg (writing obj fs0 path out)
  = (Raise e, writing obj fs0 path out).
Proof.
  intros Hb. unfold write_bytes, writing.
  erewrite bind_Ok by reflexivity. cbn [self file set_file].
  erewrite bind_Raise; [reflexivity|]. unfold lift. by rewrite Hb.
Qed.

Lemma write_elem_Ok obj fs0 path out v :
  0 <= v < 256 ->
  exists b,
    byte_val b = v
    /\ write_bytes (OfList [ElemInt v]) (writing obj fs0 path out)
       = (Ok tt, writing obj fs0 path (out ++ [b])).
Proof.
  intros Hv. destruct (byte_of_int_Ok v Hv) as (b & Hb & Hbv).
  exists b. split; [done|]. apply write_bytes_Ok.
  cbn [py_bytes bytes_of_list byte_of_elem]. rewrite Hb. reflexivity.
Qed.
End write_bytes.

(** ** The voxel buffer, written *)

Section write_voxels.
Import XRawVolumeWriter.
Variables (obj : t) (fs0 : filesystem) (path : string) (acc : list byte).
Variables (w h d : nat).
Hypothesis Hw : width obj = Z.of_nat w.
Hypothesis Hh : height obj = Z.of_nat h.
Hypothesis Hd : depth obj = Z.of_nat d.
Hypothesis Hcells : byte_cells3 (voxels obj) w h d.

Lemma write_voxel_eq x y z out cell :
  nd_get3 (nd_data (voxels obj)) x y z = Ok cell ->
  write_voxel x y z (writing obj fs0 path out)
  = write_bytes (OfList [elem_of_cell (nd_dtype (voxels obj)) cell])
      (writing obj fs0 path out).
Proof.
  unfold nd_get3, write_voxel. intros H.
  erewrite bind_Ok by reflexivity. cbn [self writing set_file voxels].
  destruct (nd_getitem (nd_data (voxels obj)) x) as [ax|e]; [|discriminate].
  cbn [mbind outcome_bind] in H.
  erewrite bind_Ok by reflexivity.
  destruct (nd_getitem ax y) as [axy|e]; [|discriminate].
  cbn [mbind outcome_bind] in H.
  erewrite bind_Ok by reflexivity.
  erewrite bind_Ok by (unfold lift; rewrite H; reflexivity).
  reflexivity.
Qed.

Lemma write_voxel_step x y z wld :
  (x < w)%nat -> (y < h)%nat -> (z < d)%nat ->
  voxels_written_upto obj fs0 path acc w h d (voxel_index w h x y z) wld ->
  exists wld',
    write_voxel x y z wld = (Ok tt, wld')
    /\ voxels_written_upto obj fs0 path acc w h d
         (Datatypes.S (voxel_index w h x y z)) wld'.
Proof.
  intros Hx Hy Hz (out & -> & Hlen & Hout).
  destruct (Hcells x y z Hx Hy Hz) as (cell & v & Hcell & Hel & Hv).
  rewrite (write_voxel_eq _ _ _ _ _ Hcell), Hel.
  destruct (write_elem_Ok obj fs0 path (acc ++ out) v Hv) as (b & Hb & ->).
  eexists. split; [reflexivity|].
  exists (out ++ [b]). split; [by rewrite app_assoc|].
  split; [rewrite length_app; simpl; lia|].
  intros x' y' z' Hx' Hy' Hz' Hlt.
  destruct (decide (voxel_index w h x' y' z' = voxel_index w h x y z))
    as [E|E].
  - rewrite E. apply voxel_index_inj in E; [|done..]. injection E as -> -> ->.
    exists b, cell. split; [|split; [done|by rewrite Hb]].
    rewrite lookup_app_r by lia. rewrite Hlen, Nat.sub_diag. reflexivity.
  - destruct (Hout x' y' z' Hx' Hy' Hz') as (b' & cell' & Hb' & Hc'); [lia|].
    exists b', cell'. split; [|done]. by apply lookup_app_l_Some.
Qed.

Lemma write_voxels_Ok :
  exists wld',
    write_voxels (writing obj fs0 path acc) = (Ok tt, wld')
    /\ voxels_written_upto obj fs0 path acc w h d (d * h * w) wld'.
Proof.
  unfold write_voxels.
  erewrite bind_Ok by reflexivity. cbn [self writing set_file depth].
  rewrite Hd. unfold for_range at 1. rewrite Nat2Z.id.
  destruct (for_each_seq_inv
              (fun z => voxels_written_upto obj fs0 path acc w h d
                          (voxel_index w h 0 0 z))
              (fun z => h' <- attr height ;;
                        for_range h'
                          (fun y => w' <- attr width ;;
                             for_range w' (fun x => write_voxel x y z)))
              d 0%nat (writing obj fs0 path acc)) as (wld' & Hl & Hwld').
  { exists []. split; [by rewrite app_nil_r|]. split; [done|].
    intros x y z _ _ _ Hlt. unfold voxel_index in Hlt. simpl in Hlt. lia. }
  { intros z wld Hz Hwld.
    assert (attr height wld = (Ok (Z.of_nat h), wld)) as Ha.
    { destruct Hwld as (out & -> & _). unfold attr, gets. cbn. by rewrite Hh. }
    rewrite (bind_Ok _ _ _ _ _ Ha).
    unfold for_range at 1. rewrite Nat2Z.id.
    destruct (for_each_seq_inv
                (fun y => voxels_written_upto obj fs0 path acc w h d
                            (voxel_index w h 0 y z))
                (fun y => w' <- attr width ;;
                          for_range w' (fun x => write_voxel x y z))
                h 0%nat wld Hwld) as (wld1 & Hl1 & Hwld1).
    { intros y wld2 Hy Hwld2.
      assert (attr width wld2 = (Ok (Z.of_nat w), wld2)) as Ha2.
      { destruct Hwld2 as (out & -> & _). unfold attr, gets. cbn.
        by rewrite Hw. }
      rewrite (bind_Ok _ _ _ _ _ Ha2).
      unfold for_range. rewrite Nat2Z.id.
      destruct (for_each_seq_inv
                  (fun x => voxels_written_upto obj fs0 path acc w h d
                              (voxel_index w h x y z))
                  (fun x => write_voxel x y z)
                  w 0%nat wld2 Hwld2) as (wld3 & Hl3 & Hwld3).
      { intros x wld4 Hx Hwld4.
        replace (voxel_index w h (Datatypes.S x) y z)
          with (Datatypes.S (voxel_index w h x y z))
          by (unfold voxel_index; lia).
        apply write_voxel_step; [lia..|done]. }
      exists wld3. split; [done|].
      replace (voxel_index w h 0 (Datatypes.S y) z)
        with (voxel_index w h (0 + w) y z); [done|].
      unfold voxel_index. lia. }
    exists wld1. split; [done|].
    replace (voxel_index w h 0 0 (Datatypes.S z))
      with (voxel_index w h 0 (0 + h) z); [done|].
    unfold voxel_index. lia. }
  exists wld'. split; [done|].
  replace (d * h * w)%nat with (voxel_index w h 0 0 (0 + d)); [done|].
  unfold voxel_index. lia.
Qed.
End write_voxels.

(** ** The palette, written *)

Section write_palette.
Import XRawVolumeWriter.
Variables (obj : t) (fs0 : filesystem) (path : string) (acc : list byte).
Variables (n c : nat).
Hypothesis Hn : num_of_pallette_colors obj = Z.of_nat n.
Hypothesis Hc : num_of_color_channels obj = Z.of_nat c.
Hypothesis Hcells : byte_cells2 (palette obj) n c.

Lemma write_channel_eq i j out cell :
  nd_get2 (nd_data (palette obj)) i j = Ok cell ->
  write_channel i j (writing obj fs0 path out)
  = write_bytes (OfList [elem_of_cell (nd_dtype (palette obj)) cell])
      (writing obj fs0 path out).
Proof.
  unfold nd_get2, write_channel. intros H.
  erewrite bind_Ok by reflexivity. cbn [self writing set_file palette].
  destruct (nd_getitem (nd_data (palette obj)) i) as [ai|e]; [|discriminate].
  cbn [mbind outcome_bind] in H.
  erewrite bind_Ok by reflexivity.
  erewrite bind_Ok by (unfold lift; rewrite H; reflexivity).
  reflexivity.
Qed.

Lemma write_channel_step i j wld :
  (i < n)%nat -> (j < c)%nat ->
  palette_written_upto obj fs0 path acc n c (channel_index c i j) wld ->
  exists wld',
    write_channel i j wld = (Ok tt, wld')
    /\ palette_written_upto obj fs0 path acc n c
         (Datatypes.S (channel_index c i j)) wld'.
Proof.
  intros Hi Hj (out & -> & Hlen & Hout).
  destruct (Hcells i j Hi Hj) as (cell & v & Hcell & Hel & Hv).
  rewrite (write_channel_eq _ _ _ _ Hcell), Hel.
  destruct (write_elem_Ok obj fs0 path (acc ++ out) v Hv) as (b & Hb & ->).
  eexists. split; [reflexivity|].
  exists (out ++ [b]). split; [by rewrite app_assoc|].
  split; [rewrite length_app; simpl; lia|].
  intros i' j' Hi' Hj' Hlt.
  destruct (decide (channel_index c i' j' = channel_index c i j)) as [E|E].
  - rewrite E. apply channel_index_inj in E; [|done..]. injection E as -> ->.
    exists b, cell. split; [|split; [done|by rewrite Hb]].
    rewrite lookup_app_r by lia. rewrite Hlen, Nat.sub_diag. reflexivity.
  - destruct (Hout i' j' Hi' Hj') as (b' & cell' & Hb' & Hc'); [lia|].
    exists b', cell'. split; [|done]. by apply lookup_app_l_Some.
Qed.

Lemma write_palette_Ok :
  exists wld',
    write_palette (writing obj fs0 path acc) = (Ok tt, wld')
    /\ palette_written_upto obj fs0 path acc n c (n * c) wld'.
Proof.
  unfold write_palette.
  erewrite bind_Ok by reflexivity.
  cbn [self writing set_file num_of_pallette_colors].
  rewrite Hn. unfold for_range at 1. rewrite Nat2Z.id.
  destruct (for_each_seq_inv
              (fun i => palette_written_upto obj fs0 path acc n c
                          (channel_index c i 0))
              (fun i => c' <- attr num_of_color_channels ;;
                        for_range c' (fun j => write_channel i j))
              n 0%nat (writing obj fs0 path acc)) as (wld' & Hl & Hwld').
  { exists []. split; [by rewrite app_nil_r|]. split; [done|].
    intros i j _ _ Hlt. unfold channel_index in Hlt. simpl in Hlt. lia. }
  { intros i wld Hi Hwld.
    assert (attr num_of_color_channels wld = (Ok (Z.of_nat c), wld)) as Ha.
    { destruct Hwld as (out & -> & _). unfold attr, gets. cbn. by rewrite Hc. }
    rewrite (bind_Ok _ _ _ _ _ Ha).
    unfold for_range. rewrite Nat2Z.id.
    destruct (for_each_seq_inv
                (fun j => palette_written_upto obj fs0 path acc n c
                            (channel_index c i j))
                (fun j => write_channel i j)
                c 0%nat wld Hwld) as (wld1 & Hl1 & Hwld1).
    { intros j wld2 Hj Hwld2.
      replace (channel_index c i (Datatypes.S j))
        with (Datatypes.S (channel_index c i j))
        by (unfold channel_index; lia).
      apply write_channel_step; [lia..|done]. }
    exists wld1. split; [done|].
    replace (channel_index c (Datatypes.S i) 0)
      with (channel_index c i (0 + c)); [done|].
    unfold channel_index. lia. }
  exists wld'. split; [done|].
  replace (n * c)%nat with (channel_index c (0 + n) 0); [done|].
  unfold channel_index. lia.
Qed.
End write_palette.

(** ** The header, written *)

Lemma byte_of_N_Some z :
  0 <= z < 256 -> exists b, Byte.of_N (Z.to_N z) = Some b /\ byte_val b = z.
Proof.
  intros Hz. pose proof (Byte.to_of_N_option_map (Z.to_N z)) as Hb.
  destruct (N.leb_spec (Z.to_N z) 255); [|lia].
  destruct (Byte.of_N (Z.to_N z)) as [b|]; [|discriminate].
  injection Hb as Hb. exists b. split; [done|]. unfold byte_val. lia.
Qed.

Lemma int_to_bytes4_Ok v :
  0 <= v < 2 ^ 32 ->
  exists bs, int_to_bytes4 v = Ok bs /\ map byte_val bs = le_bytes 4 v.
Proof.
  intros Hv. unfold int_to_bytes4.
  destruct (Z.ltb_spec v 0); [lia|]. destruct (Z.leb_spec (2 ^ 32) v); [lia|].
  cbn [le_bytes mapM].
  destruct (byte_of_N_Some (v mod 256)) as (b0 & -> & Hb0);
    [apply Z.mod_pos_bound; lia|].
  destruct (byte_of_N_Some ((v / 256) mod 256)) as (b1 & -> & Hb1);
    [apply Z.mod_pos_bound; lia|].
  destruct (byte_of_N_Some ((v / 256 / 256) mod 256)) as (b2 & -> & Hb2);
    [apply Z.mod_pos_bound; lia|].
  destruct (byte_of_N_Some ((v / 256 / 256 / 256) mod 256)) as (b3 & -> & Hb3);
    [apply Z.mod_pos_bound; lia|].
  cbn. eexists. split; [reflexivity|]. cbn. congruence.
Qed.

Lemma int_to_bytes4_Raise v :
  ~ (0 <= v < 2 ^ 32) -> int_to_bytes4 v = Raise OverflowError.
Proof.
  intros Hv. unfold int_to_bytes4.
  destruct (Z.ltb_spec v 0); [reflexivity|].
  destruct (Z.leb_spec (2 ^ 32) v); [reflexivity|lia].
Qed.

Lemma utf8_encode_XRAW : utf8_encode XRAW = Some XRAW_bytes.
Proof. reflexivity. Qed.

Section write_header.
Import XRawVolumeWriter.
Variables (obj : t) (fs0 : filesystem) (path : string).
Hypothesis Hfmt : format_string obj = XRAW.
Hypothesis Hty : color_channel_data_type obj = fmt_I.
Hypothesis Hbpc : bytes_per_channel obj = 1.
Hypothesis Hbpi : bytes_per_index obj = 1.

Ltac wsimpl :=
  cbn [self fs writing set_file file format_string color_channel_data_type
       bytes_per_channel bytes_per_index width height depth
       num_of_pallette_colors num_of_color_channels voxels palette].

Lemma write_unsigned_int_Ok v out :
  0 <= v < 2 ^ 32 ->
  exists bs,
    map byte_val bs = le_bytes 4 v
    /\ write_unsigned_int v (writing obj fs0 path out)
       = (Ok tt, writing obj fs0 path (out ++ bs)).
Proof.
  intros Hv. destruct (int_to_bytes4_Ok v Hv) as (bs & Hbs & Hval).
  exists bs. split; [done|]. unfold write_unsigned_int.
  erewrite bind_Ok by reflexivity. cbn [self writing set_file file].
  erewrite bind_Ok by (unfold lift; rewrite Hbs; reflexivity).
  by apply write_bytes_Ok.
Qed.

Lemma write_header_Ok out :
  0 <= num_of_color_channels obj < 256 ->
  0 <= width obj < 2 ^ 32 -> 0 <= height obj < 2 ^ 32 ->
  0 <= depth obj < 2 ^ 32 -> 0 <= num_of_pallette_colors obj < 2 ^ 32 ->
  exists hdr,
    write_header (writing obj fs0 path out)
    = (Ok tt, writing obj fs0 path (out ++ hdr))
    /\ map byte_val hdr
       = header_layout 0 (num_of_color_channels obj) 8 8 (width obj)
           (height obj) (depth obj) (num_of_pallette_colors obj).
Proof.
  intros Hc Hw Hh Hd Hn. unfold write_header.
  erewrite bind_Ok by reflexivity. wsimpl.
  erewrite bind_Ok by reflexivity. wsimpl.
  rewrite Hfmt, utf8_encode_XRAW.
  erewrite bind_Ok by (by apply write_bytes_Ok).
  erewrite bind_Ok.
  2:{ unfold get_color_channel_data_type_index.
      erewrite bind_Ok by reflexivity. wsimpl. rewrite Hty. reflexivity. }
  destruct (write_elem_Ok obj fs0 path (out ++ XRAW_bytes) 0)
    as (b0 & Hb0 & E0); [lia|].
  erewrite bind_Ok by exact E0.
  erewrite bind_Ok by reflexivity. wsimpl.
  destruct (write_elem_Ok obj fs0 path ((out ++ XRAW_bytes) ++ [b0])
              (num_of_color_channels obj)) as (b1 & Hb1 & E1); [lia|].
  erewrite bind_Ok by exact E1.
  erewrite bind_Ok by reflexivity. wsimpl. rewrite Hbpc.
  destruct (write_elem_Ok obj fs0 path
              (((out ++ XRAW_bytes) ++ [b0]) ++ [b1]) (1 * 8))
    as (b2 & Hb2 & E2); [lia|].
  erewrite bind_Ok by exact E2.
  erewrite bind_Ok by reflexivity. wsimpl. rewrite Hbpi.
  destruct (write_elem_Ok obj fs0 path
              ((((out ++ XRAW_bytes) ++ [b0]) ++ [b1]) ++ [b2]) (1 * 8))
    as (b3 & Hb3 & E3); [lia|].
  erewrite bind_Ok by exact E3.
  erewrite bind_Ok by reflexivity. wsimpl.
  destruct (write_unsigned_int_Ok (width obj)
              (((((out ++ XRAW_bytes) ++ [b0]) ++ [b1]) ++ [b2]) ++ [b3]) Hw)
    as (bw & Hbw & Ew).
  erewrite bind_Ok by exact Ew.
  erewrite bind_Ok by reflexivity. wsimpl.
  destruct (write_unsigned_int_Ok (height obj)
              ((((((out ++ XRAW_bytes) ++ [b0]) ++ [b1]) ++ [b2]) ++ [b3])
               ++ bw) Hh) as (bh & Hbh & Eh).
  erewrite bind_Ok by exact Eh.
  erewrite bind_Ok by reflexivity. wsimpl.
  destruct (write_unsigned_int_Ok (depth obj)
              (((((((out ++ XRAW_bytes) ++ [b0]) ++ [b1]) ++ [b2]) ++ [b3])
                ++ bw) ++ bh) Hd) as (bd & Hbd & Ed).
  erewrite bind_Ok by exact Ed.
  erewrite bind_Ok by reflexivity. wsimpl.
  destruct (write_unsigned_int_Ok (num_of_pallette_colors obj)
              ((((((((out ++ XRAW_bytes) ++ [b0]) ++ [b1]) ++ [b2]) ++ [b3])
                 ++ bw) ++ bh) ++ bd) Hn) as (bn & Hbn & En).
  rewrite En.
  exists (XRAW_bytes ++ [b0; b1; b2; b3] ++ bw ++ bh ++ bd ++ bn).
  split.
  - f_equal. f_equal. rewrite <- !app_assoc. reflexivity.
  - unfold header_layout. rewrite !map_app, Hbw, Hbh, Hbd, Hbn.
    cbn [map]. rewrite Hb0, Hb1, Hb2, Hb3. reflexivity.
Qed.
End write_header.

(** ** A whole pass of [parse] *)

Lemma py_list_get_elem_of {A} (l : list A) i a :
  py_list_get l i = Ok a -> a ∈ l.
Proof.
  unfold py_list_get. destruct (_ && _); [|discriminate].
  destruct (l !! _) as [x|] eqn:E; [|discriminate].
  intros H; injection H as <-. by eapply list_elem_of_lookup_2.
Qed.

Section parse_pass.
Import XRawVolumeParser.
Variables (s : t) (ty : struct_format) (w h d n c kc ki : nat).
Let content := rf_content (file s).
Let p := rf_pos (file s).
Hypothesis Hdata : truthy (data s) = false.
Hypothesis Hmagic : take 4 (drop p content) = XRAW_bytes.
Hypothesis Hlen : (p + 24 <= length content)%nat.
Hypothesis Hty : py_list_get color_channel_data_types (i8_at content (p + 4))
                 = Ok ty.
Hypothesis Hc : i8_at content (p + 5) = Z.of_nat c.
Hypothesis Hkc : i8_at content (p + 6) / 8 = Z.of_nat kc.
Hypothesis Hki : i8_at content (p + 7) / 8 = Z.of_nat ki.
Hypothesis Hw : u32_at content (p + 8) = Z.of_nat w.
Hypothesis Hh : u32_at content (p + 12) = Z.of_nat h.
Hypothesis Hd : u32_at content (p + 16) = Z.of_nat d.
Hypothesis Hn : u32_at content (p + 20) = Z.of_nat n.
Hypothesis Hkc4 : (kc <= 4)%nat.
Hypothesis Hki6 : (ki <= 6)%nat.

(** The file object when the voxels have been read. *)
Let f1 := mk_rfile content (p + 24) (rf_reads (file s) ++ header_reads).
Let f2 := rfile_after f1 ki (d * h * w).

Hypothesis Hpal : (rf_pos f2 + n * c * kc <= length content)%nat.

Lemma parse_pass_Ok use_lists :
  exists a pal dict s',
    parse use_lists s = (Ok dict, s')
    /\ dict !! "width" = Some (PyInt (Z.of_nat w))
    /\ dict !! "height" = Some (PyInt (Z.of_nat h))
    /\ dict !! "depth" = Some (PyInt (Z.of_nat d))
    /\ dict !! "num_of_pallette_colors" = Some (PyInt (Z.of_nat n))
    /\ dict !! "voxels"
       = Some (if use_lists then PyList3 a else PyNdarray3 a)
    /\ dict !! "palette"
       = Some (if use_lists then PyList2 pal else PyNdarray2 pal)
    /\ (forall x y z, (x < w)%nat -> (y < h)%nat -> (z < d)%nat ->
          exists f,
            get3 a x y z = Some f
            /\ float_of_int
                 (int_from_bytes_little
                    (element f1 ki (voxel_index w h x y z))) = Ok f)
    /\ (forall i j, (i < n)%nat -> (j < c)%nat ->
          exists f,
            get2 pal i j = Some f
            /\ decode_channel ty (Z.of_nat kc)
                 (element f2 kc (channel_index c i j)) = Ok f).
Proof.
  unfold parse.
  erewrite bind_Ok by reflexivity. rewrite Hdata.
  erewrite bind_Ok by (by apply (read_header_Ok s ty)).
  fold content p.
  (* the voxels *)
  destruct (read_voxel_buffer_Ok (header_read s ty) w h d ki)
    as (s1 & Hv & (a & -> & Ha)).
  { cbn. fold content p. by rewrite Hw. }
  { cbn. fold content p. by rewrite Hh. }
  { cbn. fold content p. by rewrite Hd. }
  { cbn. fold content p. by rewrite Hki. }
  { done. }
  fold content p in Hv. erewrite bind_Ok by exact Hv.
  (* the palette *)
  destruct (read_palette_buffer_Ok
              (set_voxels (Some a)
                 (set_file (rfile_after (file (header_read s ty)) ki
                              (d * h * w)) (header_read s ty)))
              ty n c kc) as (s2 & Hp & (pal & -> & Hpal')).
  { reflexivity. }
  { cbn. fold content p. by rewrite Hn. }
  { cbn. fold content p. by rewrite Hc. }
  { cbn. fold content p. by rewrite Hkc. }
  { by eapply py_list_get_elem_of. }
  { done. }
  { exact Hpal. }
  erewrite bind_Ok by exact Hp.
  (* the rest of the file *)
  match goal with |- context [bind read_remaining_bytes _ ?s2] =>
    destruct (read_remaining_bytes_Ok s2) as (f' & Hr & _) end.
  erewrite bind_Ok by exact Hr.
  (* the dictionary *)
  erewrite bind_Ok by reflexivity.
  erewrite bind_Ok by (apply attr_Some; reflexivity).
  erewrite bind_Ok by reflexivity.
  erewrite bind_Ok by (apply attr_Some; reflexivity).
  erewrite bind_Ok by reflexivity.
  erewrite bind_Ok by (apply attr_Some; reflexivity).
  erewrite bind_Ok by reflexivity.
  erewrite bind_Ok by (apply attr_Some; reflexivity).
  erewrite bind_Ok by reflexivity.
  erewrite bind_Ok by (apply attr_Some; reflexivity).
  erewrite bind_Ok by reflexivity.
  erewrite bind_Ok by (apply attr_Some; reflexivity).
  erewrite bind_Ok by reflexivity.
  fold content p.
  exists a, pal.
  destruct use_lists.
  - erewrite bind_Ok by reflexivity.
    eexists. eexists. split; [reflexivity|].
    cbn [data set_data]. fold content p. rewrite Hw, Hh, Hd, Hn.
    split; [by simplify_map_eq|]. split; [by simplify_map_eq|].
    split; [by simplify_map_eq|]. split; [by simplify_map_eq|].
    split; [by simplify_map_eq|]. split; [by simplify_map_eq|].
    split; [intros x y z Hx Hy Hz|intros i j Hi Hj].
    + specialize (Ha x y z Hx Hy Hz).
      destruct (Nat.ltb_spec (voxel_index w h x y z) (d * h * w)); [done|].
      pose proof (voxel_index_lt w h d x y z Hx Hy Hz). lia.
    + specialize (Hpal' i j Hi Hj).
      destruct (Nat.ltb_spec (channel_index c i j) (n * c)); [done|].
      pose proof (channel_index_lt n c i j Hi Hj). lia.
  - erewrite bind_Ok by reflexivity.
    eexists. eexists. split; [reflexivity|].
    cbn [data set_data]. fold content p. rewrite Hw, Hh, Hd, Hn.
    split; [by simplify_map_eq|]. split; [by simplify_map_eq|].
    split; [by simplify_map_eq|]. split; [by simplify_map_eq|].
    split; [by simplify_map_eq|]. split; [by simplify_map_eq|].
    split; [intros x y z Hx Hy Hz|intros i j Hi Hj].
    + specialize (Ha x y z Hx Hy Hz).
      destruct (Nat.ltb_spec (voxel_index w h x y z) (d * h * w)); [done|].
      pose proof (voxel_index_lt w h d x y z Hx Hy Hz). lia.
    + specialize (Hpal' i j Hi Hj).
      destruct (Nat.ltb_spec (channel_index c i j) (n * c)); [done|].
      pose proof (channel_index_lt n c i j Hi Hj). lia.
Qed.
End parse_pass.

(** ** Nested lists as arrays *)

Lemma np_shape_PList l sx :
  l <> [] -> Forall (fun y => np_shape y = Some sx) l ->
  np_shape (PList l) = Some (length l :: sx).
Proof.
  intros Hne Hall. destruct l as [|x xs]; [done|].
  apply Forall_cons in Hall as [Hx Hxs]. cbn [np_shape]. rewrite Hx.
  assert (forallb (fun y => bool_decide (np_shape y = Some sx)) xs = true)
    as ->; [|reflexivity].
  apply forallb_forall. intros y Hy.
  apply bool_decide_eq_true. rewrite Forall_forall in Hxs.
  apply Hxs. by apply list_elem_of_In.
Qed.

Lemma np_shape_pylist1 r : np_shape (pylist1 r) = Some [length r].
Proof.
  unfold pylist1. destruct r as [|v r]; [reflexivity|].
  rewrite (np_shape_PList _ []).
  - by rewrite length_map.
  - discriminate.
  - apply Forall_forall. intros y Hy. apply list_elem_of_In in Hy.
    apply in_map_iff in Hy as (z & <- & _). reflexivity.
Qed.

Lemma np_shape_pylist2 p n c :
  rect2 p n c -> (1 <= n)%nat -> np_shape (pylist2 p) = Some [n; c].
Proof.
  intros [Hn Hc] H1. unfold pylist2.
  rewrite (np_shape_PList _ [c]).
  - by rewrite length_map, Hn.
  - destruct p; [simpl in Hn; lia|discriminate].
  - apply Forall_forall. intros y Hy. apply list_elem_of_In in Hy.
    apply in_map_iff in Hy as (r & <- & Hr). rewrite np_shape_pylist1.
    rewrite Forall_forall in Hc. rewrite (Hc r); [done|].
    by apply list_elem_of_In.
Qed.

Lemma np_shape_pylist3 l w h d :
  rect3 l w h d -> (1 <= w)%nat -> (1 <= h)%nat ->
  np_shape (pylist3 l) = Some [w; h; d].
Proof.
  intros [Hw Hp] H1 H2. unfold pylist3.
  rewrite (np_shape_PList _ [h; d]).
  - by rewrite length_map, Hw.
  - destruct l; [simpl in Hw; lia|discriminate].
  - apply Forall_forall. intros y Hy. apply list_elem_of_In in Hy.
    apply in_map_iff in Hy as (p & <- & Hpl).
    apply np_shape_pylist2; [|done]. rewrite Forall_forall in Hp.
    apply Hp. by apply list_elem_of_In.
Qed.

Lemma lookup_map {A B} (f : A -> B) (l : list A) i :
  map f l !! i = f <$> (l !! i).
Proof.
  revert i; induction l as [|a l IH]; intros [|i]; simpl; try done.
Qed.

Lemma nd_get2_pylist2 p i j :
  nd_get2 (pylist2 p) i j
  = match get2 p i j with
    | Some v => Ok (PInt v)
    | None => Raise IndexError
    end.
Proof.
  unfold nd_get2, get2, pylist2, pylist1. cbn [nd_getitem].
  rewrite lookup_map. destruct (p !! i) as [r|]; [|reflexivity].
  cbn. rewrite lookup_map. destruct (r !! j); reflexivity.
Qed.

Lemma nd_get3_pylist3 l x y z :
  nd_get3 (pylist3 l) x y z
  = match get3 l x y z with
    | Some v => Ok (PInt v)
    | None => Raise IndexError
    end.
Proof.
  unfold nd_get3, get3, pylist3. cbn [nd_getitem].
  rewrite lookup_map. destruct (l !! x) as [p|]; [|reflexivity].
  cbn [fmap option_fmap option_map mbind outcome_bind option_bind].
  pose proof (nd_get2_pylist2 p y z) as H. unfold nd_get2, get2 in H.
  exact H.
Qed.

Lemma get2_rect2 p n c i j :
  rect2 p n c -> (i < n)%nat -> (j < c)%nat -> is_Some (get2 p i j).
Proof.
  intros [Hn Hc] Hi Hj. unfold get2.
  destruct (lookup_lt_is_Some_2 p i) as [r Hr]; [lia|]. rewrite Hr. cbn.
  apply lookup_lt_is_Some_2. rewrite Forall_forall in Hc.
  rewrite (Hc r); [done|]. by eapply list_elem_of_lookup_2.
Qed.

Lemma get3_rect3 l w h d x y z :
  rect3 l w h d -> (x < w)%nat -> (y < h)%nat -> (z < d)%nat ->
  is_Some (get3 l x y z).
Proof.
  intros [Hw Hp] Hx Hy Hz. unfold get3.
  destruct (lookup_lt_is_Some_2 l x) as [p Hpl]; [lia|]. rewrite Hpl. cbn.
  rewrite Forall_forall in Hp.
  apply (get2_rect2 p h d); [|done..]. apply Hp.
  by eapply list_elem_of_lookup_2.
Qed.

Lemma get2_bytes2 p i j v :
  bytes2 p -> get2 p i j = Some v -> 0 <= v < 256.
Proof.
  unfold bytes2, get2. intros Hb H.
  destruct (p !! i) as [r|] eqn:Hr; [|discriminate]. cbn in H.
  rewrite Forall_forall in Hb. specialize (Hb r).
  rewrite Forall_forall in Hb. apply Hb.
  - by eapply list_elem_of_lookup_2.
  - by eapply list_elem_of_lookup_2.
Qed.

Lemma get3_bytes3 l x y z v :
  bytes3 l -> get3 l x y z = Some v -> 0 <= v < 256.
Proof.
  unfold bytes3, get3. intros Hb H.
  destruct (l !! x) as [p|] eqn:Hp; [|discriminate]. cbn in H.
  rewrite Forall_forall in Hb.
  apply (get2_bytes2 p y z); [|done]. apply Hb.
  by eapply list_elem_of_lookup_2.
Qed.

(** *** The dtype of an array of small integers is int64 *)

Lemma foldl_promote_int64 ds :
  Forall (fun dt => dt = dt_int64) ds -> foldl promote dt_int64 ds = dt_int64.
Proof.
  induction 1 as [|dt ds -> _ IH]; [reflexivity|]. simpl. exact IH.
Qed.

Lemma np_dtype_int64 v :
  leaf_dtypes v <> [] -> Forall (fun dt => dt = dt_int64) (leaf_dtypes v) ->
  np_dtype v = dt_int64.
Proof.
  unfold np_dtype. destruct (leaf_dtypes v) as [|dt ds]; [done|].
  intros _ H. apply Forall_cons in H as [-> H]. by apply foldl_promote_int64.
Qed.

Lemma int_dtype_int64 v : - 2 ^ 63 <= v < 2 ^ 63 -> int_dtype v = dt_int64.
Proof.
  intros Hv. unfold int_dtype.
  destruct (Z.leb_spec (- 2 ^ 63) v); [|lia].
  destruct (Z.ltb_spec v (2 ^ 63)); [reflexivity|lia].
Qed.

Lemma leaf_dtypes_pylist1 r : leaf_dtypes (pylist1 r) = map int_dtype r.
Proof.
  unfold pylist1. cbn [leaf_dtypes].
  induction r as [|v r IH]; [reflexivity|]. cbn. by rewrite IH.
Qed.

Lemma leaf_dtypes_pylist2 p :
  leaf_dtypes (pylist2 p) = concat (map (map int_dtype) p).
Proof.
  unfold pylist2. cbn [leaf_dtypes].
  induction p as [|r p IH]; [reflexivity|].
  cbn [map concat]. rewrite IH. f_equal. apply leaf_dtypes_pylist1.
Qed.

Lemma leaf_dtypes_pylist3 l :
  leaf_dtypes (pylist3 l)
  = concat (map (fun p => concat (map (map int_dtype) p)) l).
Proof.
  unfold pylist3. cbn [leaf_dtypes].
  induction l as [|p l IH]; [reflexivity|].
  cbn [map concat]. rewrite IH. f_equal. apply leaf_dtypes_pylist2.
Qed.

Lemma np_dtype_pylist2 p i j v :
  int64s2 p -> get2 p i j = Some v -> np_dtype (pylist2 p) = dt_int64.
Proof.
  intros Hb Hg. apply np_dtype_int64; rewrite leaf_dtypes_pylist2.
  - unfold get2 in Hg. destruct (p !! i) as [r|] eqn:Hr; [|discriminate].
    cbn in Hg. intros E.
    assert (In (int_dtype v) (concat (map (map int_dtype) p))) as Hin.
    { apply in_concat. exists (map int_dtype r). split.
      - apply in_map, list_elem_of_In. by eapply list_elem_of_lookup_2.
      - apply in_map, list_elem_of_In. by eapply list_elem_of_lookup_2. }
    rewrite E in Hin. done.
  - apply Forall_concat, Forall_forall. intros ds Hds.
    apply list_elem_of_In, in_map_iff in Hds as (r & <- & Hr).
    apply Forall_forall. intros dt Hdt.
    apply list_elem_of_In, in_map_iff in Hdt as (z & <- & Hz).
    apply int_dtype_int64. unfold int64s2 in Hb.
    rewrite Forall_forall in Hb. apply list_elem_of_In in Hr, Hz.
    specialize (Hb r Hr). rewrite Forall_forall in Hb. by apply Hb.
Qed.

Lemma np_dtype_pylist3 l x y z v :
  int64s3 l -> get3 l x y z = Some v -> np_dtype (pylist3 l) = dt_int64.
Proof.
  intros Hb Hg. apply np_dtype_int64; rewrite leaf_dtypes_pylist3.
  - unfold get3 in Hg. destruct (l !! x) as [p|] eqn:Hp; [|discriminate].
    cbn in Hg. destruct (p !! y) as [r|] eqn:Hr; [|discriminate].
    cbn in Hg. intros E.
    assert (In (int_dtype v)
              (concat (map (fun p => concat (map (map int_dtype) p)) l)))
      as Hin.
    { apply in_concat. exists (concat (map (map int_dtype) p)). split.
      - apply (in_map (fun p => concat (map (map int_dtype) p))).
        apply list_elem_of_In. by eapply list_elem_of_lookup_2.
      - apply in_concat. exists (map int_dtype r). split.
        + apply in_map, list_elem_of_In. by eapply list_elem_of_lookup_2.
        + apply in_map, list_elem_of_In. by eapply list_elem_of_lookup_2. }
    rewrite E in Hin. done.
  - apply Forall_concat, Forall_forall. intros ds Hds.
    apply list_elem_of_In, in_map_iff in Hds as (p & <- & Hp).
    apply Forall_concat, Forall_forall. intros ds Hds.
    apply list_elem_of_In, in_map_iff in Hds as (r & <- & Hr).
    apply Forall_forall. intros dt Hdt.
    apply list_elem_of_In, in_map_iff in Hdt as (z' & <- & Hz).
    apply int_dtype_int64. unfold int64s3, int64s2 in Hb.
    rewrite Forall_forall in Hb. apply list_elem_of_In in Hp, Hr, Hz.
    specialize (Hb p Hp). rewrite Forall_forall in Hb.
    specialize (Hb r Hr). rewrite Forall_forall in Hb. by apply Hb.
Qed.

(** ** The constructor of the writer, on nested lists *)

Lemma init_lists vl pl w h d n c :
  rect3 vl w h d -> (1 <= w)%nat -> (1 <= h)%nat ->
  rect2 pl n c -> (1 <= n)%nat ->
  XRawVolumeWriter.init (ArgPy (pylist3 vl)) (ArgPy (pylist2 pl))
  = Ok (XRawVolumeWriter.mk
          (mk_ndarray (np_dtype (pylist3 vl)) [w; h; d] (pylist3 vl))
          (mk_ndarray (np_dtype (pylist2 pl)) [n; c] (pylist2 pl))
          XRAW fmt_I 1 1 (Z.of_nat w) (Z.of_nat h) (Z.of_nat d)
          (Z.of_nat n) (Z.of_nat c) None).
Proof.
  intros Hv Hw Hh Hp Hn. rewrite init_eq.
  unfold array_of_arg, pylist3 at 1, pylist2 at 2.
  cbn [ne_None_truth mbind outcome_bind np_array_arg].
  fold (pylist3 vl). fold (pylist2 pl). unfold np_array.
  rewrite (np_shape_pylist3 vl w h d), (np_shape_pylist2 pl n c) by done.
  reflexivity.
Qed.

(** ** A whole pass of [write_file] *)

Section write_file.
Import XRawVolumeWriter.
Variables (obj : t) (fs0 : filesystem) (path : string).
Variables (w h d n c : nat).
Hypothesis Hfmt : format_string obj = XRAW.
Hypothesis Hty : color_channel_data_type obj = fmt_I.
Hypothesis Hbpc : bytes_per_channel obj = 1.
Hypothesis Hbpi : bytes_per_index obj = 1.
Hypothesis Hw : width obj = Z.of_nat w.
Hypothesis Hh : height obj = Z.of_nat h.
Hypothesis Hd : depth obj = Z.of_nat d.
Hypothesis Hn : num_of_pallette_colors obj = Z.of_nat n.
Hypothesis Hc : num_of_color_channels obj = Z.of_nat c.
Hypothesis Hc256 : (c < 256)%nat.
Hypothesis Hw32 : Z.of_nat w < 2 ^ 32.
Hypothesis Hh32 : Z.of_nat h < 2 ^ 32.
Hypothesis Hd32 : Z.of_nat d < 2 ^ 32.
Hypothesis Hn32 : Z.of_nat n < 2 ^ 32.
Hypothesis Hvox : byte_cells3 (voxels obj) w h d.
Hypothesis Hpal : byte_cells2 (palette obj) n c.

Lemma write_file_Ok :
  exists hdr vox pal,
    write_file path (mk_world obj fs0)
    = (Ok tt,
       mk_world (set_file (Some (mk_wfile path true)) obj)
         (<[path := hdr ++ vox ++ pal]> fs0))
    /\ map byte_val hdr
       = header_layout 0 (Z.of_nat c) 8 8 (Z.of_nat w) (Z.of_nat h)
           (Z.of_nat d) (Z.of_nat n)
    /\ length vox = (d * h * w)%nat
    /\ (forall x y z, (x < w)%nat -> (y < h)%nat -> (z < d)%nat ->
          exists b cell,
            vox !! voxel_index w h x y z = Some b
            /\ nd_get3 (nd_data (voxels obj)) x y z = Ok cell
            /\ elem_of_cell (nd_dtype (voxels obj)) cell
               = ElemInt (byte_val b))
    /\ length pal = (n * c)%nat
    /\ (forall i j, (i < n)%nat -> (j < c)%nat ->
          exists b cell,
            pal !! channel_index c i j = Some b
            /\ nd_get2 (nd_data (palette obj)) i j = Ok cell
            /\ elem_of_cell (nd_dtype (palette obj)) cell
               = ElemInt (byte_val b)).
Proof.
  unfold write_file, open_wb.
  erewrite bind_Ok by reflexivity.
  erewrite bind_Ok by reflexivity.
  change (mk_world _ _) with (writing obj fs0 path []) at 1.
  destruct (write_header_Ok obj fs0 path Hfmt Hty Hbpc Hbpi [])
    as (hdr & Ehdr & Hhdr); [lia..|].
  erewrite bind_Ok by exact Ehdr.
  destruct (write_voxels_Ok obj fs0 path ([] ++ hdr) w h d Hw Hh Hd Hvox)
    as (w1 & E1 & (vox & -> & Hlv & Hv)).
  erewrite bind_Ok by exact E1.
  destruct (write_palette_Ok obj fs0 path (([] ++ hdr) ++ vox) n c Hn Hc Hpal)
    as (w2 & E2 & (pal & -> & Hlp & Hp)).
  erewrite bind_Ok by exact E2.
  exists hdr, vox, pal.
  split.
  { unfold file_close. erewrite bind_Ok by reflexivity.
    cbn. rewrite <- app_assoc. reflexivity. }
  split.
  { by rewrite Hhdr, Hw, Hh, Hd, Hn, Hc. }
  split; [done|]. split.
  { intros x y z Hx Hy Hz. apply Hv; [done..|].
    by apply voxel_index_lt. }
  split; [done|].
  intros i j Hi Hj. apply Hp; [done..|].
  by apply channel_index_lt.
Qed.
End write_file.

(** ** The header, written then read *)

Lemma le_bytes4_decode v b0 b1 b2 b3 :
  0 <= v < 2 ^ 32 ->
  map byte_val [b0; b1; b2; b3] = le_bytes 4 v ->
  int_from_bytes_little [b0; b1; b2; b3] = v.
Proof.
  intros Hv H. cbn [map le_bytes] in H.
  injection H as H0 H1 H2 H3.
  cbn [int_from_bytes_little]. rewrite H0, H1, H2, H3.
  pose proof (Z.div_mod v 256 ltac:(lia)) as E0.
  pose proof (Z.div_mod (v / 256) 256 ltac:(lia)) as E1.
  pose proof (Z.div_mod (v / 256 / 256) 256 ltac:(lia)) as E2.
  assert (0 <= v / 256 / 256 / 256 < 256) as E3.
  { split.
    - repeat apply Z.div_pos; lia.
    - repeat (apply Z.div_lt_upper_bound; [lia|]). lia. }
  rewrite (Z.mod_small (v / 256 / 256 / 256) 256) by lia. lia.
Qed.

Lemma header_layout_read hdr rest ti c bc bi w h d n :
  map byte_val hdr = header_layout ti c bc bi w h d n ->
  0 <= w < 2 ^ 32 -> 0 <= h < 2 ^ 32 -> 0 <= d < 2 ^ 32 -> 0 <= n < 2 ^ 32 ->
  length hdr = 24%nat
  /\ take 4 (hdr ++ rest) = XRAW_bytes
  /\ i8_at (hdr ++ rest) 4 = to_signed 8 ti
  /\ i8_at (hdr ++ rest) 5 = to_signed 8 c
  /\ i8_at (hdr ++ rest) 6 = to_signed 8 bc
  /\ i8_at (hdr ++ rest) 7 = to_signed 8 bi
  /\ u32_at (hdr ++ rest) 8 = w
  /\ u32_at (hdr ++ rest) 12 = h
  /\ u32_at (hdr ++ rest) 16 = d
  /\ u32_at (hdr ++ rest) 20 = n.
Proof.
  intros H Hw Hh Hd Hn.
  assert (length hdr = 24%nat) as Hlen.
  { rewrite <- (length_map byte_val), H. reflexivity. }
  do 24 (destruct hdr as [|? hdr]; [discriminate|]).
  destruct hdr; [|discriminate].
  unfold header_layout, XRAW in H. cbn [app map] in H.
  injection H as Hx Hr Ha Hw' Hti Hc Hbc Hbi W0 W1 W2 W3 H0 H1 H2 H3
    D0 D1 D2 D3 N0 N1 N2 N3.
  split; [done|]. split.
  { cbn [take app]. apply map_byte_val_inj. cbn [map].
    rewrite Hx, Hr, Ha, Hw'. reflexivity. }
  unfold i8_at, u32_at. cbn [drop take app].
  split; [cbn [int_from_bytes_little]; by rewrite Hti, Z.mul_0_r, Z.add_0_r|].
  split; [cbn [int_from_bytes_little]; by rewrite Hc, Z.mul_0_r, Z.add_0_r|].
  split; [cbn [int_from_bytes_little]; by rewrite Hbc, Z.mul_0_r, Z.add_0_r|].
  split; [cbn [int_from_bytes_little]; by rewrite Hbi, Z.mul_0_r, Z.add_0_r|].
  split; [apply le_bytes4_decode; [done|]; cbn [map le_bytes]; congruence|].
  split; [apply le_bytes4_decode; [done|]; cbn [map le_bytes]; congruence|].
  split; [apply le_bytes4_decode; [done|]; cbn [map le_bytes]; congruence|].
  apply le_bytes4_decode; [done|]; cbn [map le_bytes]; congruence.
Qed.

(** ** Writing, then parsing *)

Lemma get2_rect2_lt p n c i j v :
  rect2 p n c -> get2 p i j = Some v -> (i < n)%nat /\ (j < c)%nat.
Proof.
  intros [Hn Hc]. unfold get2. intros H.
  destruct (p !! i) as [r|] eqn:Hr; [|discriminate]. cbn in H.
  apply lookup_lt_Some in Hr as Hi, H as Hj.
  rewrite Forall_forall in Hc. rewrite (Hc r) in Hj; [lia|].
  by eapply list_elem_of_lookup_2.
Qed.

Lemma get3_rect3_lt l w h d x y z v :
  rect3 l w h d -> get3 l x y z = Some v ->
  (x < w)%nat /\ (y < h)%nat /\ (z < d)%nat.
Proof.
  intros [Hw Hp]. unfold get3. intros H.
  destruct (l !! x) as [p|] eqn:Hpl; [|discriminate]. cbn in H.
  apply lookup_lt_Some in Hpl as Hx. rewrite Forall_forall in Hp.
  destruct (get2_rect2_lt p h d y z v); [|done|lia].
  apply Hp. by eapply list_elem_of_lookup_2.
Qed.

Lemma bytes2_int64s2 p : bytes2 p -> int64s2 p.
Proof.
  unfold bytes2, int64s2. intros H.
  eapply Forall_impl; [exact H|]. intros r Hr. cbn beta in Hr.
  eapply Forall_impl; [exact Hr|]. intros v Hv. cbn beta in Hv. lia.
Qed.

Lemma bytes3_int64s3 l : bytes3 l -> int64s3 l.
Proof.
  unfold bytes3, int64s3. intros H.
  eapply Forall_impl; [exact H|]. intros p Hp. by apply bytes2_int64s2.
Qed.

Lemma take1_drop_lookup {A} (l : list A) i b :
  l !! i = Some b -> take 1 (drop i l) = [b].
Proof.
  intros H. rewrite <- (take_drop_middle l i b H).
  rewrite drop_app_length'; [reflexivity|].
  rewrite length_take. apply lookup_lt_Some in H. lia.
Qed.

Lemma byte_cells3_pylist3 vl w h d :
  rect3 vl w h d -> bytes3 vl ->
  byte_cells3 (mk_ndarray (np_dtype (pylist3 vl)) [w; h; d] (pylist3 vl))
    w h d.
Proof.
  intros Hr Hb x y z Hx Hy Hz. cbn [nd_data nd_dtype].
  destruct (get3_rect3 vl w h d x y z Hr Hx Hy Hz) as [v Hv].
  exists (PInt v), v. rewrite nd_get3_pylist3, Hv.
  rewrite (np_dtype_pylist3 vl x y z v (bytes3_int64s3 vl Hb) Hv).
  split; [done|]. split; [done|]. by eapply get3_bytes3.
Qed.

Lemma byte_cells2_pylist2 pl n c :
  rect2 pl n c -> bytes2 pl ->
  byte_cells2 (mk_ndarray (np_dtype (pylist2 pl)) [n; c] (pylist2 pl)) n c.
Proof.
  intros Hr Hb i j Hi Hj. cbn [nd_data nd_dtype].
  destruct (get2_rect2 pl n c i j Hr Hi Hj) as [v Hv].
  exists (PInt v), v. rewrite nd_get2_pylist2, Hv.
  rewrite (np_dtype_pylist2 pl i j v (bytes2_int64s2 pl Hb) Hv).
  split; [done|]. split; [done|]. by eapply get2_bytes2.
Qed.

Lemma elem_of_cell_PInt dt v b :
  elem_of_cell dt (PInt v) = ElemInt (byte_val b) -> v = byte_val b.
Proof. destruct dt; simpl; congruence. Qed.

Lemma float_of_int_byte b f :
  float_of_int (byte_val b) = Ok f -> int_of_float f = Some (byte_val b).
Proof.
  intros Hf. pose proof (byte_val_range b).
  destruct (float_of_int_exact (byte_val b)) as (f' & Hf' & Hi); [lia|].
  congruence.
Qed.

Lemma decode_channel_byte b :
  decode_channel fmt_I 1 [b] = float_of_int (byte_val b).
Proof.
  unfold decode_channel, struct_unpack.
  cbn [app replicate Z.to_nat Z.sub length calcsize Nat.eqb negb mbind
       outcome_bind to_float64 int_from_bytes_little].
  change (Z.to_nat (4 - 1)) with 3%nat.
  cbn [app replicate length Nat.eqb negb mbind outcome_bind to_float64
       int_from_bytes_little].
  change (byte_val "000") with 0. f_equal. lia.
Qed.




(** ** The order of the voxel buffer *)

(** C7. The parser and the writer go through the voxel buffer in one order,
    [z] outermost and [x] innermost: the element at place
    [(z * h + y) * w + x] of the buffer belongs to the cell [x][y][z].  The
    parser reads [bytes_per_index] bytes for an element and stores the float
    of their little-endian integer (exactly that integer, for elements of at
    most six bytes); the writer writes one byte for a cell. *)
Theorem voxel_buffer_order :
  (forall s0 w h d k,
     XRawVolumeParser.width s0 = Some (Z.of_nat w) ->
     XRawVolumeParser.height s0 = Some (Z.of_nat h) ->
     XRawVolumeParser.depth s0 = Some (Z.of_nat d) ->
     XRawVolumeParser.bytes_per_index s0 = Some (Z.of_nat k) ->
     (k <= 6)%nat ->
     voxels_read s0 w h d k)
  /\ (forall obj fs0 path acc w h d,
        XRawVolumeWriter.width obj = Z.of_nat w ->
        XRawVolumeWriter.height obj = Z.of_nat h ->
        XRawVolumeWriter.depth obj = Z.of_nat d ->
        byte_cells3 (XRawVolumeWriter.voxels obj) w h d ->
        voxels_written obj fs0 path acc w h d).
Proof.
  split.
  - intros s0 w h d k Hw Hh Hd Hk Hk6.
    destruct (read_voxel_buffer_Ok s0 w h d k Hw Hh Hd Hk Hk6)
      as (s' & E & (a & -> & Ha)).
    exists a. split; [exact E|].
    intros x y z Hx Hy Hz. specialize (Ha x y z Hx Hy Hz).
    destruct (Nat.ltb_spec (voxel_index w h x y z) (d * h * w)) as [_|Hge].
    + destruct Ha as (f & Hf & Hfl). exists f. split; [done|].
      split; [done|].
      destruct (float_of_int_bytes
                  (element (XRawVolumeParser.file s0) k
                     (voxel_index w h x y z))) as (f' & Hf' & Hi).
      { pose proof (element_length (XRawVolumeParser.file s0) k
                      (voxel_index w h x y z)). lia. }
      congruence.
    + pose proof (voxel_index_lt w h d x y z Hx Hy Hz). lia.
  - intros obj fs0 path acc w h d Hw Hh Hd Hcells.
    destruct (write_voxels_Ok obj fs0 path acc w h d Hw Hh Hd Hcells)
      as (wld' & E & (out & -> & Hlen & Hout)).
    exists out. split; [exact E|]. split; [exact Hlen|].
    intros x y z Hx Hy Hz. apply Hout; [done..|].
    by apply voxel_index_lt.
Qed.

Lemma voxel_buffer_order_witness :
  voxels_read
    (XRawVolumeParser.mk
       (mk_rfile ["001"; "002"; "003"; "004"; "005"; "006"]%byte 0 [])
       None (Some fmt_I) (Some 4) (Some 1) (Some 1)
       (Some 3) (Some 2) (Some 1) (Some 0) None None None)
    3 2 1 1
  /\ voxels_written
       (XRawVolumeWriter.mk
          (mk_ndarray (np_dtype (pylist3 [[[1]; [4]]; [[2]; [5]]; [[3]; [6]]]))
             [3%nat; 2%nat; 1%nat]
             (pylist3 [[[1]; [4]]; [[2]; [5]]; [[3]; [6]]]))
          XRawVolumeWriter.default_palette XRAW fmt_I 1 1 3 2 1 256 4 None)
       ∅ "a.xraw" [] 3 2 1.
Proof.
  destruct voxel_buffer_order as [Hread Hwrite]. split.
  - apply Hread; [reflexivity..|lia].
  - apply Hwrite; [reflexivity..|].
    apply byte_cells3_pylist3.
    + split; [reflexivity|]. repeat constructor.
    + repeat constructor; lia.
Defined.

(** ** The palette *)

Lemma int_from_bytes_little_app_zeros bs n :
  int_from_bytes_little (bs ++ replicate n "000"%byte)
  = int_from_bytes_little bs.
Proof.
  induction bs as [|b bs IH]; cbn [app int_from_bytes_little].
  - induction n as [|n IHn]; [reflexivity|].
    cbn [replicate int_from_bytes_little]. rewrite IHn. reflexivity.
  - by rewrite IH.
Qed.

(** C8. With a channel type of the table and channels of at most four bytes
    (so of one, two or four), [read_palette_buffer] reads
    [bytes_per_channel] bytes for each channel of each colour, colour after
    colour; the bytes, padded on the right with zero bytes to four, are
    unpacked as an unsigned 32-bit integer, a signed one or a binary32 float
    as the channel type says, and the value is stored in the cell. *)
Theorem palette_channels_decoded s0 ty n c k :
  XRawVolumeParser.color_channel_data_type s0 = Some ty ->
  XRawVolumeParser.num_of_pallette_colors s0 = Some (Z.of_nat n) ->
  XRawVolumeParser.num_of_color_channels s0 = Some (Z.of_nat c) ->
  XRawVolumeParser.bytes_per_channel s0 = Some (Z.of_nat k) ->
  ty ∈ XRawVolumeParser.color_channel_data_types ->
  (k <= 4)%nat ->
  (rf_pos (XRawVolumeParser.file s0) + n * c * k
   <= length (rf_content (XRawVolumeParser.file s0)))%nat ->
  palette_read s0 ty n c k.
Proof.
  intros Hty Hn Hc Hk Hin Hk4 Hlen.
  destruct (read_palette_buffer_Ok s0 ty n c k Hty Hn Hc Hk Hin Hk4 Hlen)
    as (s' & E & (pal & -> & Hpal)).
  exists pal. split; [exact E|].
  intros i j Hi Hj. specialize (Hpal i j Hi Hj).
  destruct (Nat.ltb_spec (channel_index c i j) (n * c)) as [Hlt|Hge].
  2:{ pose proof (channel_index_lt n c i j Hi Hj). lia. }
  destruct Hpal as (f & Hf & Hdec).
  assert (length (element (XRawVolumeParser.file s0) k (channel_index c i j))
          = k) as Hfull.
  { apply element_full.
    assert ((channel_index c i j + 1) * k <= n * c * k)%nat
      by (apply Nat.mul_le_mono_r; lia).
    lia. }
  exists f. split; [done|]. split; [done|].
  split; [cbn zeta; rewrite length_app, length_replicate; lia|].
  unfold decode_channel, struct_unpack in Hdec.
  replace (Z.to_nat (4 - Z.of_nat k)) with (4 - k)%nat in Hdec by lia.
  assert (length (element (XRawVolumeParser.file s0) k (channel_index c i j)
                  ++ replicate (4 - k) "000"%byte) = 4%nat) as Hl4
    by (rewrite length_app, length_replicate; lia).
  rewrite Hl4 in Hdec.
  unfold XRawVolumeParser.color_channel_data_types in Hin.
  apply elem_of_cons in Hin as [->|Hin];
    [|apply elem_of_cons in Hin as [->|Hin];
      [|apply list_elem_of_singleton in Hin as ->]];
    cbn [calcsize Nat.eqb negb mbind outcome_bind to_float64] in Hdec;
    cbn [channel_decoded].
  - exact Hdec.
  - exact Hdec.
  - by injection Hdec.
Qed.

Lemma palette_channels_decoded_witness :
  palette_read
    (XRawVolumeParser.mk
       (mk_rfile ["001"; "002"; "003"; "004"; "005"; "006"; "007"; "128"]%byte
          0 [])
       None (Some fmt_i) (Some 2) (Some 2) (Some 1)
       (Some 1) (Some 1) (Some 1) (Some 2) None None None)
    fmt_i 2 2 2.
Proof.
  apply palette_channels_decoded.
  - reflexivity.
  - reflexivity.
  - reflexivity.
  - reflexivity.
  - unfold XRawVolumeParser.color_channel_data_types.
    apply elem_of_cons. right. apply elem_of_cons. by left.
  - lia.
  - simpl. lia.
Defined.

(** ** The layout of the header *)

Lemma init_fields voxels palette obj :
  XRawVolumeWriter.init voxels palette = Ok obj ->
  XRawVolumeWriter.format_string obj = XRAW
  /\ XRawVolumeWriter.color_channel_data_type obj = fmt_I
  /\ XRawVolumeWriter.bytes_per_channel obj = 1
  /\ XRawVolumeWriter.bytes_per_index obj = 1
  /\ 0 <= XRawVolumeWriter.width obj
  /\ 0 <= XRawVolumeWriter.height obj
  /\ 0 <= XRawVolumeWriter.depth obj
  /\ 0 <= XRawVolumeWriter.num_of_pallette_colors obj
  /\ 0 <= XRawVolumeWriter.num_of_color_channels obj
  /\ XRawVolumeWriter.file obj = None.
Proof.
  rewrite init_eq.
  destruct (array_of_arg voxels _) as [v|e]; [|discriminate].
  destruct (array_of_arg palette _) as [p|e]; [|discriminate].
  cbn [mbind outcome_bind].
  destruct (negb _); [discriminate|]. unfold shape_get.
  destruct (nd_shape v !! 0%nat); [|discriminate].
  destruct (nd_shape v !! 1%nat); [|discriminate].
  destruct (nd_shape v !! 2%nat); [|discriminate].
  destruct (nd_shape p !! 0%nat); [|discriminate].
  destruct (nd_shape p !! 1%nat); [|discriminate].
  cbn [mbind outcome_bind]. intros H; injection H as <-. cbn.
  repeat split; lia.
Qed.

(** C6. The header is read in one order, whatever the file holds: the magic
    tag, four numbers of one byte, four numbers of four bytes.  When the file
    begins with the tag, holds 24 bytes and a channel type of the table,
    [read_header] returns with the channel type of the signed byte at
    offset 4, the number of channels of the one at offset 5, the bit widths
    at offsets 6 and 7 divided by 8, and the little-endian unsigned integers
    at offsets 8, 12, 16 and 20 as width, height, depth and number of
    colours.  [write_header] writes 24 bytes of that very layout, and those
    bytes are read back as the values written. *)
Theorem header_layout_shared :
  (forall s r s',
     XRawVolumeParser.read_header s = (r, s') ->
     exists k, (1 <= k)%nat
               /\ rf_reads (XRawVolumeParser.file s')
                  = rf_reads (XRawVolumeParser.file s) ++ take k header_reads)
  /\ (forall s ty,
        take 4 (drop (rf_pos (XRawVolumeParser.file s))
                  (rf_content (XRawVolumeParser.file s))) = XRAW_bytes ->
        (rf_pos (XRawVolumeParser.file s) + 24
         <= length (rf_content (XRawVolumeParser.file s)))%nat ->
        py_list_get XRawVolumeParser.color_channel_data_types
          (i8_at (rf_content (XRawVolumeParser.file s))
             (rf_pos (XRawVolumeParser.file s) + 4)) = Ok ty ->
        XRawVolumeParser.read_header s = (Ok tt, header_read s ty))
  /\ (forall voxels palette obj fs0 path out,
        XRawVolumeWriter.init voxels palette = Ok obj ->
        XRawVolumeWriter.num_of_color_channels obj < 256 ->
        XRawVolumeWriter.width obj < 2 ^ 32 ->
        XRawVolumeWriter.height obj < 2 ^ 32 ->
        XRawVolumeWriter.depth obj < 2 ^ 32 ->
        XRawVolumeWriter.num_of_pallette_colors obj < 2 ^ 32 ->
        exists hdr,
          XRawVolumeWriter.write_header (writing obj fs0 path out)
          = (Ok tt, writing obj fs0 path (out ++ hdr))
          /\ length hdr = 24%nat
          /\ map byte_val hdr
             = header_layout 0 (XRawVolumeWriter.num_of_color_channels obj)
                 8 8 (XRawVolumeWriter.width obj)
                 (XRawVolumeWriter.height obj) (XRawVolumeWriter.depth obj)
                 (XRawVolumeWriter.num_of_pallette_colors obj))
  /\ (forall hdr rest ti c bc bi w h d n,
        map byte_val hdr = header_layout ti c bc bi w h d n ->
        0 <= w < 2 ^ 32 -> 0 <= h < 2 ^ 32 -> 0 <= d < 2 ^ 32 ->
        0 <= n < 2 ^ 32 ->
        take 4 (hdr ++ rest) = XRAW_bytes
        /\ i8_at (hdr ++ rest) 4 = to_signed 8 ti
        /\ i8_at (hdr ++ rest) 5 = to_signed 8 c
        /\ i8_at (hdr ++ rest) 6 = to_signed 8 bc
        /\ i8_at (hdr ++ rest) 7 = to_signed 8 bi
        /\ u32_at (hdr ++ rest) 8 = w
        /\ u32_at (hdr ++ rest) 12 = h
        /\ u32_at (hdr ++ rest) 16 = d
        /\ u32_at (hdr ++ rest) 20 = n).
Proof.
  split; [|split; [|split]].
  - intros s r s' H. by eapply read_header_reads.
  - intros s ty Hm Hl Hty. by apply read_header_Ok.
  - intros voxels palette obj fs0 path out Hinit Hc Hw Hh Hd Hn.
    destruct (init_fields _ _ _ Hinit)
      as (Hfmt & Hty & Hbpc & Hbpi & Hw0 & Hh0 & Hd0 & Hn0 & Hc0 & _).
    destruct (write_header_Ok obj fs0 path Hfmt Hty Hbpc Hbpi out)
      as (hdr & E & Hhdr); [lia..|].
    exists hdr. split; [exact E|]. split; [|exact Hhdr].
    rewrite <- (length_map byte_val), Hhdr. reflexivity.
  - intros hdr rest ti c bc bi w h d n Hhdr Hw Hh Hd Hn.
    by destruct (header_layout_read hdr rest ti c bc bi w h d n Hhdr)
      as (_ & H).
Qed.

Lemma header_layout_shared_witness :
  XRawVolumeParser.read_header
    (XRawVolumeParser.mk
       (open_rb (XRAW_bytes ++
                 ["000"; "004"; "008"; "016"; "002"; "001"; "000"; "000";
                  "003"; "000"; "000"; "000"; "004"; "000"; "000"; "000";
                  "005"; "000"; "000"; "000"]%byte))
       None None None None None None None None None None None None)
  = (Ok tt,
     header_read
       (XRawVolumeParser.mk
          (open_rb (XRAW_bytes ++
                    ["000"; "004"; "008"; "016"; "002"; "001"; "000"; "000";
                     "003"; "000"; "000"; "000"; "004"; "000"; "000"; "000";
                     "005"; "000"; "000"; "000"]%byte))
          None None None None None None None None None None None None)
       fmt_I)
  /\ exists hdr,
       XRawVolumeWriter.write_header
         (writing
            (XRawVolumeWriter.mk XRawVolumeWriter.default_voxels
               XRawVolumeWriter.default_palette XRAW fmt_I 1 1 1 1 1 256 4
               None) ∅ "a.xraw" [])
       = (Ok tt,
          writing
            (XRawVolumeWriter.mk XRawVolumeWriter.default_voxels
               XRawVolumeWriter.default_palette XRAW fmt_I 1 1 1 1 1 256 4
               None) ∅ "a.xraw" ([] ++ hdr))
       /\ length hdr = 24%nat
       /\ map byte_val hdr = header_layout 0 4 8 8 1 1 1 256.
Proof.
  destruct header_layout_shared as (_ & Hread & Hwrite & _). split.
  - apply Hread.
    + reflexivity.
    + simpl. lia.
    + reflexivity.
  - apply (Hwrite (ArgPy PNone) (ArgPy PNone)).
    + reflexivity.
    + reflexivity.
    + reflexivity.
    + reflexivity.
    + reflexivity.
    + reflexivity.
Defined.

(** ** Files that end in the voxel buffer *)

Section palette_at_eof.
Import XRawVolumeParser.
Variables (s : t) (ty : struct_format) (n c k : nat).
Hypothesis Hty : color_channel_data_type s = Some ty.
Hypothesis Hn : num_of_pallette_colors s = Some (Z.of_nat n).
Hypothesis Hc : num_of_color_channels s = Some (Z.of_nat c).
Hypothesis Hk : bytes_per_channel s = Some (Z.of_nat k).
Hypothesis Hty_in : ty ∈ color_channel_data_types.
Hypothesis Hk1 : (1 <= k <= 4)%nat.
Hypothesis Hn1 : (1 <= n)%nat.
Hypothesis Hc1 : (1 <= c)%nat.
Hypothesis Heof : (length (rf_content (file s)) <= rf_pos (file s))%nat.

(** At the end of the file the first channel has no byte: what is unpacked
    is shorter than four bytes. *)
Lemma read_palette_buffer_eof :
  exists s', read_palette_buffer s = (Raise struct_error, s').
Proof.
  unfold read_palette_buffer.
  erewrite bind_Ok by (apply attr_Some; exact Hn).
  erewrite bind_Ok by (apply attr_Some; exact Hc).
  destruct (np_zeros2 (Z.of_nat n) (Z.of_nat c)) as [a|e] eqn:Hz.
  2:{ unfold np_zeros2 in Hz.
      destruct (Z.ltb_spec (Z.of_nat n) 0); [lia|].
      destruct (Z.ltb_spec (Z.of_nat c) 0); [lia|]. discriminate. }
  erewrite bind_Ok by reflexivity.
  erewrite bind_Ok by reflexivity.
  erewrite bind_Ok by (apply attr_Some; exact Hn).
  unfold for_range at 1. rewrite Nat2Z.id.
  destruct n as [|n']; [lia|]. cbn [seq].
  eexists. apply for_each_first_Raise.
  erewrite bind_Ok by (apply attr_Some; exact Hc).
  unfold for_range. rewrite Nat2Z.id.
  destruct c as [|c']; [lia|]. cbn [seq].
  apply for_each_first_Raise.
  unfold read_channel.
  erewrite bind_Ok by (apply attr_Some; exact Hk).
  erewrite bind_Ok by (apply read_eq; lia).
  erewrite bind_Ok by (apply attr_Some; exact Hk).
  erewrite bind_Ok by (apply attr_Some; exact Hty).
  apply bind_Raise. unfold lift. f_equal.
  rewrite rfile_read_nonneg by lia. cbn [fst file set_palette set_file].
  rewrite drop_ge by lia. rewrite take_nil. cbn [app].
  unfold struct_unpack. rewrite length_replicate.
  assert (calcsize ty = 4%nat) as ->.
  { unfold color_channel_data_types in Hty_in.
    apply elem_of_cons in Hty_in as [->|Hin];
      [|apply elem_of_cons in Hin as [->|Hin];
        [|apply list_elem_of_singleton in Hin as ->]]; reflexivity. }
  destruct (Nat.eqb_spec (Z.to_nat (4 - Z.of_nat k)) 4); [lia|]. reflexivity.
Qed.
End palette_at_eof.

Section truncated.
Import XRawVolumeParser.
Variables (s : t) (ty : struct_format) (w h d n c kc ki : nat).
Let content := rf_content (file s).
Let p := rf_pos (file s).
Hypothesis Hdata : truthy (data s) = false.
Hypothesis Hmagic : take 4 (drop p content) = XRAW_bytes.
Hypothesis Hlen : (p + 24 <= length content)%nat.
Hypothesis Hty : py_list_get color_channel_data_types (i8_at content (p + 4))
                 = Ok ty.
Hypothesis Hc : i8_at content (p + 5) = Z.of_nat c.
Hypothesis Hkc : i8_at content (p + 6) / 8 = Z.of_nat kc.
Hypothesis Hki : i8_at content (p + 7) / 8 = Z.of_nat ki.
Hypothesis Hw : u32_at content (p + 8) = Z.of_nat w.
Hypothesis Hh : u32_at content (p + 12) = Z.of_nat h.
Hypothesis Hd : u32_at content (p + 16) = Z.of_nat d.
Hypothesis Hn : u32_at content (p + 20) = Z.of_nat n.
Hypothesis Hkc4 : (1 <= kc <= 4)%nat.
Hypothesis Hki6 : (1 <= ki <= 6)%nat.
Hypothesis Hshort : (length content < p + 24 + d * h * w * ki)%nat.

Let f1 := mk_rfile content (p + 24) (rf_reads (file s) ++ header_reads).

(** C2 (amended). When the file ends before the last voxel element,
    [read_voxel_buffer] raises nothing: every cell holds the float of the
    bytes [read] has returned for its element, zero for an element that
    begins at or after the end of the file.  [parse] then returns that
    buffer when the palette has no channel to read, and raises
    [struct.error] when it has one. *)
Theorem parse_truncated_voxels use_lists :
  ((n * c = 0)%nat ->
   exists a dict s',
     parse use_lists s = (Ok dict, s')
     /\ dict !! "voxels"
        = Some (if use_lists then PyList3 a else PyNdarray3 a)
     /\ forall x y z, (x < w)%nat -> (y < h)%nat -> (z < d)%nat ->
          exists f,
            get3 a x y z = Some f
            /\ float_of_int
                 (int_from_bytes_little
                    (element f1 ki (voxel_index w h x y z))) = Ok f
            /\ ((length content <= p + 24 + voxel_index w h x y z * ki)%nat ->
                f = S754_zero false))
  /\ ((1 <= n)%nat -> (1 <= c)%nat ->
      exists s', parse use_lists s = (Raise struct_error, s')).
Proof.
  split.
  - intros Hnc.
    destruct (parse_pass_Ok s ty w h d n c kc ki Hdata Hmagic Hlen Hty Hc Hkc
                Hki Hw Hh Hd Hn) with (use_lists := use_lists)
      as (a & pal & dict & s' & E & _ & _ & _ & _ & Dv & _ & Ha & _);
      [lia..| |].
    { unfold rfile_after. cbn [rf_pos rf_content]. fold content p.
      rewrite Hnc. lia. }
    exists a, dict, s'. split; [exact E|]. split; [exact Dv|].
    intros x y z Hx Hy Hz. destruct (Ha x y z Hx Hy Hz) as (f & Hf & Hfl).
    fold content p in Hfl. fold f1 in Hfl.
    exists f. split; [done|]. split; [done|].
    intros Hend. unfold element, f1 in Hfl. cbn [rf_pos rf_content] in Hfl.
    rewrite drop_ge, take_nil in Hfl by lia.
    cbn in Hfl. by injection Hfl.
  - intros Hn1 Hc1. unfold parse.
    erewrite bind_Ok by reflexivity. rewrite Hdata.
    erewrite bind_Ok by (by apply (read_header_Ok s ty)).
    fold content p.
    destruct (read_voxel_buffer_Ok (header_read s ty) w h d ki)
      as (s1 & Hv & (a & -> & Ha)).
    { cbn. fold content p. by rewrite Hw. }
    { cbn. fold content p. by rewrite Hh. }
    { cbn. fold content p. by rewrite Hd. }
    { cbn. fold content p. by rewrite Hki. }
    { lia. }
    erewrite bind_Ok by exact Hv.
    destruct (read_palette_buffer_eof
                (set_voxels (Some a)
                   (set_file (rfile_after (file (header_read s ty)) ki
                                (d * h * w)) (header_read s ty)))
                ty n c kc) as (s2 & E).
    { reflexivity. }
    { cbn. fold content p. by rewrite Hn. }
    { cbn. fold content p. by rewrite Hc. }
    { cbn. fold content p. by rewrite Hkc. }
    { by eapply py_list_get_elem_of. }
    { done. }
    { done. }
    { done. }
    { cbn. fold content p. lia. }
    exists s2. erewrite bind_Raise; [reflexivity|]. exact E.
Qed.
End truncated.

(** ** Values that do not fit a byte *)

Section write_out_of_range.
Import XRawVolumeWriter.
Variables (obj : t) (fs0 : filesystem) (path : string).

Lemma write_elem_Ok_or_Raise v wld :
  is_writing obj fs0 path wld ->
  (exists wld', write_bytes (OfList [ElemInt v]) wld = (Ok tt, wld')
                /\ is_writing obj fs0 path wld')
  \/ (exists wld', write_bytes (OfList [ElemInt v]) wld
                   = (Raise bytes_range_error, wld')).
Proof.
  intros (out & ->).
  destruct (decide (0 <= v < 256)) as [Hv|Hv].
  - left. destruct (write_elem_Ok obj fs0 path out v Hv) as (b & _ & ->).
    eexists. split; [reflexivity|]. by eexists.
  - right. eexists. apply write_bytes_Raise.
    cbn [py_bytes bytes_of_list byte_of_elem].
    by rewrite byte_of_int_Raise.
Qed.

Lemma write_elem_Raise v wld :
  ~ (0 <= v < 256) -> is_writing obj fs0 path wld ->
  exists wld', write_bytes (OfList [ElemInt v]) wld
               = (Raise bytes_range_error, wld').
Proof.
  intros Hv (out & ->). eexists. apply write_bytes_Raise.
  cbn [py_bytes bytes_of_list byte_of_elem]. by rewrite byte_of_int_Raise.
Qed.

Section voxels.
Variables (w h d : nat).
Hypothesis Hw : width obj = Z.of_nat w.
Hypothesis Hh : height obj = Z.of_nat h.
Hypothesis Hd : depth obj = Z.of_nat d.
Hypothesis Hcells : int_cells3 (voxels obj) w h d.

Lemma write_voxel_Ok_or_Raise x y z wld :
  (x < w)%nat -> (y < h)%nat -> (z < d)%nat ->
  is_writing obj fs0 path wld ->
  (exists wld', write_voxel x y z wld = (Ok tt, wld')
                /\ is_writing obj fs0 path wld')
  \/ (exists wld', write_voxel x y z wld = (Raise bytes_range_error, wld')).
Proof.
  intros Hx Hy Hz HI. destruct (Hcells x y z Hx Hy Hz) as (cell & v & Hc & He).
  destruct HI as (out & ->) eqn:E.
  rewrite (write_voxel_eq _ _ _ _ _ _ _ _ Hc), He.
  apply write_elem_Ok_or_Raise. by eexists.
Qed.

Lemma write_voxel_row_Ok_or_Raise y z wld :
  (y < h)%nat -> (z < d)%nat ->
  is_writing obj fs0 path wld ->
  (exists wld',
     bind (attr width) (fun w' => for_range w' (fun x => write_voxel x y z))
       wld = (Ok tt, wld')
     /\ is_writing obj fs0 path wld')
  \/ (exists wld',
        bind (attr width) (fun w' => for_range w' (fun x => write_voxel x y z))
          wld = (Raise bytes_range_error, wld')).
Proof.
  intros Hy Hz HI.
  assert (attr width wld = (Ok (Z.of_nat w), wld)) as Ha.
  { destruct HI as (out & ->). unfold attr, gets. cbn. by rewrite Hw. }
  rewrite (bind_Ok _ _ _ _ _ Ha). unfold for_range. rewrite Nat2Z.id.
  apply (for_each_Ok_or_Raise (is_writing obj fs0 path)); [done|].
  intros x wld1 Hx HI1. apply elem_of_seq in Hx.
  apply write_voxel_Ok_or_Raise; [lia|done..].
Qed.

Lemma write_voxel_plane_Ok_or_Raise z wld :
  (z < d)%nat ->
  is_writing obj fs0 path wld ->
  (exists wld',
     bind (attr height)
       (fun h' => for_range h'
          (fun y => w' <- attr width ;;
                    for_range w' (fun x => write_voxel x y z)))
       wld = (Ok tt, wld')
     /\ is_writing obj fs0 path wld')
  \/ (exists wld',
        bind (attr height)
          (fun h' => for_range h'
             (fun y => w' <- attr width ;;
                       for_range w' (fun x => write_voxel x y z)))
          wld = (Raise bytes_range_error, wld')).
Proof.
  intros Hz HI.
  assert (attr height wld = (Ok (Z.of_nat h), wld)) as Ha.
  { destruct HI as (out & ->). unfold attr, gets. cbn. by rewrite Hh. }
  rewrite (bind_Ok _ _ _ _ _ Ha). unfold for_range at 1 3. rewrite Nat2Z.id.
  apply (for_each_Ok_or_Raise (is_writing obj fs0 path)); [done|].
  intros y wld1 Hy HI1. apply elem_of_seq in Hy.
  apply write_voxel_row_Ok_or_Raise; [lia|done..].
Qed.

(** [write_voxels] returns, still writing, or raises the error of a value
    out of range. *)
Lemma write_voxels_Ok_or_Raise wld :
  is_writing obj fs0 path wld ->
  (exists wld', write_voxels wld = (Ok tt, wld')
                /\ is_writing obj fs0 path wld')
  \/ (exists wld', write_voxels wld = (Raise bytes_range_error, wld')).
Proof.
  intros HI. unfold write_voxels.
  assert (attr depth wld = (Ok (Z.of_nat d), wld)) as Ha.
  { destruct HI as (out & ->). unfold attr, gets. cbn. by rewrite Hd. }
  rewrite (bind_Ok _ _ _ _ _ Ha). unfold for_range at 1 4. rewrite Nat2Z.id.
  apply (for_each_Ok_or_Raise (is_writing obj fs0 path)); [done|].
  intros z wld1 Hz HI1. apply elem_of_seq in Hz.
  apply write_voxel_plane_Ok_or_Raise; [lia|done].
Qed.

(** With a voxel out of range, [write_voxels] raises. *)
Lemma write_voxels_Raise x y z cell v wld :
  (x < w)%nat -> (y < h)%nat -> (z < d)%nat ->
  nd_get3 (nd_data (voxels obj)) x y z = Ok cell ->
  elem_of_cell (nd_dtype (voxels obj)) cell = ElemInt v ->
  ~ (0 <= v < 256) ->
  is_writing obj fs0 path wld ->
  exists wld', write_voxels wld = (Raise bytes_range_error, wld').
Proof.
  intros Hx Hy Hz Hc He Hv HI. unfold write_voxels.
  assert (attr depth wld = (Ok (Z.of_nat d), wld)) as Ha.
  { destruct HI as (out & ->). unfold attr, gets. cbn. by rewrite Hd. }
  rewrite (bind_Ok _ _ _ _ _ Ha). unfold for_range at 1. rewrite Nat2Z.id.
  apply (for_each_Raise (is_writing obj fs0 path)); [done| |].
  { intros z' wld1 Hz' HI1. apply elem_of_seq in Hz'.
    apply write_voxel_plane_Ok_or_Raise; [lia|done]. }
  exists z. split; [apply elem_of_seq; lia|]. intros wld1 HI1.
  assert (attr height wld1 = (Ok (Z.of_nat h), wld1)) as Ha1.
  { destruct HI1 as (out & ->). unfold attr, gets. cbn. by rewrite Hh. }
  rewrite (bind_Ok _ _ _ _ _ Ha1). unfold for_range at 1. rewrite Nat2Z.id.
  apply (for_each_Raise (is_writing obj fs0 path)); [done| |].
  { intros y' wld2 Hy' HI2. apply elem_of_seq in Hy'.
    apply write_voxel_row_Ok_or_Raise; [lia|done..]. }
  exists y. split; [apply elem_of_seq; lia|]. intros wld2 HI2.
  assert (attr width wld2 = (Ok (Z.of_nat w), wld2)) as Ha2.
  { destruct HI2 as (out & ->). unfold attr, gets. cbn. by rewrite Hw. }
  rewrite (bind_Ok _ _ _ _ _ Ha2). unfold for_range. rewrite Nat2Z.id.
  apply (for_each_Raise (is_writing obj fs0 path)); [done| |].
  { intros x' wld3 Hx' HI3. apply elem_of_seq in Hx'.
    apply write_voxel_Ok_or_Raise; [lia|done..]. }
  exists x. split; [apply elem_of_seq; lia|]. intros wld3 HI3.
  destruct HI3 as (out & ->) eqn:E.
  rewrite (write_voxel_eq _ _ _ _ _ _ _ _ Hc), He.
  apply write_elem_Raise; [done|]. by eexists.
Qed.
End voxels.

Section palette.
Variables (n c : nat).
Hypothesis Hn : num_of_pallette_colors obj = Z.of_nat n.
Hypothesis Hc : num_of_color_channels obj = Z.of_nat c.
Hypothesis Hcells : int_cells2 (palette obj) n c.

Lemma write_channel_Ok_or_Raise i j wld :
  (i < n)%nat -> (j < c)%nat ->
  is_writing obj fs0 path wld ->
  (exists wld', write_channel i j wld = (Ok tt, wld')
                /\ is_writing obj fs0 path wld')
  \/ (exists wld', write_channel i j wld = (Raise bytes_range_error, wld')).
Proof.
  intros Hi Hj HI. destruct (Hcells i j Hi Hj) as (cell & v & Hcl & He).
  destruct HI as (out & ->) eqn:E.
  rewrite (write_channel_eq _ _ _ _ _ _ _ Hcl), He.
  apply write_elem_Ok_or_Raise. by eexists.
Qed.

Lemma write_channel_row_Ok_or_Raise i wld :
  (i < n)%nat ->
  is_writing obj fs0 path wld ->
  (exists wld',
     bind (attr num_of_color_channels)
       (fun c' => for_range c' (fun j => write_channel i j)) wld
     = (Ok tt, wld')
     /\ is_writing obj fs0 path wld')
  \/ (exists wld',
        bind (attr num_of_color_channels)
          (fun c' => for_range c' (fun j => write_channel i j)) wld
        = (Raise bytes_range_error, wld')).
Proof.
  intros Hi HI.
  assert (attr num_of_color_channels wld = (Ok (Z.of_nat c), wld)) as Ha.
  { destruct HI as (out & ->). unfold attr, gets. cbn. by rewrite Hc. }
  rewrite (bind_Ok _ _ _ _ _ Ha). unfold for_range. rewrite Nat2Z.id.
  apply (for_each_Ok_or_Raise (is_writing obj fs0 path)); [done|].
  intros j wld1 Hj HI1. apply elem_of_seq in Hj.
  apply write_channel_Ok_or_Raise; [done|lia|done].
Qed.

(** With a channel out of range, [write_palette] raises. *)
Lemma write_palette_Raise i j cell v wld :
  (i < n)%nat -> (j < c)%nat ->
  nd_get2 (nd_data (palette obj)) i j = Ok cell ->
  elem_of_cell (nd_dtype (palette obj)) cell = ElemInt v ->
  ~ (0 <= v < 256) ->
  is_writing obj fs0 path wld ->
  exists wld', write_palette wld = (Raise bytes_range_error, wld').
Proof.
  intros Hi Hj Hcl He Hv HI. unfold write_palette.
  assert (attr num_of_pallette_colors wld = (Ok (Z.of_nat n), wld)) as Ha.
  { destruct HI as (out & ->). unfold attr, gets. cbn. by rewrite Hn. }
  rewrite (bind_Ok _ _ _ _ _ Ha). unfold for_range at 1. rewrite Nat2Z.id.
  apply (for_each_Raise (is_writing obj fs0 path)); [done| |].
  { intros i' wld1 Hi' HI1. apply elem_of_seq in Hi'.
    apply write_channel_row_Ok_or_Raise; [lia|done]. }
  exists i. split; [apply elem_of_seq; lia|]. intros wld1 HI1.
  assert (attr num_of_color_channels wld1 = (Ok (Z.of_nat c), wld1)) as Ha1.
  { destruct HI1 as (out & ->). unfold attr, gets. cbn. by rewrite Hc. }
  rewrite (bind_Ok _ _ _ _ _ Ha1). unfold for_range. rewrite Nat2Z.id.
  apply (for_each_Raise (is_writing obj fs0 path)); [done| |].
  { intros j' wld2 Hj' HI2. apply elem_of_seq in Hj'.
    apply write_channel_Ok_or_Raise; [done|lia|done]. }
  exists j. split; [apply elem_of_seq; lia|]. intros wld2 HI2.
  destruct HI2 as (out & ->) eqn:E.
  rewrite (write_channel_eq _ _ _ _ _ _ _ Hcl), He.
  apply write_elem_Raise; [done|]. by eexists.
Qed.
End palette.
End write_out_of_range.

Lemma parse_truncated_voxels_witness :
  (exists a dict s',
     XRawVolumeParser.parse false (fresh_parser truncated_file) = (Ok dict, s')
     /\ dict !! "voxels" = Some (PyNdarray3 a)
     /\ forall x y z, (x < 2)%nat -> (y < 1)%nat -> (z < 1)%nat ->
          exists f,
            get3 a x y z = Some f
            /\ float_of_int
                 (int_from_bytes_little
                    (element (mk_rfile truncated_file 24 header_reads) 1
                       (voxel_index 2 1 x y z))) = Ok f
            /\ ((length truncated_file <= 24 + voxel_index 2 1 x y z * 1)%nat ->
                f = S754_zero false))
  /\ exists s',
       XRawVolumeParser.parse false (fresh_parser truncated_file_one_colour)
       = (Raise struct_error, s').
Proof.
  split.
  - apply (proj1 (parse_truncated_voxels (fresh_parser truncated_file)
                    fmt_I 2 1 1 0 4 1 1
                    ltac:(reflexivity) ltac:(reflexivity)
                    ltac:(vm_compute; lia) ltac:(reflexivity)
                    ltac:(reflexivity) ltac:(reflexivity) ltac:(reflexivity)
                    ltac:(reflexivity) ltac:(reflexivity) ltac:(reflexivity)
                    ltac:(reflexivity) ltac:(lia) ltac:(lia)
                    ltac:(vm_compute; lia) false)).
    reflexivity.
  - apply (proj2 (parse_truncated_voxels
                    (fresh_parser truncated_file_one_colour)
                    fmt_I 2 1 1 1 4 1 1
                    ltac:(reflexivity) ltac:(reflexivity)
                    ltac:(vm_compute; lia) ltac:(reflexivity)
                    ltac:(reflexivity) ltac:(reflexivity) ltac:(reflexivity)
                    ltac:(reflexivity) ltac:(reflexivity) ltac:(reflexivity)
                    ltac:(reflexivity) ltac:(lia) ltac:(lia)
                    ltac:(vm_compute; lia) false)); lia.
Defined.

(** A file with a valid header that ends before its second voxel is parsed
    without error: the voxel that is missing is zero. *)
Lemma parse_truncated_file_returns :
  (length truncated_file < 24 + 2 * 1 * 1 * 1)%nat
  /\ match XRawVolumeParser.parse false (fresh_parser truncated_file) with
     | (Ok dict, _) =>
       match dict !! "voxels" with
       | Some (PyNdarray3 a) =>
         (get3 a 0 0 0 ≫= int_of_float) = Some 7
         /\ get3 a 1 0 0 = Some (S754_zero false)
       | _ => False
       end
     | (Raise _, _) => False
     end.
Proof.
  split; [vm_compute; lia|]. vm_compute. split; reflexivity.
Qed.

Lemma int_cells3_pylist3 vl w h d :
  rect3 vl w h d -> int64s3 vl ->
  int_cells3 (mk_ndarray (np_dtype (pylist3 vl)) [w; h; d] (pylist3 vl))
    w h d.
Proof.
  intros Hr Hb x y z Hx Hy Hz. cbn [nd_data nd_dtype].
  destruct (get3_rect3 vl w h d x y z Hr Hx Hy Hz) as [v Hv].
  exists (PInt v), v. rewrite nd_get3_pylist3, Hv.
  by rewrite (np_dtype_pylist3 vl x y z v Hb Hv).
Qed.

Lemma int_cells2_pylist2 pl n c :
  rect2 pl n c -> int64s2 pl ->
  int_cells2 (mk_ndarray (np_dtype (pylist2 pl)) [n; c] (pylist2 pl)) n c.
Proof.
  intros Hr Hb i j Hi Hj. cbn [nd_data nd_dtype].
  destruct (get2_rect2 pl n c i j Hr Hi Hj) as [v Hv].
  exists (PInt v), v. rewrite nd_get2_pylist2, Hv.
  by rewrite (np_dtype_pylist2 pl i j v Hb Hv).
Qed.



(** The voxel 256 is not written as the byte 0: [write_file] raises, and
    the file holds the 24 bytes of the header and nothing more. *)
Lemma write_file_256_raises :
  exists obj wld hdr,
    XRawVolumeWriter.init (ArgPy (pylist3 [[[256]]])) (ArgPy PNone) = Ok obj
    /\ XRawVolumeWriter.write_file "a.xraw"
         (XRawVolumeWriter.mk_world obj ∅)
       = (Raise bytes_range_error, wld)
    /\ XRawVolumeWriter.fs wld !! "a.xraw" = Some hdr
    /\ length hdr = 24%nat.
Proof.
  eexists. eexists. eexists.
  split; [vm_compute; reflexivity|].
  split; [vm_compute; reflexivity|].
  split; [vm_compute; reflexivity|]. reflexivity.
Qed.

(** ** The bytes after the palette *)

Lemma take1_drop_rest {A} (l : list A) :
  take 1 l ++ drop (length (take 1 l)) l = l.
Proof. destruct l as [|a l]; [done|]. simpl. by rewrite drop_0. Qed.

Section remaining_exact.
Import XRawVolumeParser.

Lemma read_remaining_loop_eq : forall bound s r byte,
  remaining_bytes s = Some r ->
  (length byte <= 1)%nat ->
  (byte = [] -> drop (rf_pos (file s)) (rf_content (file s)) = []) ->
  (length byte + length (drop (rf_pos (file s)) (rf_content (file s)))
   <= bound)%nat ->
  read_remaining_loop bound byte s
  = (Ok tt,
     set_remaining_bytes
       (Some (r ++ byte ++ drop (rf_pos (file s)) (rf_content (file s))))
       (set_file
          (mk_rfile (rf_content (file s))
             (rf_pos (file s)
              + length (drop (rf_pos (file s)) (rf_content (file s))))
             (rf_reads (file s)
              ++ replicate
                   (length byte
                    + length (drop (rf_pos (file s)) (rf_content (file s))))
                   1))
          s)).
Proof.
  induction bound as [|bound IH]; intros s r byte Hr H1 Hnil Hlen.
  - destruct byte as [|b byte]; [|simpl in Hlen; lia].
    rewrite Hnil by done. destruct s as [[c p rs] ?]. simpl in *. subst.
    unfold set_remaining_bytes, set_file. cbn.
    by rewrite !app_nil_r, Nat.add_0_r.
  - destruct byte as [|b byte].
    + rewrite Hnil by done. destruct s as [[c p rs] ?]. simpl in *. subst.
      unfold set_remaining_bytes, set_file. cbn.
      by rewrite !app_nil_r, Nat.add_0_r.
    + destruct byte; [|simpl in H1; lia].
      cbn [read_remaining_loop].
      erewrite bind_Ok by (apply attr_Some; exact Hr).
      erewrite bind_Ok by reflexivity.
      erewrite bind_Ok by (apply read_eq; lia).
      rewrite rfile_read_nonneg by lia. cbn [fst snd file set_file
        set_remaining_bytes]. change (Z.to_nat 1) with 1%nat.
      set (rest := drop (rf_pos (file s)) (rf_content (file s))) in *.
      rewrite IH with (r := r ++ [b]).
      * cbn [file set_file rf_pos rf_content rf_reads].
        rewrite <- drop_drop. fold rest.
        pose proof (take1_drop_rest rest) as Htd.
        assert (length (take 1 rest)
                + length (drop (length (take 1 rest)) rest) = length rest)%nat
          as Hl by (by rewrite <- length_app, Htd).
        unfold set_remaining_bytes, set_file.
        cbn [file data color_channel_data_type num_of_color_channels
             bytes_per_channel bytes_per_index width height depth
             num_of_pallette_colors voxels palette remaining_bytes
             rf_content rf_pos rf_reads length].
        rewrite <- ?app_assoc, ?Htd, <- ?Nat.add_assoc, ?Hl.
        cbn [app]. reflexivity.
      * reflexivity.
      * rewrite length_take. lia.
      * cbn [file set_file rf_pos rf_content]. intros Ht.
        destruct rest as [|x rest'] eqn:Hrest; [|discriminate].
        unfold rest in Hrest. simpl. rewrite Nat.add_0_r. exact Hrest.
      * cbn [file set_file rf_pos rf_content].
        rewrite <- drop_drop. fold rest.
        rewrite length_take, length_drop. simpl in Hlen. lia.
Qed.

(** X2. [read_remaining_bytes] never fails: whatever the file holds, it
    keeps in [remaining_bytes] the bytes from the position to the end of the
    file, it leaves the position at the end, and it has asked for one byte
    once more than there were bytes left. *)
Theorem read_remaining_bytes_exact s :
  let rest := drop (rf_pos (file s)) (rf_content (file s)) in
  read_remaining_bytes s
  = (Ok tt,
     set_remaining_bytes (Some rest)
       (set_file
          (mk_rfile (rf_content (file s)) (rf_pos (file s) + length rest)
             (rf_reads (file s) ++ replicate (Datatypes.S (length rest)) 1))
          s)).
Proof.
  intros rest. unfold read_remaining_bytes.
  erewrite bind_Ok by reflexivity.
  erewrite bind_Ok by (apply read_eq; lia).
  erewrite bind_Ok by reflexivity.
  rewrite rfile_read_nonneg by lia. cbn [fst snd file set_file
    set_remaining_bytes rf_content]. change (Z.to_nat 1) with 1%nat.
  fold rest.
  rewrite read_remaining_loop_eq with (r := []).
  - cbn [file set_file rf_pos rf_content rf_reads].
    rewrite <- drop_drop. fold rest.
    pose proof (take1_drop_rest rest) as Htd.
    assert (length (take 1 rest)
                + length (drop (length (take 1 rest)) rest) = length rest)%nat
      as Hl by (by rewrite <- length_app, Htd).
    unfold set_remaining_bytes, set_file.
    cbn [file data color_channel_data_type num_of_color_channels
         bytes_per_channel bytes_per_index width height depth
         num_of_pallette_colors voxels palette remaining_bytes
         rf_content rf_pos rf_reads length].
    rewrite <- ?app_assoc, ?Htd, <- ?Nat.add_assoc, ?Hl.
    cbn [app]. reflexivity.
  - reflexivity.
  - rewrite length_take. lia.
  - cbn [file set_file rf_pos rf_content]. intros Ht.
    destruct rest as [|x rest'] eqn:Hrest; [|discriminate].
    unfold rest in Hrest. simpl. rewrite Nat.add_0_r. exact Hrest.
  - cbn [file set_file rf_pos rf_content].
    rewrite <- drop_drop. fold rest.
    rewrite length_take, length_drop. unfold rest. rewrite length_drop. lia.
Qed.
End remaining_exact.

(** ** What [parse] returns *)

Section parse_result.
Import XRawVolumeParser.

Lemma modify_inv (f : t -> t) s u s' :
  modify f s = (Ok u, s') -> s' = f s.
Proof. unfold modify. intros H. by injection H. Qed.

(** A pass of [parse] that returns, step by step. *)
Lemma parse_Ok_inv use_lists s dict s' :
  truthy (data s) = false ->
  parse use_lists s = (Ok dict, s') ->
  exists s1 s2 s3 s4 w h d n a pal,
    read_header s = (Ok tt, s1)
    /\ read_voxel_buffer s1 = (Ok tt, s2)
    /\ read_palette_buffer s2 = (Ok tt, s3)
    /\ read_remaining_bytes s3 = (Ok tt, s4)
    /\ width s4 = Some w /\ height s4 = Some h /\ depth s4 = Some d
    /\ num_of_pallette_colors s4 = Some n
    /\ voxels s4 = Some a /\ palette s4 = Some pal
    /\ dict = parse_result use_lists w h d n a pal
    /\ s' = set_data (Some dict) s4.
Proof.
  unfold parse. intros Ht H.
  apply bind_inv_Ok in H as (d0 & s0 & H0 & H).
  injection H0 as <- <-. rewrite Ht in H.
  apply bind_inv_Ok in H as ([] & s1 & H1 & H).
  apply bind_inv_Ok in H as ([] & s2 & H2 & H).
  apply bind_inv_Ok in H as ([] & s3 & H3 & H).
  apply bind_inv_Ok in H as ([] & s4 & H4 & H).
  exists s1, s2, s3, s4.
  apply bind_inv_Ok in H as ([] & ? & E & H). apply modify_inv in E as ->.
  apply bind_inv_Ok in H as (w & ? & Hw & H). apply attr_inv in Hw as [Hw ->].
  apply bind_inv_Ok in H as ([] & ? & E & H).
  apply data_setitem_inv in E as (? & [= <-] & ->).
  apply bind_inv_Ok in H as (h & ? & Hh & H). apply attr_inv in Hh as [Hh ->].
  apply bind_inv_Ok in H as ([] & ? & E & H).
  apply data_setitem_inv in E as (? & [= <-] & ->).
  apply bind_inv_Ok in H as (d & ? & Hd & H). apply attr_inv in Hd as [Hd ->].
  apply bind_inv_Ok in H as ([] & ? & E & H).
  apply data_setitem_inv in E as (? & [= <-] & ->).
  apply bind_inv_Ok in H as (n & ? & Hn & H). apply attr_inv in Hn as [Hn ->].
  apply bind_inv_Ok in H as ([] & ? & E & H).
  apply data_setitem_inv in E as (? & [= <-] & ->).
  apply bind_inv_Ok in H as (a & ? & Ha & H). apply attr_inv in Ha as [Ha ->].
  apply bind_inv_Ok in H as ([] & ? & E & H).
  apply data_setitem_inv in E as (? & [= <-] & ->).
  apply bind_inv_Ok in H as (pal & ? & Hp & H). apply attr_inv in Hp as [Hp ->].
  apply bind_inv_Ok in H as ([] & ? & E & H).
  apply data_setitem_inv in E as (? & [= <-] & ->).
  exists w, h, d, n, a, pal. cbn in Hw, Hh, Hd, Hn, Ha, Hp.
  do 10 (split; [done|]).
  apply bind_inv_Ok in H as ([] & s5 & E & H).
  apply attr_inv in H as [H ->].
  destruct use_lists.
  - apply bind_inv_Ok in E as (v & ? & Ev & E).
    unfold data_getitem in Ev.
    apply bind_inv_Ok in Ev as (m & ? & Em & Ev).
    apply attr_inv in Em as [[= <-] ->].
    rewrite lookup_insert_ne, lookup_insert_eq in Ev by done.
    injection Ev as <- <-.
    apply bind_inv_Ok in E as (l & ? & El & E).
    apply lift_inv in El as [[= <-] ->].
    apply bind_inv_Ok in E as ([] & ? & Es & E).
    apply data_setitem_inv in Es as (? & [= <-] & ->).
    apply bind_inv_Ok in E as (v & ? & Ev & E).
    unfold data_getitem in Ev.
    apply bind_inv_Ok in Ev as (m & ? & Em & Ev).
    apply attr_inv in Em as [[= <-] ->].
    rewrite lookup_insert_ne, lookup_insert_eq in Ev by done.
    injection Ev as <- <-.
    apply bind_inv_Ok in E as (l & ? & El & E).
    apply lift_inv in El as [[= <-] ->].
    apply data_setitem_inv in E as (? & [= <-] & ->).
    cbn in H. injection H as <-.
    assert (<["palette":=PyList2 pal]>
              (<["voxels":=PyList3 a]>
                 (<["palette":=PyNdarray2 pal]>
                    (<["voxels":=PyNdarray3 a]>
                       (<["num_of_pallette_colors":=PyInt n]>
                          (<["depth":=PyInt d]>
                             (<["height":=PyInt h]>
                                (<["width":=PyInt w]> ∅)))))))
            = parse_result true w h d n a pal) as ->.
    { unfold parse_result.
      rewrite (insert_insert_ne _ "voxels" "palette") by done.
      by rewrite !insert_insert_eq. }
    split; [done|]. destruct s4; reflexivity.
  - injection E as <-. cbn in H. injection H as <-.
    split; [done|]. destruct s4; reflexivity.
Qed.
End parse_result.

Section parse_entries.
Import XRawVolumeParser.

(** X3. The dictionary a pass of [parse] returns has six entries and no
    other: the three dimensions, the number of colours, and the two arrays
    the instance holds in [voxels] and [palette], as lists when [use_lists]
    is set.  The channel count, the channel type, the byte widths and the
    bytes after the palette are not in it. *)
Theorem parse_result_entries use_lists s dict s' :
  truthy (data s) = false ->
  parse use_lists s = (Ok dict, s') ->
  exists w h d n a pal,
    width s' = Some w /\ height s' = Some h /\ depth s' = Some d
    /\ num_of_pallette_colors s' = Some n
    /\ voxels s' = Some a /\ palette s' = Some pal
    /\ dict = parse_result use_lists w h d n a pal
    /\ forall k, is_Some (dict !! k)
         <-> k ∈ ["width"; "height"; "depth"; "num_of_pallette_colors";
                  "voxels"; "palette"].
Proof.
  intros Ht H.
  apply parse_Ok_inv in H
    as (s1 & s2 & s3 & s4 & w & h & d & n & a & pal & _ & _ & _ & _
        & Hw & Hh & Hd & Hn & Ha & Hp & -> & ->); [|done].
  exists w, h, d, n, a, pal. do 6 (split; [done|]). split; [done|].
  intros k. unfold parse_result.
  rewrite !lookup_insert_is_Some', lookup_empty, !elem_of_cons,
    elem_of_nil, is_Some_alt.
  naive_solver.
Qed.

Lemma parse_result_entries_witness :
  match parse false (fresh_parser truncated_file) with
  | (Ok dict, s') =>
    exists w h d n a pal,
      width s' = Some w /\ height s' = Some h /\ depth s' = Some d
      /\ num_of_pallette_colors s' = Some n
      /\ voxels s' = Some a /\ palette s' = Some pal
      /\ dict = parse_result false w h d n a pal
      /\ forall k, is_Some (dict !! k)
           <-> k ∈ ["width"; "height"; "depth"; "num_of_pallette_colors";
                    "voxels"; "palette"]
  | (Raise _, _) => False
  end.
Proof.
  destruct (parse_pass_Ok (fresh_parser truncated_file) fmt_I 2 1 1 0 4 1 1
              ltac:(reflexivity) ltac:(reflexivity) ltac:(vm_compute; lia)
              ltac:(reflexivity) ltac:(reflexivity) ltac:(reflexivity)
              ltac:(reflexivity) ltac:(reflexivity) ltac:(reflexivity)
              ltac:(reflexivity) ltac:(reflexivity) ltac:(lia) ltac:(lia)
              ltac:(vm_compute; lia) false)
    as (a & pal & dict & s' & E & _).
  rewrite E.
  apply (parse_result_entries false (fresh_parser truncated_file) dict s');
    [reflexivity|exact E].
Defined.
End parse_entries.

Section trailing.
Import XRawVolumeParser.
Variables (s : t) (ty : struct_format) (w h d n c kc ki : nat).
Let content := rf_content (file s).
Let p := rf_pos (file s).
Hypothesis Hdata : truthy (data s) = false.
Hypothesis Hmagic : take 4 (drop p content) = XRAW_bytes.
Hypothesis Hty : py_list_get color_channel_data_types (i8_at content (p + 4))
                 = Ok ty.
Hypothesis Hc : i8_at content (p + 5) = Z.of_nat c.
Hypothesis Hkc : i8_at content (p + 6) / 8 = Z.of_nat kc.
Hypothesis Hki : i8_at content (p + 7) / 8 = Z.of_nat ki.
Hypothesis Hw : u32_at content (p + 8) = Z.of_nat w.
Hypothesis Hh : u32_at content (p + 12) = Z.of_nat h.
Hypothesis Hd : u32_at content (p + 16) = Z.of_nat d.
Hypothesis Hn : u32_at content (p + 20) = Z.of_nat n.
Hypothesis Hkc4 : (kc <= 4)%nat.
Hypothesis Hki6 : (ki <= 6)%nat.
Hypothesis Hfit :
  (p + 24 + d * h * w * ki + n * c * kc <= length content)%nat.

End trailing.


(** ** A header that is cut, or that names no channel type *)

Section header_errors.
Import XRawVolumeParser.

Lemma read_byte_to_int_short s :
  (length (rf_content (file s)) <= rf_pos (file s))%nat ->
  read_byte_to_int s
  = (Raise struct_error,
     set_file (mk_rfile (rf_content (file s)) (rf_pos (file s))
                 (rf_reads (file s) ++ [1])) s).
Proof.
  intros Hl. unfold read_byte_to_int.
  erewrite bind_Ok by (apply read_eq; lia).
  rewrite rfile_read_nonneg by lia. cbn [fst snd].
  rewrite drop_ge by lia. rewrite take_nil. cbn [length].
  rewrite Nat.add_0_r. reflexivity.
Qed.

Lemma read_unsigned_int_short s :
  (length (rf_content (file s)) < rf_pos (file s) + 4)%nat ->
  exists f,
    read_unsigned_int s = (Raise struct_error, set_file f s).
Proof.
  intros Hl. unfold read_unsigned_int.
  erewrite bind_Ok by (apply read_eq; lia).
  rewrite rfile_read_nonneg by lia. cbn [fst snd].
  change (Z.to_nat 4) with 4%nat.
  eexists. unfold bind, lift, struct_unpack.
  rewrite length_take, length_drop. cbn [calcsize].
  destruct (Nat.eqb_spec
              (4 `min` (length (rf_content (file s)) - rf_pos (file s))) 4);
    [lia|]. reflexivity.
Qed.

Lemma py_list_get_types i :
  py_list_get color_channel_data_types i
  = if (-3 <=? i) && (i <? 3)
    then match color_channel_data_types !! Z.to_nat (i mod 3) with
         | Some ty => Ok ty
         | None => Raise IndexError
         end
    else Raise IndexError.
Proof.
  unfold py_list_get. change (Z.of_nat (length _)) with 3.
  destruct (Z.ltb_spec i 0).
  - destruct (Z.leb_spec 0 (i + 3)), (Z.ltb_spec (i + 3) 3),
      (Z.leb_spec (-3) i), (Z.ltb_spec i 3);
      cbn [andb]; try lia; try reflexivity.
    replace (i mod 3) with (i + 3); [reflexivity|].
    apply (Z.mod_unique_pos _ _ (-1)); lia.
  - destruct (Z.leb_spec 0 i), (Z.ltb_spec i 3), (Z.leb_spec (-3) i);
      cbn [andb]; try lia; try reflexivity.
    by rewrite Z.mod_small by lia.
Qed.

Lemma py_list_get_types_Raise i e :
  py_list_get color_channel_data_types i = Raise e -> e = IndexError.
Proof.
  unfold py_list_get. destruct (_ && _); [|congruence].
  destruct (_ !! _); congruence.
Qed.

Lemma magic_length s :
  take 4 (drop (rf_pos (file s)) (rf_content (file s))) = XRAW_bytes ->
  (rf_pos (file s) + 4 <= length (rf_content (file s)))%nat.
Proof.
  intros H. apply (f_equal length) in H.
  rewrite length_take, length_drop in H.
  change (length XRAW_bytes) with 4%nat in H. lia.
Qed.

Lemma magic_Ok s :
  take 4 (drop (rf_pos (file s)) (rf_content (file s))) = XRAW_bytes ->
  raise_error_if_file_not_valid s
  = (Ok tt,
     set_file (mk_rfile (rf_content (file s)) (rf_pos (file s) + 4)
                 (rf_reads (file s) ++ [4])) s).
Proof.
  intros Hmagic. rewrite raise_error_if_file_not_valid_eq.
  rewrite rfile_read_nonneg by lia. cbn [fst snd].
  change (Z.to_nat 4) with 4%nat. rewrite Hmagic.
  change (length XRAW_bytes) with 4%nat. reflexivity.
Qed.

Ltac norm :=
  cbn [file set_file rf_content rf_pos rf_reads
       set_color_channel_data_type set_num_of_color_channels
       set_bytes_per_channel set_bytes_per_index set_width set_height
       set_depth set_num_of_pallette_colors] in *.

Ltac raised :=
  eexists; eexists; split; [reflexivity|];
  split; [(by left) || (by right)|]; cbn; done.

Ltac read_byte H :=
  match goal with
  | |- context [bind read_byte_to_int _ ?st] =>
    destruct (le_lt_dec (rf_pos (file st) + 1) (length (rf_content (file st))))
      as [H|H];
    [erewrite bind_Ok by (apply read_byte_to_int_Ok; exact H)
    |erewrite bind_Raise by (apply read_byte_to_int_short; lia); raised];
    norm
  end.

Ltac read_uint H :=
  match goal with
  | |- context [bind read_unsigned_int _ ?st] =>
    destruct (le_lt_dec (rf_pos (file st) + 4) (length (rf_content (file st))))
      as [H|H];
    [erewrite bind_Ok by (apply read_unsigned_int_Ok; exact H)
    |destruct (read_unsigned_int_short st H) as (? & ?);
     erewrite bind_Raise by eassumption; raised];
    norm
  end.

Ltac assigned :=
  erewrite bind_Ok by reflexivity; norm.

(** A header that begins with the tag and is cut before its 24th byte. *)
Lemma read_header_short s :
  take 4 (drop (rf_pos (file s)) (rf_content (file s))) = XRAW_bytes ->
  (length (rf_content (file s)) < rf_pos (file s) + 24)%nat ->
  exists e s',
    read_header s = (Raise e, s')
    /\ (e = struct_error \/ e = IndexError)
    /\ data s' = data s /\ voxels s' = voxels s /\ palette s' = palette s.
Proof.
  intros Hmagic Hshort. unfold read_header.
  erewrite bind_Ok by (by apply magic_Ok).
  read_byte L1.
  destruct (py_list_get color_channel_data_types
              (i8_at (rf_content (file s)) (rf_pos (file s) + 4)))
    as [ty|e] eqn:Hty.
  2:{ apply py_list_get_types_Raise in Hty as Hty'. subst e.
      erewrite bind_Raise by reflexivity.
      raised. }
  erewrite bind_Ok by reflexivity.
  assigned. read_byte L2. assigned. read_byte L3. assigned.
  read_byte L4. assigned. read_uint L5. assigned. read_uint L6. assigned.
  read_uint L7. assigned. read_uint L8. lia.
Qed.
End header_errors.

(** X5. A file that begins with the tag but ends inside the header is not
    parsed: [parse] raises [struct.error] ([IndexError] when the byte of the
    channel type is there and names no type), nothing is cached and no
    buffer is made. *)
Theorem parse_truncated_header use_lists s :
  XRawVolumeParser.truthy (XRawVolumeParser.data s) = false ->
  take 4 (drop (rf_pos (XRawVolumeParser.file s))
            (rf_content (XRawVolumeParser.file s))) = XRAW_bytes ->
  (length (rf_content (XRawVolumeParser.file s))
   < rf_pos (XRawVolumeParser.file s) + 24)%nat ->
  exists e s',
    XRawVolumeParser.parse use_lists s = (Raise e, s')
    /\ (e = struct_error \/ e = IndexError)
    /\ XRawVolumeParser.data s' = XRawVolumeParser.data s
    /\ XRawVolumeParser.voxels s' = XRawVolumeParser.voxels s
    /\ XRawVolumeParser.palette s' = XRawVolumeParser.palette s.
Proof.
  intros Ht Hmagic Hshort.
  destruct (read_header_short s Hmagic Hshort) as (e & s' & Hh & He & Hs).
  exists e, s'. split; [|done].
  unfold XRawVolumeParser.parse.
  erewrite bind_Ok by reflexivity. rewrite Ht.
  by apply bind_Raise.
Qed.

Lemma parse_truncated_header_witness :
  exists e s',
    XRawVolumeParser.parse false (fresh_parser file_cut_in_header)
    = (Raise e, s')
    /\ (e = struct_error \/ e = IndexError)
    /\ XRawVolumeParser.data s' = None
    /\ XRawVolumeParser.voxels s' = None
    /\ XRawVolumeParser.palette s' = None.
Proof.
  apply (parse_truncated_header false (fresh_parser file_cut_in_header)).
  - reflexivity.
  - reflexivity.
  - vm_compute. lia.
Defined.

Section type_index.
Import XRawVolumeParser.

(** X6. The channel type is looked up with the signed byte at offset 4 as a
    Python index into the table of three types: -3..2 are accepted, the
    negative ones counting from the end (the byte 255 selects "f"); any
    other byte makes [read_header] raise [IndexError] when only the tag and
    that byte have been read, no attribute being made. *)
Theorem read_header_type_index s :
  take 4 (drop (rf_pos (file s)) (rf_content (file s))) = XRAW_bytes ->
  (rf_pos (file s) + 24 <= length (rf_content (file s)))%nat ->
  let i := i8_at (rf_content (file s)) (rf_pos (file s) + 4) in
  (-3 <= i < 3 ->
   exists ty,
     color_channel_data_types !! Z.to_nat (i mod 3) = Some ty
     /\ read_header s = (Ok tt, header_read s ty))
  /\ (~ (-3 <= i < 3) ->
      read_header s
      = (Raise IndexError,
         set_file (mk_rfile (rf_content (file s)) (rf_pos (file s) + 5)
                     (rf_reads (file s) ++ [4; 1])) s)).
Proof.
  intros Hmagic Hlen i.
  pose proof (py_list_get_types i) as Hget. split; intros Hi.
  - destruct (Z.leb_spec (-3) i); [|lia]. destruct (Z.ltb_spec i 3); [|lia].
    cbn [andb] in Hget.
    assert (0 <= i mod 3 < 3) as Hm by (apply Z.mod_pos_bound; lia).
    destruct (color_channel_data_types !! Z.to_nat (i mod 3)) as [ty|] eqn:E.
    + exists ty. split; [done|]. by apply read_header_Ok.
    + apply lookup_ge_None in E. cbn in E. lia.
  - assert ((-3 <=? i) && (i <? 3) = false) as Hb.
    { destruct (Z.leb_spec (-3) i), (Z.ltb_spec i 3); cbn [andb]; lia. }
    rewrite Hb in Hget. unfold read_header.
    erewrite bind_Ok by (by apply magic_Ok).
    erewrite bind_Ok by (apply read_byte_to_int_Ok; cbn; lia).
    cbn [file set_file rf_content rf_pos rf_reads].
    erewrite bind_Raise; [reflexivity|].
    unfold lift. fold i. rewrite Hget. f_equal.
    unfold set_file. cbn. do 2 f_equal; [lia|by rewrite <- app_assoc].
Qed.

Lemma read_header_type_index_witness :
  (exists ty,
     color_channel_data_types !! 2%nat = Some ty
     /\ read_header (fresh_parser (header_of_type "255"))
        = (Ok tt, header_read (fresh_parser (header_of_type "255")) ty))
  /\ read_header (fresh_parser (header_of_type "003"))
     = (Raise IndexError,
        set_file (mk_rfile (header_of_type "003") 5 [4; 1])
          (fresh_parser (header_of_type "003"))).
Proof.
  split.
  - apply (proj1 (read_header_type_index
                    (fresh_parser (header_of_type "255"))
                    ltac:(reflexivity) ltac:(vm_compute; lia))).
    split; vm_compute; congruence.
  - apply (proj2 (read_header_type_index
                    (fresh_parser (header_of_type "003"))
                    ltac:(reflexivity) ltac:(vm_compute; lia))).
    vm_compute. intros [_ H]. discriminate H.
Defined.
End type_index.

Section negative_channels.
Import XRawVolumeParser.
Variables (s : t) (ty : struct_format) (w h d ki : nat).
Let content := rf_content (file s).
Let p := rf_pos (file s).
Hypothesis Hdata : truthy (data s) = false.
Hypothesis Hmagic : take 4 (drop p content) = XRAW_bytes.
Hypothesis Hlen : (p + 24 <= length content)%nat.
Hypothesis Hty : py_list_get color_channel_data_types (i8_at content (p + 4))
                 = Ok ty.
Hypothesis Hki : i8_at content (p + 7) / 8 = Z.of_nat ki.
Hypothesis Hw : u32_at content (p + 8) = Z.of_nat w.
Hypothesis Hh : u32_at content (p + 12) = Z.of_nat h.
Hypothesis Hd : u32_at content (p + 16) = Z.of_nat d.
Hypothesis Hki6 : (ki <= 6)%nat.
Hypothesis Hc : i8_at content (p + 5) < 0.

End negative_channels.


(** ** What a computation keeps, whatever its outcome *)

Section preserves.
Context {S : Type} (I : S -> Prop).

Lemma preserves_bind {A B} (m : pym S A) (k : A -> pym S B) :
  preserves I m -> (forall a, preserves I (k a)) -> preserves I (bind m k).
Proof.
  intros Hm Hk s r s' Hs H.
  apply bind_inv in H as [(a & s1 & H1 & H)|(e & H1 & ->)].
  - eapply Hk; [|exact H]. by eapply Hm.
  - by eapply Hm.
Qed.

Lemma preserves_ret {A} (a : A) : preserves I (ret a).
Proof. intros s r s' Hs H. by injection H as _ <-. Qed.

Lemma preserves_raise {A} e : preserves I (raise (A := A) e).
Proof. intros s r s' Hs H. by injection H as _ <-. Qed.

Lemma preserves_gets {A} (f : S -> A) : preserves I (gets f).
Proof. intros s r s' Hs H. by injection H as _ <-. Qed.

Lemma preserves_lift {A} (o : outcome A) : preserves I (lift o).
Proof. intros s r s' Hs H. by injection H as _ <-. Qed.

Lemma preserves_for_each {A} (l : list A) (body : A -> pym S unit) :
  (forall x, preserves I (body x)) -> preserves I (for_each l body).
Proof.
  intros Hb. induction l as [|x l IH]; cbn [for_each].
  - apply preserves_ret.
  - apply preserves_bind; [apply Hb|]. intros _. exact IH.
Qed.

Lemma preserves_for_range n (body : nat -> pym S unit) :
  (forall x, preserves I (body x)) -> preserves I (for_range n body).
Proof. apply preserves_for_each. Qed.
End preserves.

(** ** The writer, whatever it is given *)

Section writer_frame.
Import XRawVolumeWriter.
Variables (obj : t) (fs0 : filesystem) (path : string).

Lemma write_bytes_writing arg :
  preserves (is_writing obj fs0 path) (write_bytes arg).
Proof.
  intros wld r wld' (out & ->) H.
  destruct (py_bytes arg) as [bs|e] eqn:E.
  - rewrite (write_bytes_Ok _ _ _ _ _ _ E) in H. injection H as _ <-.
    by eexists.
  - rewrite (write_bytes_Raise _ _ _ _ _ _ E) in H. injection H as _ <-.
    by eexists.
Qed.

Lemma write_unsigned_int_writing v :
  preserves (is_writing obj fs0 path) (write_unsigned_int v).
Proof.
  unfold write_unsigned_int. apply preserves_bind; [apply preserves_gets|].
  intros [h|]; [|apply preserves_ret].
  apply preserves_bind; [apply preserves_lift|].
  intros bs. apply write_bytes_writing.
Qed.

Ltac keeps :=
  repeat first
    [ apply preserves_gets | apply preserves_lift | apply preserves_ret
    | apply preserves_raise | apply write_bytes_writing
    | apply write_unsigned_int_writing
    | apply preserves_for_range; intros ?
    | apply preserves_bind; [|intros ?] ].

Lemma write_header_writing :
  preserves (is_writing obj fs0 path) write_header.
Proof.
  unfold write_header. apply preserves_bind; [apply preserves_gets|].
  intros [h|]; [|apply preserves_ret].
  apply preserves_bind; [apply preserves_gets|]. intros s.
  destruct (utf8_encode s); [|apply preserves_raise].
  unfold get_color_channel_data_type_index, attr. keeps.
Qed.

Lemma write_voxels_writing :
  preserves (is_writing obj fs0 path) write_voxels.
Proof. unfold write_voxels, write_voxel, attr. keeps. Qed.

Lemma write_palette_writing :
  preserves (is_writing obj fs0 path) write_palette.
Proof. unfold write_palette, write_channel, attr. keeps. Qed.

(** [write_file], step by step: the file of [path] is emptied, then
    written; the handle is closed when the three parts are written, and left
    open when one of them raises. *)
Lemma write_file_steps :
  exists r out,
    write_file path (mk_world obj fs0)
    = (r, mk_world (set_file (Some (mk_wfile path (returned r))) obj)
            (<[path := out]> fs0)).
Proof.
  unfold write_file, open_wb.
  erewrite bind_Ok by reflexivity.
  erewrite bind_Ok by reflexivity.
  change (mk_world _ _) with (writing obj fs0 path []) at 1.
  destruct (write_header (writing obj fs0 path [])) as [r1 w1] eqn:E1.
  destruct (write_header_writing _ _ _ ltac:(by eexists) E1) as (o1 & ->).
  destruct r1 as [[]|e];
    [|rewrite (bind_Raise _ _ _ _ _ E1); by exists (Raise e), o1].
  rewrite (bind_Ok _ _ _ _ _ E1).
  destruct (write_voxels (writing obj fs0 path o1)) as [r2 w2] eqn:E2.
  destruct (write_voxels_writing _ _ _ ltac:(by eexists) E2) as (o2 & ->).
  destruct r2 as [[]|e];
    [|rewrite (bind_Raise _ _ _ _ _ E2); by exists (Raise e), o2].
  rewrite (bind_Ok _ _ _ _ _ E2).
  destruct (write_palette (writing obj fs0 path o2)) as [r3 w3] eqn:E3.
  destruct (write_palette_writing _ _ _ ltac:(by eexists) E3) as (o3 & ->).
  destruct r3 as [[]|e];
    [|rewrite (bind_Raise _ _ _ _ _ E3); by exists (Raise e), o3].
  rewrite (bind_Ok _ _ _ _ _ E3).
  exists (Ok tt), o3. reflexivity.
Qed.
End writer_frame.





(** ** The defaults of the constructor *)

Section defaults.
Import XRawVolumeWriter.



(** X11. The palette is not checked as the voxels are: when the array made
    of the palette argument has fewer than two dimensions (a flat list of
    numbers, a number), the constructor raises [IndexError] where it looks
    for the number of channels, the voxels being a grid of three
    dimensions. *)
Theorem init_palette_of_one_dimension voxels palette v p :
  array_of_arg voxels default_voxels = Ok v ->
  length (nd_shape v) = 3%nat ->
  array_of_arg palette default_palette = Ok p ->
  (length (nd_shape p) < 2)%nat ->
  init voxels palette = Raise IndexError.
Proof.
  intros Hv H3 Hp H2. rewrite init_eq, Hv, Hp.
  cbn [mbind outcome_bind]. rewrite H3. cbn [Nat.eqb negb].
  destruct (nd_shape v) as [|a [|b [|c [|]]]]; try discriminate.
  cbn [shape_get lookup list_lookup mbind outcome_bind].
  destruct (nd_shape p) as [|n [|c' sh]]; [reflexivity|reflexivity|].
  cbn [length] in H2. lia.
Qed.

Lemma init_palette_of_one_dimension_witness :
  init (ArgPy (pylist3 [[[1]]])) (ArgPy (pylist1 [255; 255; 255; 255]))
  = Raise IndexError.
Proof.
  eapply (init_palette_of_one_dimension _ _ _ _).
  - reflexivity.
  - reflexivity.
  - reflexivity.
  - vm_compute. lia.
Defined.
End defaults.

(** ** The file that is written *)



(** ** Unsigned integers of four bytes *)

Lemma read_int_Ok s :
  (rf_pos (XRawVolumeParser.file s) + 4
   <= length (rf_content (XRawVolumeParser.file s)))%nat ->
  XRawVolumeParser.read_int s
  = (Ok (to_signed 32 (u32_at (rf_content (XRawVolumeParser.file s))
                         (rf_pos (XRawVolumeParser.file s)))),
     XRawVolumeParser.set_file
       (mk_rfile (rf_content (XRawVolumeParser.file s))
          (rf_pos (XRawVolumeParser.file s) + 4)
          (rf_reads (XRawVolumeParser.file s) ++ [4])) s).
Proof.
  intros Hl. unfold XRawVolumeParser.read_int.
  erewrite bind_Ok by (apply read_eq; lia).
  rewrite rfile_read_nonneg by lia. cbn [fst snd].
  change (Z.to_nat 4) with 4%nat.
  assert (length (take 4 (drop (rf_pos (XRawVolumeParser.file s))
                            (rf_content (XRawVolumeParser.file s))))
          = 4%nat) as Hlen by (rewrite length_take, length_drop; lia).
  unfold lift, bind, struct_unpack. rewrite Hlen. reflexivity.
Qed.

(** X13. [write_unsigned_int] writes a number of 0..2^32-1 as four bytes
    that [read_unsigned_int] reads back as the same number, and [read_int]
    as that number taken as a signed 32-bit integer; given any other number
    it raises [OverflowError] and writes nothing. *)
Theorem unsigned_int_written_then_read obj fs path out v :
  (0 <= v < 2 ^ 32 ->
   exists bs,
     XRawVolumeWriter.write_unsigned_int v (writing obj fs path out)
     = (Ok tt, writing obj fs path (out ++ bs))
     /\ forall s rest,
          rf_content (XRawVolumeParser.file s) = out ++ bs ++ rest ->
          rf_pos (XRawVolumeParser.file s) = length out ->
          let s' := XRawVolumeParser.set_file
                      (mk_rfile (out ++ bs ++ rest) (length out + 4)
                         (rf_reads (XRawVolumeParser.file s) ++ [4])) s in
          XRawVolumeParser.read_unsigned_int s = (Ok v, s')
          /\ XRawVolumeParser.read_int s = (Ok (to_signed 32 v), s'))
  /\ (~ (0 <= v < 2 ^ 32) ->
      XRawVolumeWriter.write_unsigned_int v (writing obj fs path out)
      = (Raise OverflowError, writing obj fs path out)).
Proof.
  split; intros Hv.
  - destruct (write_unsigned_int_Ok obj fs path v out Hv) as (bs & Hbs & E).
    exists bs. split; [exact E|]. intros s rest Hc Hp s'.
    assert (length bs = 4%nat) as Hl4.
    { rewrite <- (length_map byte_val), Hbs. reflexivity. }
    assert (u32_at (rf_content (XRawVolumeParser.file s))
              (rf_pos (XRawVolumeParser.file s)) = v) as Hu.
    { unfold u32_at. rewrite Hc, Hp, drop_app_length.
      rewrite take_app_length' by done.
      do 4 (destruct bs as [|? bs]; [discriminate|]).
      destruct bs; [|discriminate]. by apply le_bytes4_decode. }
    assert (rf_pos (XRawVolumeParser.file s) + 4
            <= length (rf_content (XRawVolumeParser.file s)))%nat as Hlen.
    { rewrite Hc, Hp, !length_app. lia. }
    rewrite (read_unsigned_int_Ok s Hlen), (read_int_Ok s Hlen), Hu.
    unfold s'. by rewrite Hc, Hp.
  - unfold XRawVolumeWriter.write_unsigned_int.
    erewrite bind_Ok by reflexivity.
    cbn [XRawVolumeWriter.self writing XRawVolumeWriter.set_file
         XRawVolumeWriter.file].
    apply bind_Raise. unfold lift. by rewrite int_to_bytes4_Raise.
Qed.

Lemma unsigned_int_written_then_read_witness :
  (exists bs,
     XRawVolumeWriter.write_unsigned_int (2 ^ 32 - 1)
       (writing (writer_of_one_voxel 7) ∅ "a.xraw" [])
     = (Ok tt, writing (writer_of_one_voxel 7) ∅ "a.xraw" ([] ++ bs))
     /\ forall s rest,
          rf_content (XRawVolumeParser.file s) = [] ++ bs ++ rest ->
          rf_pos (XRawVolumeParser.file s) = 0%nat ->
          let s' := XRawVolumeParser.set_file
                      (mk_rfile ([] ++ bs ++ rest) (0 + 4)
                         (rf_reads (XRawVolumeParser.file s) ++ [4])) s in
          XRawVolumeParser.read_unsigned_int s = (Ok (2 ^ 32 - 1), s')
          /\ XRawVolumeParser.read_int s
             = (Ok (to_signed 32 (2 ^ 32 - 1)), s'))
  /\ XRawVolumeWriter.write_unsigned_int (2 ^ 32)
       (writing (writer_of_one_voxel 7) ∅ "a.xraw" [])
     = (Raise OverflowError, writing (writer_of_one_voxel 7) ∅ "a.xraw" []).
Proof.
  split.
  - apply (proj1 (unsigned_int_written_then_read
                    (writer_of_one_voxel 7) ∅ "a.xraw" [] (2 ^ 32 - 1))).
    lia.
  - apply (proj2 (unsigned_int_written_then_read
                    (writer_of_one_voxel 7) ∅ "a.xraw" [] (2 ^ 32))).
    lia.
Defined.

(** ** A writer that has no file yet *)

Section no_file.
Import XRawVolumeWriter.
Context {S : Type}.

Lemma for_each_skip {A} (l : list A) (body : A -> pym S unit) s :
  (forall x, x ∈ l -> body x s = (Ok tt, s)) ->
  for_each l body s = (Ok tt, s).
Proof.
  induction l as [|x l IH]; intros H; [reflexivity|].
  cbn [for_each]. rewrite (bind_Ok _ _ _ _ _ (H x ltac:(by left))).
  apply IH. intros y Hy. apply H. by right.
Qed.
End no_file.

Section no_file_writer.
Import XRawVolumeWriter.
Variables (obj : t) (fs0 : filesystem) (w h d n c : nat).
Hypothesis Hfile : file obj = None.
Hypothesis Hw : width obj = Z.of_nat w.
Hypothesis Hh : height obj = Z.of_nat h.
Hypothesis Hd : depth obj = Z.of_nat d.
Hypothesis Hn : num_of_pallette_colors obj = Z.of_nat n.
Hypothesis Hc : num_of_color_channels obj = Z.of_nat c.
Hypothesis Hvox : forall x y z, (x < w)%nat -> (y < h)%nat -> (z < d)%nat ->
  exists cell, nd_get3 (nd_data (voxels obj)) x y z = Ok cell.
Hypothesis Hpal : forall i j, (i < n)%nat -> (j < c)%nat ->
  exists cell, nd_get2 (nd_data (palette obj)) i j = Ok cell.

Lemma write_bytes_no_file arg :
  write_bytes arg (mk_world obj fs0) = (Ok tt, mk_world obj fs0).
Proof.
  unfold write_bytes. erewrite bind_Ok by reflexivity.
  cbn [self]. by rewrite Hfile.
Qed.

(** X14. Before [write_file] is called the writer has no file, and the
    methods that write do nothing: [write_header], [write_voxels] and
    [write_palette] return, no file is made or changed, and no value is
    checked (a voxel outside 0..255 raises nothing here). *)
Theorem writes_without_file :
  write_header (mk_world obj fs0) = (Ok tt, mk_world obj fs0)
  /\ write_voxels (mk_world obj fs0) = (Ok tt, mk_world obj fs0)
  /\ write_palette (mk_world obj fs0) = (Ok tt, mk_world obj fs0).
Proof.
  split; [|split].
  - unfold write_header. erewrite bind_Ok by reflexivity.
    cbn [self]. by rewrite Hfile.
  - unfold write_voxels. erewrite bind_Ok by reflexivity.
    cbn [self]. rewrite Hd. unfold for_range at 1. rewrite Nat2Z.id.
    apply for_each_skip. intros z Hz. apply elem_of_seq in Hz.
    erewrite bind_Ok by reflexivity.
    cbn [self]. rewrite Hh. unfold for_range at 1. rewrite Nat2Z.id.
    apply for_each_skip. intros y Hy. apply elem_of_seq in Hy.
    erewrite bind_Ok by reflexivity.
    cbn [self]. rewrite Hw. unfold for_range at 1. rewrite Nat2Z.id.
    apply for_each_skip. intros x Hx. apply elem_of_seq in Hx.
    destruct (Hvox x y z) as (cell & Hcell); [lia..|].
    unfold write_voxel. erewrite bind_Ok by reflexivity. cbn [self].
    unfold nd_get3 in Hcell.
    destruct (nd_getitem (nd_data (voxels obj)) x) as [ax|e];
      [|discriminate Hcell].
    cbn [mbind outcome_bind] in Hcell.
    erewrite bind_Ok by reflexivity.
    destruct (nd_getitem ax y) as [axy|e]; [|discriminate Hcell].
    cbn [mbind outcome_bind] in Hcell.
    erewrite bind_Ok by reflexivity.
    erewrite bind_Ok by (unfold lift; rewrite Hcell; reflexivity).
    apply write_bytes_no_file.
  - unfold write_palette. erewrite bind_Ok by reflexivity.
    cbn [self]. rewrite Hn. unfold for_range at 1. rewrite Nat2Z.id.
    apply for_each_skip. intros i Hi. apply elem_of_seq in Hi.
    erewrite bind_Ok by reflexivity.
    cbn [self]. rewrite Hc. unfold for_range at 1. rewrite Nat2Z.id.
    apply for_each_skip. intros j Hj. apply elem_of_seq in Hj.
    destruct (Hpal i j) as (cell & Hcell); [lia..|].
    unfold write_channel. erewrite bind_Ok by reflexivity. cbn [self].
    unfold nd_get2 in Hcell.
    destruct (nd_getitem (nd_data (palette obj)) i) as [ai|e];
      [|discriminate Hcell].
    cbn [mbind outcome_bind] in Hcell.
    erewrite bind_Ok by reflexivity.
    erewrite bind_Ok by (unfold lift; rewrite Hcell; reflexivity).
    apply write_bytes_no_file.
Qed.
End no_file_writer.

Lemma writes_without_file_witness :
  XRawVolumeWriter.write_header
    (XRawVolumeWriter.mk_world (writer_of_one_voxel 300) ∅)
  = (Ok tt, XRawVolumeWriter.mk_world (writer_of_one_voxel 300) ∅)
  /\ XRawVolumeWriter.write_voxels
       (XRawVolumeWriter.mk_world (writer_of_one_voxel 300) ∅)
     = (Ok tt, XRawVolumeWriter.mk_world (writer_of_one_voxel 300) ∅)
  /\ XRawVolumeWriter.write_palette
       (XRawVolumeWriter.mk_world (writer_of_one_voxel 300) ∅)
     = (Ok tt, XRawVolumeWriter.mk_world (writer_of_one_voxel 300) ∅).
Proof.
  apply (writes_without_file (writer_of_one_voxel 300) ∅ 1 1 1 1 4).
  - reflexivity.
  - reflexivity.
  - reflexivity.
  - reflexivity.
  - reflexivity.
  - reflexivity.
  - intros x y z Hx Hy Hz.
    assert (x = 0%nat) as -> by lia. assert (y = 0%nat) as -> by lia.
    assert (z = 0%nat) as -> by lia. by eexists.
  - intros i j Hi Hj. assert (i = 0%nat) as -> by lia.
    destruct j as [|[|[|[|j]]]]; [by eexists..|lia].
Defined.

(** ** The default palette *)

Lemma byte_cells2_default_palette :
  byte_cells2 XRawVolumeWriter.default_palette 256 4.
Proof.
  intros i j Hi Hj. exists (PInt 255), 255.
  unfold XRawVolumeWriter.default_palette, nd_get2.
  cbn [nd_data nd_dtype nd_getitem].
  rewrite lookup_replicate_2 by done. cbn [mbind outcome_bind nd_getitem].
  rewrite lookup_replicate_2 by done. split; [done|]. split; [done|lia].
Qed.

Lemma init_lists_no_palette vl w h d :
  rect3 vl w h d -> (1 <= w)%nat -> (1 <= h)%nat ->
  XRawVolumeWriter.init (ArgPy (pylist3 vl)) (ArgPy PNone)
  = Ok (XRawVolumeWriter.mk
          (mk_ndarray (np_dtype (pylist3 vl)) [w; h; d] (pylist3 vl))
          XRawVolumeWriter.default_palette
          XRAW fmt_I 1 1 (Z.of_nat w) (Z.of_nat h) (Z.of_nat d) 256 4 None).
Proof.
  intros Hv Hw Hh. rewrite init_eq.
  unfold array_of_arg, pylist3 at 1.
  cbn [ne_None_truth mbind outcome_bind np_array_arg].
  fold (pylist3 vl). unfold np_array.
  rewrite (np_shape_pylist3 vl w h d) by done.
  reflexivity.
Qed.



(** ** What a pass of [parse] keeps when it raises *)

Section parser_frame.
Import XRawVolumeParser.

Lemma preserves_modify {S} (I : S -> Prop) (f : S -> S) :
  (forall s, I s -> I (f s)) -> preserves I (modify f).
Proof. intros Hf s r s' Hs H. injection H as _ <-. by apply Hf. Qed.

Lemma preserves_attr {A} (I : t -> Prop) (proj : t -> option A) :
  preserves I (attr proj).
Proof.
  intros s r s' Hs H. unfold attr in H.
  destruct (proj s); by injection H as _ <-.
Qed.

Lemma preserves_read (I : t -> Prop) n :
  (forall s f, I s -> I (set_file f s)) -> preserves I (read n).
Proof.
  intros Hf s r s' Hs H. unfold read in H.
  destruct (n <? -1); [by injection H as _ <-|].
  destruct (rfile_read n (file s)). injection H as _ <-. by apply Hf.
Qed.

(** The properties of the instance that reading does not change: those
    that do not depend on the file object. *)
Variable I : t -> Prop.
Hypothesis I_file : forall s f, I s -> I (set_file f s).

Ltac keeps :=
  repeat first
    [ apply preserves_gets | apply preserves_lift | apply preserves_ret
    | apply preserves_raise | apply preserves_attr
    | apply preserves_read; exact I_file
    | apply preserves_for_range; intros ?
    | apply preserves_bind; [|intros ?] ].

Lemma read_header_keeps :
  (forall s v, I s -> I (set_color_channel_data_type v s)) ->
  (forall s v, I s -> I (set_num_of_color_channels v s)) ->
  (forall s v, I s -> I (set_bytes_per_channel v s)) ->
  (forall s v, I s -> I (set_bytes_per_index v s)) ->
  (forall s v, I s -> I (set_width v s)) ->
  (forall s v, I s -> I (set_height v s)) ->
  (forall s v, I s -> I (set_depth v s)) ->
  (forall s v, I s -> I (set_num_of_pallette_colors v s)) ->
  preserves I read_header.
Proof.
  intros H1 H2 H3 H4 H5 H6 H7 H8.
  unfold read_header, raise_error_if_file_not_valid, read_byte_to_int,
    read_unsigned_int.
  apply preserves_bind.
  { apply preserves_bind; [apply preserves_read; exact I_file|]. intros bs.
    destruct (utf8_decode bs); [|apply preserves_raise].
    destruct (bool_decide _); [apply preserves_raise|apply preserves_ret]. }
  intros _. keeps; apply preserves_modify; intros s Hs; auto.
Qed.

Lemma read_voxel_buffer_keeps :
  (forall s v, I s -> I (set_voxels v s)) ->
  preserves I read_voxel_buffer.
Proof.
  intros H1. unfold read_voxel_buffer, read_voxel, voxels_setitem.
  keeps; try (apply preserves_modify; intros s Hs; auto).
  destruct (set3 _ _ _ _ _); [|apply preserves_raise].
  apply preserves_modify; intros s Hs; auto.
Qed.

Lemma read_palette_buffer_keeps :
  (forall s v, I s -> I (set_palette v s)) ->
  preserves I read_palette_buffer.
Proof.
  intros H1. unfold read_palette_buffer, read_channel, palette_setitem.
  keeps; try (apply preserves_modify; intros s Hs; auto).
  destruct (set2 _ _ _ _); [|apply preserves_raise].
  apply preserves_modify; intros s Hs; auto.
Qed.

Lemma read_remaining_loop_keeps bound :
  (forall s v, I s -> I (set_remaining_bytes v s)) ->
  forall byte, preserves I (read_remaining_loop bound byte).
Proof.
  intros H1. induction bound as [|bound IH]; intros byte.
  - destruct byte; [apply preserves_ret|apply preserves_raise].
  - destruct byte; [apply preserves_ret|]. cbn [read_remaining_loop].
    keeps; try (apply preserves_modify; intros s Hs; auto). apply IH.
Qed.

Lemma read_remaining_bytes_keeps :
  (forall s v, I s -> I (set_remaining_bytes v s)) ->
  preserves I read_remaining_bytes.
Proof.
  intros H1. unfold read_remaining_bytes.
  keeps; try (apply preserves_modify; intros s Hs; auto).
  by apply read_remaining_loop_keeps.
Qed.
End parser_frame.

Section parse_raises.
Import XRawVolumeParser.

(** The attributes of the header exist when [read_header] has returned. *)
Lemma read_header_Ok_attrs s s1 :
  read_header s = (Ok tt, s1) ->
  is_Some (width s1) /\ is_Some (height s1) /\ is_Some (depth s1)
  /\ is_Some (num_of_pallette_colors s1).
Proof.
  unfold read_header. intros H.
  apply bind_inv_Ok in H as (? & ? & E & H).
  apply raise_error_if_file_not_valid_reads in E as ->.
  apply bind_inv_Ok in H as (? & ? & E & H).
  apply read_byte_to_int_reads in E as ->.
  apply bind_inv_Ok in H as (? & ? & E & H). apply lift_state in E as ->.
  apply bind_inv_Ok in H as (? & ? & E & H). apply modify_inv in E as ->.
  apply bind_inv_Ok in H as (? & ? & E & H).
  apply read_byte_to_int_reads in E as ->.
  apply bind_inv_Ok in H as (? & ? & E & H). apply modify_inv in E as ->.
  apply bind_inv_Ok in H as (? & ? & E & H).
  apply read_byte_to_int_reads in E as ->.
  apply bind_inv_Ok in H as (? & ? & E & H). apply modify_inv in E as ->.
  apply bind_inv_Ok in H as (? & ? & E & H).
  apply read_byte_to_int_reads in E as ->.
  apply bind_inv_Ok in H as (? & ? & E & H). apply modify_inv in E as ->.
  apply bind_inv_Ok in H as (? & ? & E & H).
  apply read_unsigned_int_reads in E as ->.
  apply bind_inv_Ok in H as (? & ? & E & H). apply modify_inv in E as ->.
  apply bind_inv_Ok in H as (? & ? & E & H).
  apply read_unsigned_int_reads in E as ->.
  apply bind_inv_Ok in H as (? & ? & E & H). apply modify_inv in E as ->.
  apply bind_inv_Ok in H as (? & ? & E & H).
  apply read_unsigned_int_reads in E as ->.
  apply bind_inv_Ok in H as (? & ? & E & H). apply modify_inv in E as ->.
  apply bind_inv_Ok in H as (? & ? & E & H).
  apply read_unsigned_int_reads in E as ->.
  apply modify_inv in H as ->. cbn. by repeat split.
Qed.

Lemma read_voxel_buffer_Ok_voxels s s1 :
  read_voxel_buffer s = (Ok tt, s1) -> is_Some (voxels s1).
Proof.
  unfold read_voxel_buffer. intros H.
  apply bind_inv_Ok in H as (? & ? & E & H). apply attr_inv in E as [_ ->].
  apply bind_inv_Ok in H as (? & ? & E & H). apply attr_inv in E as [_ ->].
  apply bind_inv_Ok in H as (? & ? & E & H). apply attr_inv in E as [_ ->].
  apply bind_inv_Ok in H as (a & ? & E & H). apply lift_inv in E as [_ ->].
  apply bind_inv_Ok in H as (? & ? & E & H). apply modify_inv in E as ->.
  revert H. apply (preserves_bind (fun s => is_Some (voxels s))); [| |done].
  - apply preserves_attr.
  - intros d. unfold read_voxel, voxels_setitem.
    repeat first
      [ apply preserves_attr | apply preserves_lift
      | apply preserves_read; intros; assumption
      | apply preserves_for_range; intros ?
      | apply preserves_bind; [|intros ?] ].
    destruct (set3 _ _ _ _ _); [|apply preserves_raise].
    by apply preserves_modify.
Qed.

Lemma read_palette_buffer_Ok_palette s s1 :
  read_palette_buffer s = (Ok tt, s1) -> is_Some (palette s1).
Proof.
  unfold read_palette_buffer. intros H.
  apply bind_inv_Ok in H as (? & ? & E & H). apply attr_inv in E as [_ ->].
  apply bind_inv_Ok in H as (? & ? & E & H). apply attr_inv in E as [_ ->].
  apply bind_inv_Ok in H as (a & ? & E & H). apply lift_inv in E as [_ ->].
  apply bind_inv_Ok in H as (? & ? & E & H). apply modify_inv in E as ->.
  revert H. apply (preserves_bind (fun s => is_Some (palette s))); [| |done].
  - apply preserves_attr.
  - intros d. unfold read_channel, palette_setitem.
    repeat first
      [ apply preserves_attr | apply preserves_lift
      | apply preserves_read; intros; assumption
      | apply preserves_for_range; intros ?
      | apply preserves_bind; [|intros ?] ].
    destruct (set2 _ _ _ _); [|apply preserves_raise].
    by apply preserves_modify.
Qed.

(** X16. A pass of [parse] that raises caches nothing: [self.data] is as
    it was, so that a later call does not return a partial result but reads
    the file on from where the failed pass stopped. *)
Theorem parse_raises_no_cache use_lists s e s' :
  truthy (data s) = false ->
  parse use_lists s = (Raise e, s') ->
  data s' = data s.
Proof.
  intros Ht H. unfold parse in H.
  apply bind_inv in H as [(d0 & s0 & H0 & H)|(? & H0 & ?)];
    [|discriminate H0].
  injection H0 as <- <-. rewrite Ht in H.
  set (I := fun s1 : t => data s1 = data s).
  assert (forall s1 f, I s1 -> I (set_file f s1)) as If by done.
  apply bind_inv in H as [([] & s1 & H1 & H)|(? & H1 & _)].
  2:{ by apply (read_header_keeps I If) in H1. }
  assert (I s1) as I1 by (by apply (read_header_keeps I If) in H1).
  apply read_header_Ok_attrs in H1 as ([w Hw] & [h Hh] & [d Hd] & [n Hn]).
  apply bind_inv in H as [([] & s2 & H2 & H)|(? & H2 & _)].
  2:{ by apply (read_voxel_buffer_keeps I If) in H2. }
  assert (I s2 /\ width s2 = Some w /\ height s2 = Some h
          /\ depth s2 = Some d /\ num_of_pallette_colors s2 = Some n)
    as (I2 & Hw2 & Hh2 & Hd2 & Hn2).
  { split; [by apply (read_voxel_buffer_keeps I If) in H2|].
    split; [|split; [|split]].
    - by apply (read_voxel_buffer_keeps (fun s => width s = Some w)) in H2.
    - by apply (read_voxel_buffer_keeps (fun s => height s = Some h)) in H2.
    - by apply (read_voxel_buffer_keeps (fun s => depth s = Some d)) in H2.
    - by apply (read_voxel_buffer_keeps
                  (fun s => num_of_pallette_colors s = Some n)) in H2. }
  apply read_voxel_buffer_Ok_voxels in H2 as [a Ha].
  apply bind_inv in H as [([] & s3 & H3 & H)|(? & H3 & _)].
  2:{ by apply (read_palette_buffer_keeps I If) in H3. }
  assert (I s3 /\ width s3 = Some w /\ height s3 = Some h
          /\ depth s3 = Some d /\ num_of_pallette_colors s3 = Some n
          /\ voxels s3 = Some a)
    as (I3 & Hw3 & Hh3 & Hd3 & Hn3 & Ha3).
  { split; [by apply (read_palette_buffer_keeps I If) in H3|].
    split; [|split; [|split; [|split]]].
    - by apply (read_palette_buffer_keeps (fun s => width s = Some w)) in H3.
    - by apply (read_palette_buffer_keeps (fun s => height s = Some h)) in H3.
    - by apply (read_palette_buffer_keeps (fun s => depth s = Some d)) in H3.
    - by apply (read_palette_buffer_keeps
                  (fun s => num_of_pallette_colors s = Some n)) in H3.
    - by apply (read_palette_buffer_keeps (fun s => voxels s = Some a))
        in H3. }
  apply read_palette_buffer_Ok_palette in H3 as [pal Hp].
  destruct (read_remaining_bytes_Ok s3) as (f' & Hr & _).
  rewrite (bind_Ok _ _ _ _ _ Hr) in H.
  exfalso. revert H.
  erewrite bind_Ok by reflexivity.
  erewrite bind_Ok by (apply attr_Some; cbn; exact Hw3).
  erewrite bind_Ok by reflexivity.
  erewrite bind_Ok by (apply attr_Some; cbn; exact Hh3).
  erewrite bind_Ok by reflexivity.
  erewrite bind_Ok by (apply attr_Some; cbn; exact Hd3).
  erewrite bind_Ok by reflexivity.
  erewrite bind_Ok by (apply attr_Some; cbn; exact Hn3).
  erewrite bind_Ok by reflexivity.
  erewrite bind_Ok by (apply attr_Some; cbn; exact Ha3).
  erewrite bind_Ok by reflexivity.
  erewrite bind_Ok by (apply attr_Some; cbn; exact Hp).
  erewrite bind_Ok by reflexivity.
  destruct use_lists; erewrite bind_Ok by reflexivity; discriminate.
Qed.

Lemma parse_raises_no_cache_witness :
  match parse false (fresh_parser truncated_file_one_colour) with
  | (Raise _, s') => data s' = None
  | (Ok _, _) => False
  end.
Proof.
  destruct (parse false (fresh_parser truncated_file_one_colour))
    as [[dict|e] s'] eqn:E.
  - vm_compute in E. discriminate E.
  - apply (parse_raises_no_cache false
             (fresh_parser truncated_file_one_colour) e s');
      [reflexivity|exact E].
Defined.
End parse_raises.

Section negative_width.
Import XRawVolumeParser.
Variables (s : t) (ty : struct_format) (w h d : nat).
Let content := rf_content (file s).
Let p := rf_pos (file s).
Hypothesis Hdata : truthy (data s) = false.
Hypothesis Hmagic : take 4 (drop p content) = XRAW_bytes.
Hypothesis Hlen : (p + 24 <= length content)%nat.
Hypothesis Hty : py_list_get color_channel_data_types (i8_at content (p + 4))
                 = Ok ty.
Hypothesis Hw : u32_at content (p + 8) = Z.of_nat w.
Hypothesis Hh : u32_at content (p + 12) = Z.of_nat h.
Hypothesis Hd : u32_at content (p + 16) = Z.of_nat d.
Hypothesis Hw1 : (1 <= w)%nat.
Hypothesis Hh1 : (1 <= h)%nat.
Hypothesis Hd1 : (1 <= d)%nat.
Hypothesis Hki : i8_at content (p + 7) / 8 < -1.

End negative_width.

